(** * ccl_sqlite_jsonb: the SQLite JSONB reader, embedded and verified

    A shallow embedding of [src/ccl_sqlite_jsonb.py] and the proofs of the
    properties its specification states.  The file has three parts:

    - [Py]: the Python built-ins the reader calls (bytes slicing, the ascii
      and utf-8 codecs, [int], [float], [struct.unpack], dict membership),
      each as an executable function;
    - the reader itself ([_read_jsonb], [read_jsonb]), translated line by
      line, with the recursion bounded by a fuel that is then shown to be
      irrelevant;
    - the vocabulary of the specification (its error kinds, its table of
      size selectors, the grammar of integer literals) and the properties.

    Exceptions are values: a call returns [Return v] or [Raise e]. *)

From Stdlib Require Import NArith ZArith List Bool Lia.
From Stdlib.Strings Require Import Byte.
From Stdlib.Floats Require Import SpecFloat.
Import ListNotations.

Set Implicit Arguments.
Set Warnings "-register-all".

(** ** Outcomes of a Python call *)

(** Python values the reader returns:
    [Optional[Union[bool, int, float, str, dict, list]]].  A [str] is its
    sequence of code points, a [float] an IEEE-754 binary64 number, a [dict]
    its items in insertion order. *)
Definition str := list N.

Inductive pyvalue : Type :=
| PyNone
| PyBool (b : bool)
| PyInt (z : Z)
| PyFloat (f : spec_float)
| PyStr (s : str)
| PyList (l : list pyvalue)
| PyDict (d : list (pyvalue * pyvalue)).

Inductive codec := ascii | utf_8.

(** The places where the reader raises [ValueError], by message. *)
Inductive value_error :=
| Input_buffer_is_empty          (* line 59 *)
| Not_a_valid_JsonbType          (* line 61, the enum call *)
| Unexpected_size_value          (* line 78 *)
| Null_with_non_zero_size        (* line 82 *)
| Bool_with_non_zero_size        (* lines 86, 90 *)
| Invalid_literal_for_int        (* int(), lines 93, 96, 98 *)
| Could_not_convert_to_float     (* float(), line 100 *)
| Ran_out_of_data                (* line 132 *)
| Exceeds_the_limit_for_integer_string_conversion. (* line 136, the f-string *)

Inductive JsonbType :=
| Null | Bool_True | Bool_False | Int | Int5 | Float | Float5 | Text
| TextJ | Text5 | TextRaw | Array | Object
| RESERVED_13 | RESERVED_14 | RESERVED_15.

(** The exceptions that can leave [_read_jsonb]. *)
Inductive exception :=
| ValueError (why : value_error)
| IndexError                                (* jsonb_data[1], line 66 *)
| struct_error                              (* struct.unpack, lines 69-75 *)
| UnicodeDecodeError (c : codec)            (* bytes.decode *)
| NotImplementedError (t : JsonbType)       (* lines 104, 108 *)
| TypeError_unhashable                      (* key in result, line 135 *)
| KeyError (key : pyvalue)                  (* line 136 *)
| AttributeError.                           (* JsonbType.name, line 141 *)

(** A call returns, raises, or (in the fuel-bounded model only) runs out of
    fuel. *)
Inductive outcome (A : Type) : Type :=
| Return (a : A)
| Raise (e : exception)
| OutOfFuel.

Arguments Raise {A} e.
Arguments OutOfFuel {A}.

Definition bind {A B} (m : outcome A) (k : A -> outcome B) : outcome B :=
  match m with
  | Return a => k a
  | Raise e => Raise e
  | OutOfFuel => OutOfFuel
  end.

Notation "x <- m ;; k" := (bind m (fun x => k))
  (at level 61, m at next level, right associativity).
Notation "' p <- m ;; k" := (bind m (fun x => let p := x in k))
  (at level 61, p pattern, m at next level, right associativity).

Definition bytes := list byte.

(** ** The Python built-ins *)
Module Py.

Local Open Scope N_scope.

(** [len(b)] *)
Definition len {A} (b : list A) : N := N.of_nat (length b).

(** [b[n:]] and [b[:n]] for a non-negative [n]: out-of-range bounds are
    clamped, never an error. *)
Fixpoint from {A} (n : N) (b : list A) : list A :=
  match b with
  | [] => []
  | _ :: b' => if n =? 0 then b else from (N.pred n) b'
  end.

Fixpoint upto {A} (n : N) (b : list A) : list A :=
  match b with
  | [] => []
  | x :: b' => if n =? 0 then [] else x :: upto (N.pred n) b'
  end.

(** [b[i:j]], empty when [j <= i]. *)
Definition slice {A} (i j : N) (b : list A) : list A := upto (j - i) (from i b).

(** [b[i]] *)
Definition index (b : bytes) (i : N) : outcome N :=
  match from i b with
  | x :: _ => Return (Byte.to_N x)
  | [] => Raise IndexError
  end.

(** [struct.unpack(">H" | ">I" | ">Q", b)]: an unsigned big-endian integer
    of exactly [width] bytes. *)
Definition big_endian (b : bytes) : N :=
  fold_left (fun acc x => acc * 256 + Byte.to_N x) b 0.

Definition unpack (width : N) (b : bytes) : outcome N :=
  if len b =? width then Return (big_endian b) else Raise struct_error.

(** [b.decode("ascii")] *)
Definition decode_ascii (b : bytes) : outcome str :=
  if forallb (fun x => Byte.to_N x <? 128) b
  then Return (map Byte.to_N b)
  else Raise (UnicodeDecodeError ascii).

(** [b.decode("utf-8")], strict: shortest forms only, no surrogates, nothing
    above U+10FFFF. *)
Definition cont (x : N) : bool := (128 <=? x) && (x <=? 191).
Definition within (lo hi x : N) : bool := (lo <=? x) && (x <=? hi).

Fixpoint utf8 (b : list N) : option str :=
  match b with
  | [] => Some []
  | b0 :: r0 =>
    if b0 <? 128 then option_map (cons b0) (utf8 r0)
    else if within 194 223 b0 then
      match r0 with
      | b1 :: r1 =>
        if cont b1
        then option_map (cons ((b0 - 192) * 64 + (b1 - 128))) (utf8 r1)
        else None
      | _ => None
      end
    else if within 224 239 b0 then
      match r0 with
      | b1 :: b2 :: r2 =>
        if within (if b0 =? 224 then 160 else 128)
                  (if b0 =? 237 then 159 else 191) b1 && cont b2
        then option_map
               (cons ((b0 - 224) * 4096 + (b1 - 128) * 64 + (b2 - 128)))
               (utf8 r2)
        else None
      | _ => None
      end
    else if within 240 244 b0 then
      match r0 with
      | b1 :: b2 :: b3 :: r3 =>
        if within (if b0 =? 240 then 144 else 128)
                  (if b0 =? 244 then 143 else 191) b1 && cont b2 && cont b3
        then option_map
               (cons ((b0 - 240) * 262144 + (b1 - 128) * 4096
                      + (b2 - 128) * 64 + (b3 - 128)))
               (utf8 r3)
        else None
      | _ => None
      end
    else None
  end.

Definition decode_utf8 (b : bytes) : outcome str :=
  match utf8 (map Byte.to_N b) with
  | Some s => Return s
  | None => Raise (UnicodeDecodeError utf_8)
  end.

(** *** [int(s)] and [int(s, 16)] on an ASCII [str]

    CPython's [PyLong_FromString]: blanks, a sign, for base 16 an optional
    [0x] prefix, digits with single underscores between them, blanks.  For a
    base that is not a power of two the number of digits is limited
    ([sys.int_info.default_max_str_digits]). *)
Definition Py_ISSPACE (c : N) : bool := within 9 13 c || (c =? 32).

Definition _PyLong_DigitValue (c : N) : N :=
  if within 48 57 c then c - 48
  else if within 97 122 c then c - 87
  else if within 65 90 c then c - 55
  else 37.

Definition int_max_str_digits : N := 4300.

Fixpoint skip_space (s : str) : str :=
  match s with
  | c :: s' => if Py_ISSPACE c then skip_space s' else s
  | [] => []
  end.

(** The digit scan: value so far, digits seen, whether the previous
    character was an underscore.  Stops at the first character that is
    neither a digit nor an underscore; [None] on a doubled or trailing
    underscore. *)
Fixpoint scan_digits (base : N) (prev_us : bool) (acc digits : N) (s : str)
  : option (N * N * str) :=
  match s with
  | c :: s' =>
    if c =? 95 then
      if prev_us then None else scan_digits base true acc digits s'
    else if _PyLong_DigitValue c <? base then
      scan_digits base false (acc * base + _PyLong_DigitValue c) (digits + 1) s'
    else if prev_us then None else Some (acc, digits, s)
  | [] => if prev_us then None else Some (acc, digits, [])
  end.

Definition is_nil {A} (l : list A) : bool :=
  match l with [] => true | _ => false end.

Definition strip_sign (s : str) : bool * str :=
  match s with
  | c :: s' => if c =? 43 then (false, s')
               else if c =? 45 then (true, s') else (false, s)
  | [] => (false, s)
  end.

Definition strip_prefix (base : N) (s : str) : str :=
  match s with
  | c0 :: c1 :: s' =>
    if (c0 =? 48)
       && (((base =? 16) && ((c1 =? 120) || (c1 =? 88)))
           || ((base =? 8) && ((c1 =? 111) || (c1 =? 79)))
           || ((base =? 2) && ((c1 =? 98) || (c1 =? 66))))
    then match s' with
         | c2 :: s'' => if c2 =? 95 then s'' else s'
         | [] => s'
         end
    else s
  | _ => s
  end.

Definition leading_underscore (s : str) : bool :=
  match s with c :: _ => c =? 95 | [] => false end.

Definition int_ (s : str) (base : N) : outcome Z :=
  let '(neg, s1) := strip_sign (skip_space s) in
  let s2 := strip_prefix base s1 in
  if leading_underscore s2 then Raise (ValueError Invalid_literal_for_int)
  else
    match scan_digits base false 0 0 s2 with
    | None => Raise (ValueError Invalid_literal_for_int)
    | Some (v, digits, rest) =>
      if (digits =? 0)
         || (negb (N.land base (base - 1) =? 0) && (int_max_str_digits <? digits))
         || negb (is_nil (skip_space rest))
      then Raise (ValueError Invalid_literal_for_int)
      else Return (if neg then Z.opp (Z.of_N v) else Z.of_N v)
    end.

(** *** [float(s)] on an ASCII [str]

    CPython's [PyFloat_FromString]: underscores are removed when each stands
    between two digits, blanks are stripped, and the rest is a decimal
    literal, [inf], [infinity] or [nan] (any case), read in full.  The
    decimal value is rounded to the nearest binary64 number, ties to even;
    the exponent is taken at face value. *)
Definition is_digit (c : N) : bool := within 48 57 c.

Fixpoint strip_underscores (prev : N) (s : str) : option str :=
  match s with
  | c :: s' =>
    if c =? 95 then
      if is_digit prev then strip_underscores c s' else None
    else if (prev =? 95) && negb (is_digit c) then None
    else option_map (cons c) (strip_underscores c s')
  | [] => if prev =? 95 then None else Some []
  end.

Fixpoint span_digits (s : str) : str * str :=
  match s with
  | c :: s' =>
    if is_digit c
    then let '(d, r) := span_digits s' in (c :: d, r)
    else ([], s)
  | [] => ([], [])
  end.

Definition decimal_value (d : str) : N :=
  fold_left (fun acc c => acc * 10 + (c - 48)) d 0.

Definition Py_TOLOWER (c : N) : N := if within 65 90 c then c + 32 else c.

Fixpoint str_eqb (s t : str) : bool :=
  match s, t with
  | [], [] => true
  | c :: s', d :: t' => (c =? d) && str_eqb s' t'
  | _, _ => false
  end.

Definition case_insensitive_match (s : str) (word : str) : bool :=
  str_eqb (map Py_TOLOWER (upto (len word) s)) word.

Definition _Py_parse_inf_or_nan (s : str) : option (spec_float * str) :=
  let '(neg, s1) := strip_sign s in
  if case_insensitive_match s1 [105; 110; 102] then
    let s2 := from 3 s1 in
    if case_insensitive_match s2 [105; 110; 105; 116; 121]
    then Some (S754_infinity neg, from 5 s2)
    else Some (S754_infinity neg, s2)
  else if case_insensitive_match s1 [110; 97; 110] then Some (S754_nan, from 3 s1)
  else None.

(** The binary64 number nearest to [(-1)^neg * d * 10^e10], ties to even:
    the quotient [p / q] is taken in units of [2^-1076], a quarter of the
    least subnormal number, with the place of the remainder, and rounded. *)
Definition binary64_of_decimal (neg : bool) (d : N) (e10 : Z) : spec_float :=
  if d =? 0 then S754_zero neg
  else
    let p := (if 0 <=? e10 then Z.of_N d * 10 ^ e10 else Z.of_N d)%Z in
    let q := (if 0 <=? e10 then 1 else 10 ^ (- e10))%Z in
    let m := (p * 2 ^ 1076 / q)%Z in
    let r := ((p * 2 ^ 1076) mod q)%Z in
    binary_round_aux 53 1024 neg m (- 1076)
      (if (r =? 0)%Z then loc_Exact else loc_Inexact (2 * r ?= q)%Z).

(** The exponent part at the head of [s], when it has a digit. *)
Definition exponent (s : str) : Z * str :=
  match s with
  | c :: s1 =>
    if (c =? 101) || (c =? 69) then
      let '(eneg, s2) := strip_sign s1 in
      let '(ep, s3) := span_digits s2 in
      if is_nil ep then (0%Z, s)
      else ((if eneg then Z.opp (Z.of_N (decimal_value ep))
             else Z.of_N (decimal_value ep)), s3)
    else (0%Z, s)
  | [] => (0%Z, s)
  end.

(** The decimal literal at the head of [s]: sign, digits with an optional
    point, exponent. *)
Definition _Py_dg_strtod (s : str) : option (spec_float * str) :=
  let '(neg, s1) := strip_sign s in
  let '(ip, s2) := span_digits s1 in
  let '(fp, s3) :=
    match s2 with
    | c :: s' => if c =? 46 then span_digits s' else ([], s2)
    | [] => ([], s2)
    end in
  if is_nil (ip ++ fp) then None
  else
    let '(e, s4) := exponent s3 in
    Some (binary64_of_decimal neg (decimal_value (ip ++ fp))
            (e - Z.of_N (len fp)), s4).

Definition float_ (s : str) : outcome spec_float :=
  match strip_underscores 0 s with
  | None => Raise (ValueError Could_not_convert_to_float)
  | Some s0 =>
    let s1 := skip_space s0 in
    match (match _Py_dg_strtod s1 with
           | Some r => Some r
           | None => _Py_parse_inf_or_nan s1
           end) with
    | Some (x, rest) =>
      if is_nil (skip_space rest) then Return x
      else Raise (ValueError Could_not_convert_to_float)
    | None => Raise (ValueError Could_not_convert_to_float)
    end
  end.

(** *** Dictionaries

    Keys are looked up by hash and [==]: [None] equals itself, two [str] are
    equal when their code points are, and [bool], [int] and [float] compare
    as numbers ([True == 1 == 1.0]; a NaN equals nothing).  Hashing a [list]
    or a [dict] raises [TypeError]. *)
Definition hashable (v : pyvalue) : bool :=
  match v with
  | PyList _ | PyDict _ => false
  | _ => true
  end.

Definition float_eq_int (f : spec_float) (z : Z) : bool :=
  match f with
  | S754_zero _ => (z =? 0)%Z
  | S754_finite s m e =>
    let v := if s then Z.neg m else Z.pos m in
    if (0 <=? e)%Z then (z =? v * 2 ^ e)%Z else (z * 2 ^ (- e) =? v)%Z
  | _ => false
  end.

Definition eq (a b : pyvalue) : bool :=
  match a, b with
  | PyNone, PyNone => true
  | PyStr s, PyStr t => str_eqb s t
  | PyBool x, PyBool y => Bool.eqb x y
  | PyBool x, PyInt z | PyInt z, PyBool x => (Z.b2z x =? z)%Z
  | PyInt x, PyInt y => (x =? y)%Z
  | PyBool x, PyFloat f | PyFloat f, PyBool x => float_eq_int f (Z.b2z x)
  | PyInt z, PyFloat f | PyFloat f, PyInt z => float_eq_int f z
  | PyFloat f, PyFloat g => SFeqb f g
  | _, _ => false                (* other kinds; a list or dict is no key *)
  end.

Definition dict := list (pyvalue * pyvalue).

(** [key in d] *)
Definition contains (d : dict) (key : pyvalue) : outcome bool :=
  if hashable key
  then Return (existsb (fun item => eq (fst item) key) d)
  else Raise TypeError_unhashable.

(** [d[key] = value]: the value of an equal key is replaced in place, a new
    key goes last. *)
Fixpoint store (d : dict) (key value : pyvalue) : dict :=
  match d with
  | [] => [(key, value)]
  | (k, v) :: d' =>
    if eq k key then (k, value) :: d' else (k, v) :: store d' key value
  end.

Definition setitem (d : dict) (key value : pyvalue) : outcome dict :=
  if hashable key then Return (store d key value)
  else Raise TypeError_unhashable.

End Py.

(** ** The reader *)

Local Open Scope N_scope.

(** [JsonbType(n)]: the enum member of value [n]. *)
Definition JsonbType_ (n : N) : outcome JsonbType :=
  match n with
  | 0 => Return Null
  | 1 => Return Bool_True
  | 2 => Return Bool_False
  | 3 => Return Int
  | 4 => Return Int5
  | 5 => Return Float
  | 6 => Return Float5
  | 7 => Return Text
  | 8 => Return TextJ
  | 9 => Return Text5
  | 10 => Return TextRaw
  | 11 => Return Array
  | 12 => Return Object
  | 13 => Return RESERVED_13
  | 14 => Return RESERVED_14
  | 15 => Return RESERVED_15
  | _ => Raise (ValueError Not_a_valid_JsonbType)
  end.

(** Lines 58-78: the first byte and the size prefix.  Returns [json_type],
    the resolved [size] and [data_start_offset]. *)
Definition header (jsonb_data : bytes) : outcome (JsonbType * N * N) :=
  match jsonb_data with
  | [] => Raise (ValueError Input_buffer_is_empty)
  | byte0 :: _ =>
    let size := N.shiftr (N.land (Byte.to_N byte0) 0xf0) 4 in
    json_type <- JsonbType_ (N.land (Byte.to_N byte0) 0x0f) ;;
    if size <=? 11 then Return (json_type, size, 1)
    else if size =? 12 then
      size <- Py.index jsonb_data 1 ;; Return (json_type, size, 2)
    else if size =? 13 then
      size <- Py.unpack 2 (Py.slice 1 3 jsonb_data) ;; Return (json_type, size, 3)
    else if size =? 14 then
      size <- Py.unpack 4 (Py.slice 1 5 jsonb_data) ;; Return (json_type, size, 5)
    else if size =? 15 then
      size <- Py.unpack 8 (Py.slice 1 9 jsonb_data) ;; Return (json_type, size, 9)
    else Raise (ValueError Unexpected_size_value)
  end.

(** Line 136, [raise KeyError(f"Key already in object: {key}")]: the
    message is formatted first, and printing an [int] of more than
    [Py.int_max_str_digits] decimal digits raises [ValueError] instead. *)
Definition Key_already_in_object (key : pyvalue) : exception :=
  match key with
  | PyInt z =>
    if (10 ^ Z.of_N Py.int_max_str_digits <=? Z.abs z)%Z
    then ValueError Exceeds_the_limit_for_integer_string_conversion
    else KeyError key
  | _ => KeyError key
  end.

Section Body.

(** The recursive call [_read_jsonb(...)]. *)
Variable rd : bytes -> outcome (pyvalue * N).

(** Lines 120-123: the [while] loop of an Array.  [n] bounds the number of
    iterations of the model; the loop of the source has no such bound. *)
Fixpoint array_loop (n : nat) (inner_data : bytes) (size bytes_consumed : N)
    (result : list pyvalue) : outcome (list pyvalue) :=
  if bytes_consumed <? size then
    match n with
    | O => OutOfFuel
    | S n' =>
      '(element, element_size) <- rd (Py.from bytes_consumed inner_data) ;;
      array_loop n' inner_data size (bytes_consumed + element_size)
                 (result ++ [element])
    end
  else Return result.

(** Lines 128-139: the [while] loop of an Object. *)
Fixpoint object_loop (n : nat) (inner_data : bytes) (size bytes_consumed : N)
    (result : Py.dict) : outcome Py.dict :=
  if bytes_consumed <? size then
    match n with
    | O => OutOfFuel
    | S n' =>
      '(key, key_size) <- rd (Py.from bytes_consumed inner_data) ;;
      let bytes_consumed := bytes_consumed + key_size in
      if size <=? bytes_consumed then Raise (ValueError Ran_out_of_data)
      else
        '(value, value_size) <- rd (Py.from bytes_consumed inner_data) ;;
        present <- Py.contains result key ;;
        if present : bool then Raise (Key_already_in_object key)
        else
          let bytes_consumed := bytes_consumed + value_size in
          result <- Py.setitem result key value ;;
          object_loop n' inner_data size bytes_consumed result
    end
  else Return result.

(** Lines 80-141: the value of a record of type [json_type] whose payload of
    [size] bytes starts at [data_start_offset]. *)
Definition payload (jsonb_data : bytes) (json_type : JsonbType)
    (size data_start_offset : N) : outcome pyvalue :=
  match json_type with
  | Null =>
    if negb (size =? 0) then Raise (ValueError Null_with_non_zero_size)
    else Return PyNone
  | Bool_True =>
    if negb (size =? 0) then Raise (ValueError Bool_with_non_zero_size)
    else Return (PyBool true)
  | Bool_False =>
    if negb (size =? 0) then Raise (ValueError Bool_with_non_zero_size)
    else Return (PyBool false)
  | Int =>
    s <- Py.decode_ascii
           (Py.slice data_start_offset (data_start_offset + size) jsonb_data) ;;
    z <- Py.int_ s 10 ;; Return (PyInt z)
  | Int5 =>
    if list_eq_dec Byte.byte_eq_dec
         (Py.slice data_start_offset (data_start_offset + 2) jsonb_data)
         [x30; x78]
    then
      s <- Py.decode_ascii
             (Py.slice (data_start_offset + 2) (data_start_offset + size)
                       jsonb_data) ;;
      z <- Py.int_ s 16 ;; Return (PyInt z)
    else
      s <- Py.decode_ascii
             (Py.slice data_start_offset (data_start_offset + size) jsonb_data) ;;
      z <- Py.int_ s 10 ;; Return (PyInt z)
  | Float | Float5 =>
    s <- Py.decode_ascii
           (Py.slice data_start_offset (data_start_offset + size) jsonb_data) ;;
    f <- Py.float_ s ;; Return (PyFloat f)
  | Text | TextRaw =>
    s <- Py.decode_utf8
           (Py.slice data_start_offset (data_start_offset + size) jsonb_data) ;;
    Return (PyStr s)
  | TextJ => Raise (NotImplementedError TextJ)
  | Text5 => Raise (NotImplementedError Text5)
  | Array =>
    let inner_data :=
      Py.slice data_start_offset (data_start_offset + size) jsonb_data in
    result <- array_loop (S (length inner_data)) inner_data size 0 [] ;;
    Return (PyList result)
  | Object =>
    let inner_data :=
      Py.slice data_start_offset (data_start_offset + size) jsonb_data in
    result <- object_loop (S (length inner_data)) inner_data size 0 [] ;;
    Return (PyDict result)
  | RESERVED_13 | RESERVED_14 | RESERVED_15 =>
    (* the message reads [JsonbType.name], which the enum class lacks *)
    Raise AttributeError
  end.

(** The body of [_read_jsonb], lines 58-143. *)
Definition _read_jsonb_body (jsonb_data : bytes) : outcome (pyvalue * N) :=
  '(json_type, size, data_start_offset) <- header jsonb_data ;;
  result <- payload jsonb_data json_type size data_start_offset ;;
  Return (result, data_start_offset + size).

End Body.

(** [_read_jsonb] with the depth of its recursion bounded by [fuel]: the
    reader when the interpreter allows [fuel] nested activations of
    [_read_jsonb] (its recursion limit, less the frames in use when the
    reader is called and those an activation needs for the calls it makes
    itself).  The activation that would exceed them raises Python's
    [RecursionError], which the source does not catch: that is the
    [OutOfFuel] of this function. *)
Fixpoint _read_jsonb_fuel (fuel : nat) (jsonb_data : bytes)
  : outcome (pyvalue * N) :=
  match fuel with
  | O => OutOfFuel
  | S fuel' => _read_jsonb_body (_read_jsonb_fuel fuel') jsonb_data
  end.

(** Every nested record lies in the payload of its parent, so the depth is
    at most the length of the buffer ([read_jsonb_fuel_enough] below).
    [_read_jsonb] is the reader on a call stack as deep as the buffer asks:
    what it returns or raises is what the source returns or raises when
    the interpreter's limit on the depth of recursion is not reached.  What
    depends on that limit is stated on [_read_jsonb_fuel]. *)
Definition _read_jsonb (jsonb_data : bytes) : outcome (pyvalue * N) :=
  _read_jsonb_fuel (S (length jsonb_data)) jsonb_data.

(** Lines 146-147. *)
Definition read_jsonb (jsonb_data : bytes) : outcome pyvalue :=
  r <- _read_jsonb jsonb_data ;; Return (fst r).

(** ** The vocabulary of the specification *)

(** The error kinds of the specification's taxonomy, and the kind each
    exception of the reader answers to.  The two [ValueError]s the reader
    cannot reach have none; no exception answers to [TruncatedPayload] or
    [MalformedComposite]. *)
Inductive error_kind :=
| EmptyInput | InvalidType | UnsupportedEncoding | TruncatedHeader
| TruncatedPayload | MalformedScalar | NumericParseError | TextDecodeError
| NonTextKey | DuplicateKey | TruncatedObject | MalformedComposite.

Definition kind_of (e : exception) : option error_kind :=
  match e with
  | ValueError Input_buffer_is_empty => Some EmptyInput
  | ValueError Null_with_non_zero_size => Some MalformedScalar
  | ValueError Bool_with_non_zero_size => Some MalformedScalar
  | ValueError Invalid_literal_for_int => Some NumericParseError
  | ValueError Could_not_convert_to_float => Some NumericParseError
  | ValueError Ran_out_of_data => Some TruncatedObject
  | ValueError _ => None
  | IndexError | struct_error => Some TruncatedHeader
  | UnicodeDecodeError ascii => Some NumericParseError
  | UnicodeDecodeError utf_8 => Some TextDecodeError
  | NotImplementedError _ => Some UnsupportedEncoding
  | TypeError_unhashable => Some NonTextKey
  | KeyError _ => Some DuplicateKey
  | AttributeError => Some InvalidType
  end.

(** [fails_with r k]: the call raised an exception of kind [k]. *)
Definition fails_with {A} (r : outcome A) (k : error_kind) : Prop :=
  exists e, r = Raise e /\ kind_of e = Some k.

(** The size selector and the type tag of a first byte. *)
Definition selector (byte0 : byte) : N := N.shiftr (N.land (Byte.to_N byte0) 0xf0) 4.
Definition tag (byte0 : byte) : N := N.land (Byte.to_N byte0) 0x0f.

(** The specification's table of size selectors: the length of the header,
    and the payload size it resolves to given the bytes after byte 0. *)
Definition header_length (S : N) : N :=
  if S <=? 11 then 1
  else if S =? 12 then 2
  else if S =? 13 then 3
  else if S =? 14 then 5
  else 9.

Definition resolved_size (S : N) (after : bytes) : N :=
  if S <=? 11 then S
  else Py.big_endian (Py.upto (header_length S - 1) after).

(** A header for a payload of [size] bytes written with selector [S]:
    [S] itself is the size for [S <= 11], otherwise the size follows in 1,
    2, 4 or 8 big-endian bytes. *)
Definition representable (S size : N) : Prop :=
  (S <= 11 /\ size = S) \/ (12 <= S <= 15 /\ size < 256 ^ (header_length S - 1)).

Definition byte_of_N (n : N) : byte :=
  match Byte.of_N n with Some b => b | None => x00 end.

Fixpoint big_endian_bytes (width : nat) (n : N) : bytes :=
  match width with
  | O => []
  | S w => big_endian_bytes w (n / 256) ++ [byte_of_N (n mod 256)]
  end.

Definition header_bytes (S t size : N) : bytes :=
  byte_of_N (S * 16 + t)
  :: (if S <=? 11 then []
      else big_endian_bytes (N.to_nat (header_length S - 1)) size).

(** A record that is an Int5 of fewer than two bytes: line 95 compares the
    two bytes at [data_start_offset] whatever the size. *)
Definition short_Int5 (jsonb_data : bytes) : bool :=
  match header jsonb_data with
  | Return (Int5, size, _) => size <? 2
  | _ => false
  end.

(** [chunk] is a complete record of value [v]: read alone it yields [v] and
    reports its own length. *)
Definition encodes (chunk : bytes) (v : pyvalue) : Prop :=
  _read_jsonb chunk = Return (v, Py.len chunk).

Definition is_text (v : pyvalue) : bool :=
  match v with PyStr _ => true | _ => false end.

(** The types whose value is parsed from the text of the payload. *)
Definition parsed_from_text (t : JsonbType) : bool :=
  match t with
  | Int | Int5 | Float | Float5 | Text | TextRaw => true
  | _ => false
  end.

(** The two loops run by [_read_jsonb] itself, from a given cursor. *)
Definition array_items (inner_data : bytes) (size bytes_consumed : N)
    (result : list pyvalue) : outcome (list pyvalue) :=
  array_loop _read_jsonb (S (length inner_data)) inner_data size
             bytes_consumed result.

Definition object_items (inner_data : bytes) (size bytes_consumed : N)
    (result : Py.dict) : outcome Py.dict :=
  object_loop _read_jsonb (S (length inner_data)) inner_data size
              bytes_consumed result.

(** A key record followed by a value record, and the item they encode. *)
Definition item_bytes (pair : bytes * bytes) : bytes := fst pair ++ snd pair.

Definition encodes_item (pair : bytes * bytes) (item : pyvalue * pyvalue) : Prop :=
  encodes (fst pair) (fst item) /\ encodes (snd pair) (snd item).

(** What lines 135-139 do with a sequence of decoded items: each key is
    looked up ([TypeError] when it cannot be hashed, [KeyError] when an
    equal key is there) and then stored. *)
Fixpoint insert_items (d : Py.dict) (items : list (pyvalue * pyvalue))
  : outcome Py.dict :=
  match items with
  | [] => Return d
  | (key, value) :: items' =>
    present <- Py.contains d key ;;
    if present : bool then Raise (Key_already_in_object key)
    else d' <- Py.setitem d key value ;; insert_items d' items'
  end.

(** No key of the list equals ([==]) a later one. *)
Definition distinct_keys (keys : list pyvalue) : Prop :=
  ForallOrdPairs (fun a b => Py.eq a b = false) keys.

(** The literals [int] reads in base 10, as a grammar: blanks, an optional
    sign, decimal digits in groups separated by single underscores, blanks;
    at most [Py.int_max_str_digits] digits.  [digit_groups body ds]: [body]
    is such a run of groups and [ds] are its digits. *)
Definition blank (c : N) : Prop := 9 <= c <= 13 \/ c = 32.
Definition digit (c : N) : Prop := 48 <= c <= 57.

Inductive digit_groups : str -> list N -> Prop :=
| dg_last d :
    digit d -> digit_groups [d] [d - 48]
| dg_digit d body ds :
    digit d -> digit_groups body ds -> digit_groups (d :: body) (d - 48 :: ds)
| dg_underscore d body ds :
    digit d -> digit_groups body ds ->
    digit_groups (d :: 95 :: body) (d - 48 :: ds).

Inductive sign_of : str -> bool -> Prop :=
| sign_none : sign_of [] false
| sign_plus : sign_of [43] false
| sign_minus : sign_of [45] true.

Definition number (ds : list N) : N :=
  fold_left (fun acc d => acc * 10 + d) ds 0.

Definition int_literal (s : str) (z : Z) : Prop :=
  exists ws1 sg neg body ds ws2,
    s = ws1 ++ sg ++ body ++ ws2 /\
    Forall blank ws1 /\ Forall blank ws2 /\
    sign_of sg neg /\
    digit_groups body ds /\
    Py.len ds <= Py.int_max_str_digits /\
    z = if neg then Z.opp (Z.of_N (number ds)) else Z.of_N (number ds).

(** The literal form the specification gives for an Int payload: an
    optional sign and then ASCII decimal digits, nothing else. *)
Definition signed_digits (p : bytes) : bool :=
  match map Byte.to_N p with
  | c :: s =>
    if (c =? 43) || (c =? 45)
    then negb (Py.is_nil s) && forallb Py.is_digit s
    else forallb Py.is_digit (c :: s)
  | [] => false
  end.

(** The narrowest selector that can hold [size]. *)
Definition minimal_selector (size : N) : N :=
  if size <=? 11 then size
  else if size <? 256 then 12
  else if size <? 256 ^ 2 then 13
  else if size <? 256 ^ 4 then 14
  else 15.

(** A reader that never runs out of fuel on the buffers shorter than [b] and
    reports at least one byte, on a non-empty buffer, when it returns. *)
Definition productive (rd : bytes -> outcome (pyvalue * N)) (b : bytes) : Prop :=
  forall c, rd (Py.from c b) <> OutOfFuel /\
            forall v k, rd (Py.from c b) = Return (v, k) ->
                        1 <= k /\ Py.from c b <> [].

(** The value of a record of tag 0, 1 or 2 (lines 80-91). *)
Definition constant_of (t : N) : option pyvalue :=
  match t with
  | 0 => Some PyNone
  | 1 => Some (PyBool true)
  | 2 => Some (PyBool false)
  | _ => None
  end.

(** A Unicode scalar value: a code point up to U+10FFFF that is not a
    surrogate. *)
Definition scalar (c : N) : Prop := c < 0xD800 \/ 0xE000 <= c <= 0x10FFFF.

(** UTF-8, written out: the bytes of a code point, and of a string. *)
Definition utf8_bytes (c : N) : list N :=
  if c <? 0x80 then [c]
  else if c <? 0x800 then [192 + c / 64; 128 + c mod 64]
  else if c <? 0x10000 then
    [224 + c / 4096; 128 + (c / 64) mod 64; 128 + c mod 64]
  else
    [240 + c / 262144; 128 + (c / 4096) mod 64; 128 + (c / 64) mod 64;
     128 + c mod 64].

Definition encode_utf8 (s : str) : bytes :=
  map byte_of_N (flat_map utf8_bytes s).

(** The decimal digits of [n], most significant first, and the text of an
    integer: a minus sign when negative, then the digits as characters. *)
Fixpoint decimal_digits_fuel (fuel : nat) (n : N) : list N :=
  match fuel with
  | O => []
  | S fuel' =>
    if n <? 10 then [n]
    else decimal_digits_fuel fuel' (n / 10) ++ [n mod 10]
  end.

Definition decimal_digits (n : N) : list N :=
  decimal_digits_fuel (S (N.to_nat (N.size n))) n.

Definition int_text (z : Z) : str :=
  (if (z <? 0)%Z then [45] else [])
  ++ map (fun d => d + 48) (decimal_digits (Z.abs_N z)).

(** A hexadecimal digit in either case, and the number a run of them
    writes. *)
Definition hex_digit (c : N) : Prop :=
  48 <= c <= 57 \/ 65 <= c <= 70 \/ 97 <= c <= 102.

Definition hex_number (hs : str) : N :=
  fold_left (fun acc c => acc * 16 + Py._PyLong_DigitValue c) hs 0.

(** The weight of a value: one for the value itself, one for each character
    of a string, and the weights of the elements, keys and values inside. *)
Fixpoint weight (v : pyvalue) : N :=
  match v with
  | PyStr s => 1 + Py.len s
  | PyList l => 1 + fold_right (fun e a => weight e + a) 0 l
  | PyDict d => 1 + fold_right (fun '(k, x) a => weight k + weight x + a) 0 d
  | _ => 1
  end.

Definition weights (l : list pyvalue) : N :=
  fold_right (fun e a => weight e + a) 0 l.

Definition item_weights (d : Py.dict) : N :=
  fold_right (fun '(k, x) a => weight k + weight x + a) 0 d.

(** The exceptions that leave the reader: every one it can raise but the
    [ValueError] of the enum call (line 61) and that of line 78; a
    [NotImplementedError] names TextJ or Text5, and the key of a [KeyError]
    can be hashed. *)
Definition raised_by_the_reader (e : exception) : Prop :=
  match e with
  | ValueError Not_a_valid_JsonbType => False
  | ValueError Unexpected_size_value => False
  | NotImplementedError t => t = TextJ \/ t = Text5
  | KeyError key => Py.hashable key = true
  | _ => True
  end.

(** JSON documents without floating-point numbers, and a writer for them:
    each value goes under the shortest header for its payload, an integer
    as its decimal text, a string and the keys of an object as UTF-8.  The
    writer is no part of the source: it names the buffers on which the
    reader is shown to give the document back. *)
Inductive json :=
| JNull
| JBool (b : bool)
| JInt (z : Z)
| JStr (s : str)
| JArr (elements : list json)
| JObj (members : list (str * json)).

Fixpoint value_of (j : json) : pyvalue :=
  match j with
  | JNull => PyNone
  | JBool b => PyBool b
  | JInt z => PyInt z
  | JStr s => PyStr s
  | JArr l => PyList (map value_of l)
  | JObj m => PyDict (map (fun '(k, x) => (PyStr k, value_of x)) m)
  end.

Definition record (t : N) (body : bytes) : bytes :=
  header_bytes (minimal_selector (Py.len body)) t (Py.len body) ++ body.

Fixpoint write (j : json) : bytes :=
  match j with
  | JNull => record 0 []
  | JBool b => record (if b then 1 else 2) []
  | JInt z => record 3 (map byte_of_N (int_text z))
  | JStr s => record 7 (encode_utf8 s)
  | JArr l => record 11 (concat (map write l))
  | JObj m =>
    record 12
      (concat (map (fun '(k, x) => record 7 (encode_utf8 k) ++ write x) m))
  end.

(** The documents the reader can give back: integers of at most 4300
    digits, strings of scalar values, and no key twice in an object. *)
Fixpoint well_formed (j : json) : Prop :=
  match j with
  | JNull | JBool _ => True
  | JInt z => (Z.abs z < 10 ^ 4300)%Z
  | JStr s => Forall scalar s
  | JArr l => fold_right (fun e P => well_formed e /\ P) True l
  | JObj m =>
    NoDup (map fst m) /\
    fold_right (fun '(k, x) P => Forall scalar k /\ well_formed x /\ P) True m
  end.

(** Line 95 on a record followed by other bytes: the record is an Int5
    whose payload has fewer than two bytes, and the two bytes at
    [data_start_offset], the first bytes of [trailing] among them, read
    [0x]. *)
Definition looks_past_the_record (record trailing : bytes) : bool :=
  match header record with
  | Return (Int5, size, dso) =>
    (size <? 2)
    && (if list_eq_dec Byte.byte_eq_dec
             (Py.slice dso (dso + 2) (record ++ trailing)) [x30; x78]
        then true else false)
  | _ => false
  end.

(** The nesting depth of a document: the number of activations of
    [_read_jsonb] that are on the stack while its innermost value is
    read. *)
Fixpoint depth (j : json) : nat :=
  match j with
  | JArr l => S (fold_right (fun e d => Nat.max (depth e) d) 0%nat l)
  | JObj m => S (fold_right (fun '(k, x) d => Nat.max (depth x) d) 0%nat m)
  | _ => 1%nat
  end.

(** ** Slices *)

Unset Implicit Arguments.

Lemma from_skipn {A} (n : N) (b : list A) : Py.from n b = skipn (N.to_nat n) b.
Proof.
  revert n; induction b as [|x b IH]; intros n; simpl.
  - now rewrite skipn_nil.
  - destruct (N.eqb_spec n 0) as [->|Hn]; [reflexivity|].
    rewrite IH. replace (N.to_nat n) with (S (N.to_nat (N.pred n))) by lia.
    reflexivity.
Qed.

Lemma upto_firstn {A} (n : N) (b : list A) : Py.upto n b = firstn (N.to_nat n) b.
Proof.
  revert n; induction b as [|x b IH]; intros n; simpl.
  - now rewrite firstn_nil.
  - destruct (N.eqb_spec n 0) as [->|Hn]; [reflexivity|].
    rewrite IH. replace (N.to_nat n) with (S (N.to_nat (N.pred n))) by lia.
    reflexivity.
Qed.

Lemma slice_firstn_skipn {A} (i j : N) (b : list A) :
  Py.slice i j b = firstn (N.to_nat (j - i)) (skipn (N.to_nat i) b).
Proof. unfold Py.slice. now rewrite upto_firstn, from_skipn. Qed.

Lemma len_app {A} (a b : list A) : Py.len (a ++ b) = Py.len a + Py.len b.
Proof. unfold Py.len. rewrite length_app. lia. Qed.

Lemma len_from {A} (n : N) (b : list A) : Py.len (Py.from n b) = Py.len b - n.
Proof. unfold Py.len. rewrite from_skipn, length_skipn. lia. Qed.

Lemma len_upto {A} (n : N) (b : list A) : Py.len (Py.upto n b) = N.min n (Py.len b).
Proof. unfold Py.len. rewrite upto_firstn, length_firstn. lia. Qed.

Lemma len_slice {A} (i j : N) (b : list A) :
  Py.len (Py.slice i j b) = N.min (j - i) (Py.len b - i).
Proof. unfold Py.slice. now rewrite len_upto, len_from. Qed.

Lemma from_0 {A} (b : list A) : Py.from 0 b = b.
Proof. now rewrite from_skipn. Qed.

Lemma from_all {A} (n : N) (b : list A) : Py.len b <= n -> Py.from n b = [].
Proof.
  unfold Py.len; intros H. rewrite from_skipn. apply skipn_all2. lia.
Qed.

Lemma upto_all {A} (n : N) (b : list A) : Py.len b <= n -> Py.upto n b = b.
Proof.
  unfold Py.len; intros H. rewrite upto_firstn. apply firstn_all2. lia.
Qed.

Lemma from_app {A} (n : N) (a b : list A) :
  n <= Py.len a -> Py.from n (a ++ b) = Py.from n a ++ b.
Proof.
  unfold Py.len; intros H. rewrite !from_skipn, skipn_app.
  replace (N.to_nat n - length a)%nat with 0%nat by lia. reflexivity.
Qed.

Lemma from_app_len {A} (a b : list A) : Py.from (Py.len a) (a ++ b) = b.
Proof.
  rewrite from_app by lia. rewrite from_all by lia. reflexivity.
Qed.

Lemma from_app_ge {A} (n : N) (a b : list A) :
  Py.len a <= n -> Py.from n (a ++ b) = Py.from (n - Py.len a) b.
Proof.
  unfold Py.len; intros H. rewrite !from_skipn, skipn_app.
  rewrite skipn_all2 by lia. simpl. f_equal. lia.
Qed.

Lemma from_from {A} (n m : N) (b : list A) :
  Py.from n (Py.from m b) = Py.from (m + n) b.
Proof.
  rewrite !from_skipn, skipn_skipn. f_equal. lia.
Qed.

Lemma upto_app {A} (n : N) (a b : list A) :
  n <= Py.len a -> Py.upto n (a ++ b) = Py.upto n a.
Proof.
  unfold Py.len; intros H. rewrite !upto_firstn, firstn_app.
  replace (N.to_nat n - length a)%nat with 0%nat by lia.
  simpl. now rewrite app_nil_r.
Qed.

Lemma upto_app_len {A} (a b : list A) : Py.upto (Py.len a) (a ++ b) = a.
Proof. rewrite upto_app by lia. apply upto_all; lia. Qed.

Lemma slice_app {A} (i j : N) (a b : list A) :
  j <= Py.len a -> Py.slice i j (a ++ b) = Py.slice i j a.
Proof.
  intros H. unfold Py.slice.
  destruct (N.le_gt_cases i (Py.len a)) as [Hi|Hi].
  - rewrite from_app by exact Hi. apply upto_app. rewrite len_from. lia.
  - replace (j - i) with 0 by lia. now rewrite !upto_firstn.
Qed.

Lemma slice_from_upto {A} (i size : N) (b : list A) :
  Py.slice i (i + size) b = Py.upto size (Py.from i b).
Proof. unfold Py.slice. f_equal. lia. Qed.

Lemma slice_prefix_from {A} (i k size : N) (h b : list A) :
  Py.len h = i ->
  Py.slice (i + k) (i + size) (h ++ b) = Py.slice k size b.
Proof.
  intros <-. unfold Py.slice. rewrite from_app_ge by lia.
  f_equal; [lia | f_equal; lia].
Qed.

Lemma length_from_le {A} (n : N) (b : list A) :
  (length (Py.from n b) <= length b)%nat.
Proof. rewrite from_skipn, length_skipn. lia. Qed.

Lemma length_slice_le {A} (i j : N) (b : list A) :
  (length (Py.slice i j b) <= length b - N.to_nat i)%nat.
Proof. rewrite slice_firstn_skipn, length_firstn, length_skipn. lia. Qed.

(** ** The header *)

Lemma selector_le_15 (byte0 : byte) : selector byte0 <= 15.
Proof. destruct byte0; vm_compute; discriminate. Qed.

Lemma tag_le_15 (byte0 : byte) : tag byte0 <= 15.
Proof. destruct byte0; vm_compute; discriminate. Qed.

Lemma JsonbType_tag (byte0 : byte) : exists t, JsonbType_ (tag byte0) = Return t.
Proof. destruct byte0; vm_compute; eexists; reflexivity. Qed.

Lemma slice_1_cons {A} (w : N) (x : A) (rest : list A) :
  Py.slice 1 (1 + w) (x :: rest) = Py.upto w rest.
Proof.
  unfold Py.slice. replace (1 + w - 1) with w by lia.
  simpl. now rewrite from_0.
Qed.

(** What lines 58-78 compute, in the terms of the specification's table. *)
Lemma header_cons (byte0 : byte) (rest : bytes) :
  header (byte0 :: rest) =
  json_type <- JsonbType_ (tag byte0) ;;
  if selector byte0 <=? 11 then Return (json_type, selector byte0, 1)
  else if header_length (selector byte0) - 1 <=? Py.len rest
       then Return (json_type, resolved_size (selector byte0) rest,
                    header_length (selector byte0))
       else Raise (if selector byte0 =? 12 then IndexError else struct_error).
Proof.
  unfold header. fold (selector byte0). fold (tag byte0).
  destruct (JsonbType_tag byte0) as [t ->]. simpl bind.
  pose proof (selector_le_15 byte0) as H15.
  unfold resolved_size, header_length.
  destruct (N.leb_spec (selector byte0) 11) as [|H11]; [reflexivity|].
  destruct (N.eqb_spec (selector byte0) 12) as [E|N12].
  { unfold Py.index. simpl Py.from. rewrite from_0.
    destruct rest as [|b1 rest]; [reflexivity|].
    replace (2 - 1 <=? Py.len (b1 :: rest)) with true
      by (symmetry; apply N.leb_le; unfold Py.len; simpl length; lia).
    simpl. unfold Py.big_endian. simpl. now rewrite (upto_firstn 0). }
  assert (Hw : forall w, 0 < w ->
    (size <- Py.unpack w (Py.slice 1 (1 + w) (byte0 :: rest)) ;;
     Return (t, size, 1 + w)) =
    if w <=? Py.len rest
    then Return (t, Py.big_endian (Py.upto w rest), 1 + w)
    else Raise struct_error).
  { intros w Hw. rewrite slice_1_cons. unfold Py.unpack. rewrite len_upto.
    destruct (N.leb_spec w (Py.len rest)).
    - replace (N.min w (Py.len rest) =? w) with true
        by (symmetry; apply N.eqb_eq; lia). reflexivity.
    - replace (N.min w (Py.len rest) =? w) with false
        by (symmetry; apply N.eqb_neq; lia). reflexivity. }
  destruct (N.eqb_spec (selector byte0) 13) as [E|N13].
  { apply (Hw 2). lia. }
  destruct (N.eqb_spec (selector byte0) 14) as [E|N14].
  { apply (Hw 4). lia. }
  destruct (N.eqb_spec (selector byte0) 15) as [E|N15].
  { apply (Hw 8). lia. }
  lia.
Qed.

Lemma header_length_pos (S : N) : 1 <= header_length S.
Proof.
  unfold header_length.
  repeat match goal with |- context [if ?c then _ else _] => destruct c end; lia.
Qed.

(** A header that parses: the table of the specification, and the header
    lies inside the buffer. *)
Lemma header_Return (jsonb_data : bytes) (t : JsonbType) (size dso : N) :
  header jsonb_data = Return (t, size, dso) ->
  exists byte0 rest,
    jsonb_data = byte0 :: rest /\
    JsonbType_ (tag byte0) = Return t /\
    dso = header_length (selector byte0) /\
    size = resolved_size (selector byte0) rest /\
    dso <= Py.len jsonb_data.
Proof.
  destruct jsonb_data as [|byte0 rest]; [discriminate|].
  rewrite header_cons. destruct (JsonbType_tag byte0) as [t' Ht]. rewrite Ht.
  simpl bind. intros H. exists byte0, rest.
  assert (Hl : Py.len (byte0 :: rest) = 1 + Py.len rest)
    by (unfold Py.len; simpl length; lia).
  destruct (N.leb_spec (selector byte0) 11) as [H11|H11].
  - injection H as <- <- <-. unfold header_length, resolved_size.
    replace (selector byte0 <=? 11) with true by (symmetry; now apply N.leb_le).
    repeat split; try reflexivity; try assumption; lia.
  - destruct (N.leb_spec (header_length (selector byte0) - 1) (Py.len rest));
      [|discriminate].
    injection H as <- <- <-. repeat split; try reflexivity; try assumption.
    pose proof (header_length_pos (selector byte0)). lia.
Qed.

Lemma header_not_OutOfFuel (jsonb_data : bytes) : header jsonb_data <> OutOfFuel.
Proof.
  destruct jsonb_data as [|byte0 rest]; [discriminate|].
  rewrite header_cons. destruct (JsonbType_tag byte0) as [t ->]. simpl.
  repeat match goal with |- context [if ?c then _ else _] => destruct c end;
    discriminate.
Qed.

(** Bytes after a complete header do not change it. *)
Lemma header_app (b t : bytes) (x : JsonbType * N * N) :
  header b = Return x -> header (b ++ t) = Return x.
Proof.
  destruct x as [[ty size] dso]. intros H.
  destruct (header_Return _ _ _ _ H) as (byte0 & rest & -> & Ht & Hd & Hs & Hlen).
  rewrite header_cons in H. simpl app. rewrite header_cons.
  rewrite Ht in *. simpl bind in *.
  destruct (N.leb_spec (selector byte0) 11); [exact H|].
  destruct (N.leb_spec (header_length (selector byte0) - 1) (Py.len rest));
    [|discriminate].
  rewrite len_app.
  replace (header_length (selector byte0) - 1 <=? Py.len rest + Py.len t)
    with true by (symmetry; apply N.leb_le; lia).
  rewrite <- H. unfold resolved_size.
  destruct (selector byte0 <=? 11); [reflexivity|].
  now rewrite upto_app.
Qed.

(** ** The fuel is enough *)

Lemma length_from_advance (c k : N) (b : bytes) :
  1 <= k -> Py.from c b <> [] ->
  (length (Py.from (c + k) b) < length (Py.from c b))%nat.
Proof.
  intros Hk Hne. rewrite <- from_from.
  destruct (Py.from c b) as [|x r]; [congruence|].
  rewrite from_skipn, length_skipn. simpl length. lia.
Qed.

Section Loops.

Variables rd1 rd2 : bytes -> outcome (pyvalue * N).
Variable inner_data : bytes.
Variable size : N.

Hypothesis rd_ext : forall c, rd1 (Py.from c inner_data) = rd2 (Py.from c inner_data).

Lemma array_loop_ext n c acc :
  array_loop rd1 n inner_data size c acc = array_loop rd2 n inner_data size c acc.
Proof.
  revert c acc; induction n as [|n IH]; intros c acc; simpl;
    destruct (c <? size); try reflexivity.
  rewrite rd_ext. destruct (rd2 (Py.from c inner_data)) as [[e k]| |];
    simpl; auto.
Qed.

Lemma object_loop_ext n c acc :
  object_loop rd1 n inner_data size c acc = object_loop rd2 n inner_data size c acc.
Proof.
  revert c acc; induction n as [|n IH]; intros c acc; simpl;
    destruct (c <? size); try reflexivity.
  rewrite rd_ext. destruct (rd2 (Py.from c inner_data)) as [[key ks]| |];
    simpl; auto.
  destruct (size <=? c + ks); auto.
  rewrite rd_ext. destruct (rd2 (Py.from (c + ks) inner_data)) as [[v vs]| |];
    simpl; auto.
  destruct (Py.contains acc key) as [[|]| |]; simpl; auto.
  destruct (Py.setitem acc key v); simpl; auto.
Qed.

Hypothesis rd_productive : productive rd1 inner_data.

Lemma array_loop_fuel n1 n2 c acc :
  (length (Py.from c inner_data) < n1)%nat ->
  (length (Py.from c inner_data) < n2)%nat ->
  array_loop rd1 n1 inner_data size c acc <> OutOfFuel /\
  array_loop rd1 n1 inner_data size c acc = array_loop rd1 n2 inner_data size c acc.
Proof.
  revert n2 c acc; induction n1 as [|n1 IH]; intros n2 c acc H1 H2; [lia|].
  destruct n2 as [|n2]; [lia|]. simpl.
  destruct (c <? size); [|split; [discriminate|reflexivity]].
  destruct (rd_productive c) as [Hoof Hret].
  destruct (rd1 (Py.from c inner_data)) as [[e k]| |];
    simpl; [|split; [discriminate|reflexivity]|congruence].
  destruct (Hret e k eq_refl) as [Hk Hne].
  pose proof (length_from_advance c _ inner_data Hk Hne).
  apply IH; lia.
Qed.

Lemma object_loop_fuel n1 n2 c acc :
  (length (Py.from c inner_data) < n1)%nat ->
  (length (Py.from c inner_data) < n2)%nat ->
  object_loop rd1 n1 inner_data size c acc <> OutOfFuel /\
  object_loop rd1 n1 inner_data size c acc = object_loop rd1 n2 inner_data size c acc.
Proof.
  revert n2 c acc; induction n1 as [|n1 IH]; intros n2 c acc H1 H2; [lia|].
  destruct n2 as [|n2]; [lia|]. simpl.
  destruct (c <? size); [|split; [discriminate|reflexivity]].
  destruct (rd_productive c) as [Hoof Hret].
  destruct (rd1 (Py.from c inner_data)) as [[key ks]| |];
    simpl; [|split; [discriminate|reflexivity]|congruence].
  destruct (Hret key ks eq_refl) as [Hk Hne].
  pose proof (length_from_advance c _ inner_data Hk Hne) as Hadv.
  destruct (size <=? c + ks); [split; [discriminate|reflexivity]|].
  destruct (rd_productive (c + ks)) as [Hoof' Hret'].
  destruct (rd1 (Py.from (c + ks) inner_data)) as [[v vs]| |];
    simpl; [|split; [discriminate|reflexivity]|congruence].
  destruct (Hret' v vs eq_refl) as [Hk' Hne'].
  pose proof (length_from_advance (c + ks) _ inner_data Hk' Hne') as Hadv'.
  unfold Py.contains, Py.setitem.
  destruct (Py.hashable key); simpl; [|split; [discriminate|reflexivity]].
  destruct (existsb _ acc); [split; [discriminate|reflexivity]|].
  apply IH; lia.
Qed.

End Loops.

Lemma bind_not_OutOfFuel {A B} (m : outcome A) (k : A -> outcome B) :
  m <> OutOfFuel -> (forall a, k a <> OutOfFuel) -> bind m k <> OutOfFuel.
Proof. destruct m; simpl; intros; auto; discriminate. Qed.

Lemma decode_ascii_not_OutOfFuel b : Py.decode_ascii b <> OutOfFuel.
Proof. unfold Py.decode_ascii. destruct (forallb _ b); discriminate. Qed.

Lemma decode_utf8_not_OutOfFuel b : Py.decode_utf8 b <> OutOfFuel.
Proof. unfold Py.decode_utf8. destruct (Py.utf8 _); discriminate. Qed.

Lemma int_not_OutOfFuel s base : Py.int_ s base <> OutOfFuel.
Proof.
  unfold Py.int_. destruct (Py.strip_sign _) as [neg s1].
  destruct (Py.leading_underscore _); [discriminate|].
  destruct (Py.scan_digits _ _ _ _ _) as [[[v d] r]|]; [|discriminate].
  destruct (_ || _); discriminate.
Qed.

Lemma float_not_OutOfFuel s : Py.float_ s <> OutOfFuel.
Proof.
  unfold Py.float_. destruct (Py.strip_underscores _ _); [|discriminate].
  destruct (match Py._Py_dg_strtod _ with Some r => Some r | None => _ end)
    as [[x r]|]; [|discriminate].
  destruct (Py.is_nil _); discriminate.
Qed.

Ltac not_OutOfFuel :=
  repeat first
    [ discriminate
    | apply decode_ascii_not_OutOfFuel | apply decode_utf8_not_OutOfFuel
    | apply int_not_OutOfFuel | apply float_not_OutOfFuel
    | apply bind_not_OutOfFuel; [|intros] ].

Section BodyLemmas.

Variables rd1 rd2 : bytes -> outcome (pyvalue * N).
Variable jsonb_data : bytes.

(** The payload of a record is shorter than the record: every recursive
    call reads a strictly shorter buffer. *)
Lemma inner_data_shorter (t : JsonbType) (size dso c : N) :
  header jsonb_data = Return (t, size, dso) ->
  (length (Py.from c (Py.slice dso (dso + size) jsonb_data))
   < length jsonb_data)%nat.
Proof.
  intros H. destruct (header_Return _ _ _ _ H) as (byte0 & rest & -> & _ & Hd & _ & _).
  pose proof (header_length_pos (selector byte0)).
  pose proof (length_from_le c (Py.slice dso (dso + size) (byte0 :: rest))).
  pose proof (length_slice_le dso (dso + size) (byte0 :: rest)).
  simpl length in *. lia.
Qed.

Lemma _read_jsonb_body_productive (v : pyvalue) (n : N) :
  _read_jsonb_body rd1 jsonb_data = Return (v, n) -> 1 <= n /\ jsonb_data <> [].
Proof.
  unfold _read_jsonb_body.
  destruct (header jsonb_data) as [[[t size] dso]| |] eqn:H; try discriminate.
  destruct (header_Return _ _ _ _ H) as (byte0 & rest & -> & _ & Hd & _ & _).
  simpl bind. destruct (payload _ _ _ _ _); try discriminate.
  simpl. intros [= _ <-]. pose proof (header_length_pos (selector byte0)).
  split; [lia|discriminate].
Qed.

Hypothesis rd_ext :
  forall s, (length s < length jsonb_data)%nat -> rd1 s = rd2 s.

Lemma _read_jsonb_body_ext :
  _read_jsonb_body rd1 jsonb_data = _read_jsonb_body rd2 jsonb_data.
Proof.
  unfold _read_jsonb_body.
  destruct (header jsonb_data) as [[[t size] dso]| |] eqn:H; try reflexivity.
  simpl bind. f_equal.
  assert (forall c, rd1 (Py.from c (Py.slice dso (dso + size) jsonb_data))
                  = rd2 (Py.from c (Py.slice dso (dso + size) jsonb_data)))
    by (intros c; apply rd_ext; eapply inner_data_shorter; eauto).
  unfold payload. destruct t; try reflexivity.
  - now rewrite array_loop_ext with (rd2 := rd2).
  - now rewrite object_loop_ext with (rd2 := rd2).
Qed.

Hypothesis rd_productive :
  forall s, (length s < length jsonb_data)%nat ->
    rd1 s <> OutOfFuel /\
    forall v k, rd1 s = Return (v, k) -> 1 <= k /\ s <> [].

Lemma _read_jsonb_body_not_OutOfFuel :
  _read_jsonb_body rd1 jsonb_data <> OutOfFuel.
Proof.
  unfold _read_jsonb_body.
  pose proof (header_not_OutOfFuel jsonb_data) as Hh.
  destruct (header jsonb_data) as [[[t size] dso]| |] eqn:H;
    try discriminate; try congruence.
  simpl bind.
  assert (productive rd1 (Py.slice dso (dso + size) jsonb_data))
    by (intros c; apply rd_productive; eapply inner_data_shorter; eauto).
  unfold payload. destruct t;
    repeat match goal with |- context [if ?c then _ else _] => destruct c end;
    not_OutOfFuel.
  - eapply array_loop_fuel; eauto using length_from_le.
    all: pose proof (length_from_le 0 (Py.slice dso (dso + size) jsonb_data)); lia.
  - eapply object_loop_fuel; eauto using length_from_le.
    all: pose proof (length_from_le 0 (Py.slice dso (dso + size) jsonb_data)); lia.
Qed.

End BodyLemmas.

Lemma _read_jsonb_fuel_spec (fuel : nat) (jsonb_data : bytes) :
  (length jsonb_data < fuel)%nat ->
  _read_jsonb_fuel fuel jsonb_data <> OutOfFuel /\
  forall fuel', (length jsonb_data < fuel')%nat ->
    _read_jsonb_fuel fuel jsonb_data = _read_jsonb_fuel fuel' jsonb_data.
Proof.
  revert jsonb_data; induction fuel as [|fuel IH]; intros b Hb; [lia|].
  simpl. split.
  - apply _read_jsonb_body_not_OutOfFuel. intros s Hs. split.
    + apply IH; lia.
    + destruct fuel as [|fuel]; [lia|]. simpl.
      apply _read_jsonb_body_productive.
  - intros [|fuel'] Hb'; [lia|]. simpl.
    apply _read_jsonb_body_ext. intros s Hs. apply IH; lia.
Qed.

(** With any fuel above the length of the buffer the bounded reader is
    [_read_jsonb]. *)
Lemma read_jsonb_fuel_enough (fuel : nat) (jsonb_data : bytes) :
  (length jsonb_data < fuel)%nat ->
  _read_jsonb_fuel fuel jsonb_data = _read_jsonb jsonb_data.
Proof.
  intros H. unfold _read_jsonb. apply _read_jsonb_fuel_spec; lia.
Qed.

Lemma _read_jsonb_not_OutOfFuel (jsonb_data : bytes) :
  _read_jsonb jsonb_data <> OutOfFuel.
Proof. unfold _read_jsonb. apply _read_jsonb_fuel_spec; lia. Qed.

(** The defining equation of [_read_jsonb]: its body, calling itself. *)
Lemma _read_jsonb_eq (jsonb_data : bytes) :
  _read_jsonb jsonb_data = _read_jsonb_body _read_jsonb jsonb_data.
Proof.
  unfold _read_jsonb at 1. simpl.
  apply _read_jsonb_body_ext. intros s Hs.
  apply read_jsonb_fuel_enough. lia.
Qed.

Lemma _read_jsonb_productive (jsonb_data : bytes) (v : pyvalue) (n : N) :
  _read_jsonb jsonb_data = Return (v, n) -> 1 <= n /\ jsonb_data <> [].
Proof. rewrite _read_jsonb_eq. apply _read_jsonb_body_productive. Qed.

Lemma productive__read_jsonb (b : bytes) : productive _read_jsonb b.
Proof.
  intros c. split; [apply _read_jsonb_not_OutOfFuel|].
  intros v k. apply _read_jsonb_productive.
Qed.

(** ** The loops, free of fuel *)

Lemma array_loop_S rd n inner_data size c acc :
  array_loop rd (S n) inner_data size c acc =
  if c <? size then
    '(element, element_size) <- rd (Py.from c inner_data) ;;
    array_loop rd n inner_data size (c + element_size) (acc ++ [element])
  else Return acc.
Proof. reflexivity. Qed.

Lemma object_loop_S rd n inner_data size c acc :
  object_loop rd (S n) inner_data size c acc =
  if c <? size then
    '(key, key_size) <- rd (Py.from c inner_data) ;;
    if size <=? c + key_size then Raise (ValueError Ran_out_of_data)
    else
      '(value, value_size) <- rd (Py.from (c + key_size) inner_data) ;;
      present <- Py.contains acc key ;;
      if present : bool then Raise (Key_already_in_object key)
      else
        result <- Py.setitem acc key value ;;
        object_loop rd n inner_data size (c + key_size + value_size) result
  else Return acc.
Proof. reflexivity. Qed.

Lemma array_items_eq (inner_data : bytes) (size c : N) (acc : list pyvalue) :
  array_items inner_data size c acc =
  if c <? size then
    '(element, element_size) <- _read_jsonb (Py.from c inner_data) ;;
    array_items inner_data size (c + element_size) (acc ++ [element])
  else Return acc.
Proof.
  unfold array_items. rewrite array_loop_S. destruct (c <? size); [|reflexivity].
  destruct (_read_jsonb (Py.from c inner_data)) as [[e k]| |] eqn:E;
    try reflexivity.
  cbn [bind]. destruct (_read_jsonb_productive _ _ _ E) as [Hk Hne].
  pose proof (length_from_advance c _ inner_data Hk Hne).
  pose proof (length_from_le c inner_data).
  apply array_loop_fuel; try lia. apply productive__read_jsonb.
Qed.

Lemma object_items_eq (inner_data : bytes) (size c : N) (acc : Py.dict) :
  object_items inner_data size c acc =
  if c <? size then
    '(key, key_size) <- _read_jsonb (Py.from c inner_data) ;;
    if size <=? c + key_size then Raise (ValueError Ran_out_of_data)
    else
      '(value, value_size) <- _read_jsonb (Py.from (c + key_size) inner_data) ;;
      present <- Py.contains acc key ;;
      if present : bool then Raise (Key_already_in_object key)
      else
        result <- Py.setitem acc key value ;;
        object_items inner_data size (c + key_size + value_size) result
  else Return acc.
Proof.
  unfold object_items. rewrite object_loop_S.
  destruct (c <? size); [|reflexivity].
  destruct (_read_jsonb (Py.from c inner_data)) as [[key ks]| |] eqn:E;
    try reflexivity.
  cbn [bind]. destruct (size <=? c + ks); [reflexivity|].
  destruct (_read_jsonb (Py.from (c + ks) inner_data)) as [[v vs]| |] eqn:E';
    try reflexivity.
  cbn [bind]. destruct (Py.contains acc key) as [[|]| |]; try reflexivity.
  cbn [bind]. destruct (Py.setitem acc key v); try reflexivity.
  cbn [bind]. destruct (_read_jsonb_productive _ _ _ E) as [Hk Hne].
  destruct (_read_jsonb_productive _ _ _ E') as [Hk' Hne'].
  pose proof (length_from_advance c _ inner_data Hk Hne).
  pose proof (length_from_advance (c + ks) _ inner_data Hk' Hne').
  pose proof (length_from_le c inner_data).
  apply object_loop_fuel; try lia. apply productive__read_jsonb.
Qed.

(** [_read_jsonb] on a buffer whose header is known. *)
Lemma _read_jsonb_header (jsonb_data : bytes) (t : JsonbType) (size dso : N) :
  header jsonb_data = Return (t, size, dso) ->
  _read_jsonb jsonb_data =
  result <- payload _read_jsonb jsonb_data t size dso ;;
  Return (result, dso + size).
Proof.
  intros H. rewrite _read_jsonb_eq. unfold _read_jsonb_body. now rewrite H.
Qed.

Lemma _read_jsonb_Return (jsonb_data : bytes) (v : pyvalue) (n : N) :
  _read_jsonb jsonb_data = Return (v, n) ->
  exists t size dso,
    header jsonb_data = Return (t, size, dso) /\
    payload _read_jsonb jsonb_data t size dso = Return v /\
    n = dso + size.
Proof.
  rewrite _read_jsonb_eq. unfold _read_jsonb_body.
  destruct (header jsonb_data) as [[[t size] dso]| |]; try discriminate.
  simpl bind. destruct (payload _ _ _ _ _) eqn:E; try discriminate.
  simpl. intros [= <- <-]. now exists t, size, dso.
Qed.

(** ** Bytes after a record *)

Lemma short_Int5_false (b : bytes) (t : JsonbType) (size dso : N) :
  header b = Return (t, size, dso) ->
  short_Int5 b = false -> t = Int5 -> 2 <= size.
Proof.
  unfold short_Int5. intros -> H ->. now apply N.ltb_ge.
Qed.

(** The payload of a record that lies inside [b] is read the same when
    bytes follow [b], unless line 95 looks past a short Int5 into them. *)
Lemma payload_app rd (b t : bytes) (ty : JsonbType) (size dso : N) (v : pyvalue) :
  dso + size <= Py.len b ->
  (ty = Int5 -> size < 2 -> hd_error t <> Some x78) ->
  payload rd b ty size dso = Return v ->
  payload rd (b ++ t) ty size dso = Return v.
Proof.
  intros Hlen Hpeek H.
  assert (Hs : Py.slice dso (dso + size) (b ++ t) = Py.slice dso (dso + size) b)
    by now apply slice_app.
  destruct ty; unfold payload in *; rewrite ?Hs; try exact H.
  destruct (N.le_gt_cases 2 size) as [H2|H2].
  - rewrite !slice_app by lia. exact H.
  - assert (Hhex : forall X : bytes,
              Py.slice (dso + 2) (dso + size) X = []).
    { intros X. unfold Py.slice. replace (dso + size - (dso + 2)) with 0 by lia.
      now rewrite upto_firstn. }
    rewrite Hhex in *.
    destruct (list_eq_dec _ (Py.slice dso (dso + 2) b) _) as [Ea|Na];
      [discriminate H|].
    destruct (list_eq_dec _ (Py.slice dso (dso + 2) (b ++ t)) _) as [Ea'|Na'];
      [exfalso|exact H].
    rewrite slice_from_upto in *.
    assert (Hd : dso <= Py.len b) by lia.
    rewrite from_app in Ea' by exact Hd.
    pose proof (len_from dso b) as Hl. unfold Py.len in Hl.
    destruct (Py.from dso b) as [|r0 [|r1 R]].
    + simpl length in Hl. assert (size = 0) by (unfold Py.len in *; lia).
      subst size. rewrite upto_firstn in H. discriminate H.
    + apply (Hpeek eq_refl H2).
      rewrite upto_firstn in Ea'. change (N.to_nat 2) with 2%nat in Ea'.
      destruct t as [|t0 t']; [discriminate Ea'|].
      simpl in Ea'. injection Ea' as _ ->. reflexivity.
    + apply Na. rewrite upto_firstn in *. exact Ea'.
Qed.

(** Bytes appended to a buffer that holds the whole record are ignored,
    unless the record is a short Int5 and they start with an [x]. *)
Lemma _read_jsonb_app (b t : bytes) (v : pyvalue) (n : N) :
  _read_jsonb b = Return (v, n) ->
  n <= Py.len b ->
  short_Int5 b = false \/ hd_error t <> Some x78 ->
  _read_jsonb (b ++ t) = Return (v, n).
Proof.
  intros H Hn Hpeek.
  destruct (_read_jsonb_Return _ _ _ H) as (ty & size & dso & Hh & Hp & ->).
  rewrite (_read_jsonb_header (b ++ t) _ _ _ (header_app b t _ Hh)).
  assert (Hpk : ty = Int5 -> size < 2 -> hd_error t <> Some x78).
  { intros -> Hsz. destruct Hpeek as [Hs|Hx]; [|exact Hx].
    pose proof (short_Int5_false _ _ _ _ Hh Hs eq_refl). lia. }
  now rewrite (payload_app _ b t ty size dso v Hn Hpk Hp).
Qed.

(** ** Termination and the consumed count *)

(** C9. [_read_jsonb] terminates on every buffer: with any fuel above the
    length of the buffer the bounded reader gives one and the same outcome,
    a value or an exception, never a lack of fuel (this includes the bound
    on the iterations of the two loops); every recursive call made for an
    Array or Object reads a slice strictly shorter than the buffer of its
    caller; and every record read reports at least one byte, so each loop
    iteration moves the cursor forward. *)
Theorem read_jsonb_terminates (jsonb_data : bytes) :
  (exists r,
      r <> OutOfFuel /\
      forall fuel, (length jsonb_data < fuel)%nat ->
                   _read_jsonb_fuel fuel jsonb_data = r) /\
  (forall t size dso bytes_consumed,
      header jsonb_data = Return (t, size, dso) ->
      (length (Py.from bytes_consumed (Py.slice dso (dso + size) jsonb_data))
       < length jsonb_data)%nat) /\
  (forall element element_size,
      _read_jsonb jsonb_data = Return (element, element_size) ->
      1 <= element_size).
Proof.
  split; [|split].
  - exists (_read_jsonb jsonb_data). split.
    + apply _read_jsonb_not_OutOfFuel.
    + intros fuel Hf. now apply read_jsonb_fuel_enough.
  - intros t size dso c H. eapply inner_data_shorter; eauto.
  - intros v n H. now destruct (_read_jsonb_productive _ _ _ H).
Qed.

(** C8. When [_read_jsonb] returns, the byte count it reports is the header
    length plus the resolved payload size, where selector [S] (the high
    nibble of byte 0) gives a header of 1 byte and size [S] for [S <= 11],
    and a header of 2, 3, 5 or 9 bytes with the size in the next 1, 2, 4 or
    8 bytes, big-endian, for [S] = 12, 13, 14, 15; and when the buffer holds
    that many bytes, the payload read is exactly that long. *)
Theorem consumed_is_header_plus_size (jsonb_data : bytes) (v : pyvalue) (n : N) :
  _read_jsonb jsonb_data = Return (v, n) ->
  exists byte0 after,
    jsonb_data = byte0 :: after /\
    let S := selector byte0 in
    let width := match S with 12 => 1 | 13 => 2 | 14 => 4 | 15 => 8 | _ => 0 end in
    let size := if S <=? 11 then S else Py.big_endian (Py.upto width after) in
    S <= 15 /\
    header_length S = 1 + width /\
    resolved_size S after = size /\
    n = header_length S + size /\
    (n <= Py.len jsonb_data ->
     Py.len (Py.slice (header_length S) n jsonb_data) = size).
Proof.
  intros H. destruct (_read_jsonb_Return _ _ _ H) as (t & size & dso & Hh & _ & ->).
  destruct (header_Return _ _ _ _ Hh) as (byte0 & after & -> & _ & -> & -> & Hlen).
  exists byte0, after. split; [reflexivity|]. cbv zeta.
  pose proof (selector_le_15 byte0) as H15.
  assert (Hw : header_length (selector byte0)
               = 1 + match selector byte0 with
                     | 12 => 1 | 13 => 2 | 14 => 4 | 15 => 8 | _ => 0 end).
  { destruct (selector byte0) as [|p]; [reflexivity|].
    do 4 (destruct p as [p|p|]; try reflexivity); lia. }
  assert (Hs : resolved_size (selector byte0) after
               = if selector byte0 <=? 11 then selector byte0
                 else Py.big_endian
                        (Py.upto match selector byte0 with
                                 | 12 => 1 | 13 => 2 | 14 => 4 | 15 => 8 | _ => 0
                                 end after)).
  { unfold resolved_size. destruct (selector byte0 <=? 11); [reflexivity|].
    do 2 f_equal. lia. }
  repeat split; try assumption; try (now rewrite Hs).
  intros Hn. rewrite <- Hs, len_slice. lia.
Qed.

(** The buffer [c7 0c "abcdefghijkl"]: Text, selector 12, size 12. *)
Lemma consumed_is_header_plus_size_witness :
  _read_jsonb [xc7; x0c; x61; x62; x63; x64; x65; x66; x67; x68; x69; x6a; x6b; x6c]
  = Return (PyStr [97; 98; 99; 100; 101; 102; 103; 104; 105; 106; 107; 108], 14) /\
  exists byte0 after,
    [xc7; x0c; x61; x62; x63; x64; x65; x66; x67; x68; x69; x6a; x6b; x6c]
    = byte0 :: after /\
    selector byte0 <= 15 /\
    header_length (selector byte0) = 2 /\
    resolved_size (selector byte0) after = 12 /\
    14 = header_length (selector byte0) + 12 /\
    (14 <= 14 ->
     Py.len (Py.slice (header_length (selector byte0)) 14
               [xc7; x0c; x61; x62; x63; x64; x65; x66; x67; x68; x69; x6a; x6b; x6c])
     = 12).
Proof.
  split; [reflexivity|].
  destruct (consumed_is_header_plus_size
              [xc7; x0c; x61; x62; x63; x64; x65; x66; x67; x68; x69; x6a; x6b; x6c]
              (PyStr [97; 98; 99; 100; 101; 102; 103; 104; 105; 106; 107; 108]) 14
              eq_refl)
    as (byte0 & after & E & H).
  exists byte0, after. injection E as <- <-. split; [reflexivity|]. exact H.
Defined.

(** ** Headers written out *)

Lemma to_N_byte_of_N (n : N) : n < 256 -> Byte.to_N (byte_of_N n) = n.
Proof.
  intros H. unfold byte_of_N.
  destruct (Byte.of_N n) as [b|] eqn:E.
  - now apply Byte.to_of_N.
  - apply Byte.of_N_None_iff in E. lia.
Qed.

Lemma le_15_cases (n : N) :
  n <= 15 -> In n [0; 1; 2; 3; 4; 5; 6; 7; 8; 9; 10; 11; 12; 13; 14; 15].
Proof. simpl. lia. Qed.

Ltac cases_15 n H :=
  let H' := fresh in
  pose proof (le_15_cases n H) as H'; simpl in H';
  repeat (destruct H' as [<-|H']); [..|contradiction].


Lemma selector_tag_byte_of_N (S t : N) :
  S <= 15 -> t <= 15 ->
  selector (byte_of_N (S * 16 + t)) = S /\ tag (byte_of_N (S * 16 + t)) = t.
Proof.
  intros HS Ht.
  cases_15 S HS; cases_15 t Ht;
  split; reflexivity.
Qed.

Lemma length_big_endian_bytes (w : nat) (n : N) :
  length (big_endian_bytes w n) = w.
Proof.
  revert n; induction w as [|w IH]; intros n; simpl; [reflexivity|].
  rewrite length_app, IH. simpl. lia.
Qed.

Lemma big_endian_app (a : bytes) (x : byte) :
  Py.big_endian (a ++ [x]) = Py.big_endian a * 256 + Byte.to_N x.
Proof. unfold Py.big_endian. now rewrite fold_left_app. Qed.

Lemma big_endian_big_endian_bytes (w : nat) (n : N) :
  n < 256 ^ N.of_nat w -> Py.big_endian (big_endian_bytes w n) = n.
Proof.
  revert n; induction w as [|w IH]; intros n H.
  - simpl in *. unfold Py.big_endian. simpl. lia.
  - simpl big_endian_bytes. rewrite big_endian_app.
    rewrite to_N_byte_of_N by (apply N.mod_lt; lia).
    rewrite IH.
    + rewrite N.mul_comm. symmetry. apply N.div_mod. lia.
    + apply N.Div0.div_lt_upper_bound.
      rewrite Nat2N.inj_succ, N.pow_succ_r' in H. lia.
Qed.

Lemma len_header_bytes (S t size : N) :
  Py.len (header_bytes S t size) = header_length S.
Proof.
  unfold header_bytes, Py.len, header_length. simpl length.
  destruct (S <=? 11); [reflexivity|].
  rewrite length_big_endian_bytes.
  repeat match goal with |- context [if ?c then _ else _] => destruct c end;
    reflexivity.
Qed.

(** A written header reads back: the type of tag [t], the size, and its
    own length as the offset of the payload. *)
Lemma header_header_bytes (S t size : N) (ty : JsonbType) (body : bytes) :
  representable S size -> JsonbType_ t = Return ty ->
  header (header_bytes S t size ++ body) = Return (ty, size, header_length S).
Proof.
  intros Hr Ht.
  assert (Ht15 : t <= 15).
  { destruct t as [|p]; [lia|].
    do 4 (destruct p as [p|p|]; try lia); discriminate Ht. }
  assert (HS15 : S <= 15) by (destruct Hr as [[? _]|[? _]]; lia).
  unfold header_bytes. simpl app. rewrite header_cons.
  destruct (selector_tag_byte_of_N S t HS15 Ht15) as [-> ->].
  rewrite Ht. simpl bind.
  destruct Hr as [[H11 ->]|[H12 Hsz]].
  - replace (S <=? 11) with true by (symmetry; now apply N.leb_le).
    unfold header_length.
    replace (S <=? 11) with true by (symmetry; now apply N.leb_le).
    reflexivity.
  - replace (S <=? 11) with false by (symmetry; apply N.leb_gt; lia).
    pose proof (header_length_pos S).
    assert (Hl : Py.len (big_endian_bytes (N.to_nat (header_length S - 1)) size)
                 = header_length S - 1)
      by (unfold Py.len; rewrite length_big_endian_bytes; lia).
    rewrite len_app, Hl.
    replace (header_length S - 1 <=? header_length S - 1 + Py.len body)
      with true by (symmetry; apply N.leb_le; lia).
    unfold resolved_size.
    replace (S <=? 11) with false by (symmetry; apply N.leb_gt; lia).
    rewrite <- Hl at 1. rewrite upto_app_len.
    rewrite big_endian_big_endian_bytes; [reflexivity|].
    now rewrite N2Nat.id.
Qed.

(** The payload is read relative to the end of the header. *)
Lemma payload_after_header rd (h body : bytes) (ty : JsonbType) (size : N) :
  payload rd (h ++ body) ty size (Py.len h) = payload rd body ty size 0.
Proof.
  assert (H0 : forall k, Py.slice (Py.len h) (Py.len h + k) (h ++ body)
                         = Py.slice 0 (0 + k) body).
  { intros k. rewrite <- (N.add_0_r (Py.len h)) at 1.
    now rewrite (slice_prefix_from (Py.len h) 0 k h body eq_refl). }
  assert (H2 : Py.slice (Py.len h + 2) (Py.len h + size) (h ++ body)
               = Py.slice (0 + 2) (0 + size) body).
  { now rewrite (slice_prefix_from (Py.len h) 2 size h body eq_refl). }
  unfold payload. now rewrite !H0, H2.
Qed.

(** Reading a record whose header is written with selector [S]. *)
Lemma read_header_bytes (S t size : N) (ty : JsonbType) (body : bytes) :
  representable S size -> JsonbType_ t = Return ty ->
  _read_jsonb (header_bytes S t size ++ body) =
  result <- payload _read_jsonb body ty size 0 ;;
  Return (result, header_length S + size).
Proof.
  intros Hr Ht.
  rewrite (_read_jsonb_header _ _ _ _ (header_header_bytes S t size ty body Hr Ht)).
  rewrite <- (len_header_bytes S t size) at 1.
  now rewrite payload_after_header.
Qed.



Lemma representable_minimal_selector (size : N) :
  size < 256 ^ 8 -> representable (minimal_selector size) size.
Proof.
  intros H. unfold representable, minimal_selector, header_length.
  destruct (N.leb_spec size 11); [left; lia|right].
  destruct (N.ltb_spec size 256); [simpl; lia|].
  destruct (N.ltb_spec size (256 ^ 2)); [simpl in *; lia|].
  destruct (N.ltb_spec size (256 ^ 4)); simpl in *; lia.
Qed.

(** Text payloads of 0, 11, 12, 13, 255 and 256 bytes under their minimal
    headers, on either side of the steps from the literal size to the
    one-byte prefix and from the one-byte to the two-byte prefix: each is
    read whole, and the count is the header length plus the size. *)
Example size_selector_boundaries :
  Forall (fun size =>
            _read_jsonb (header_bytes (minimal_selector size) 7 size
                         ++ repeat x61 (N.to_nat size))
            = Return (PyStr (repeat 97 (N.to_nat size)),
                      header_length (minimal_selector size) + size))
         [0; 11; 12; 13; 255; 256] /\
  map (fun size => header_length (minimal_selector size)) [0; 11; 12; 13; 255; 256]
  = [1; 1; 2; 2; 2; 3].
Proof. split; [repeat constructor; vm_compute; reflexivity|reflexivity]. Qed.

(** ** Unsupported tags *)

(** C5, as the reader has it: a buffer whose first byte carries tag 8
    (TextJ) or 9 (Text5) always fails, whatever its payload, with
    UnsupportedEncoding when the buffer holds the whole header; the size
    prefix is read first, so a buffer too short for it fails with
    TruncatedHeader instead. *)
Theorem unsupported_tags_fail (byte0 : byte) (rest : bytes) :
  tag byte0 = 8 \/ tag byte0 = 9 ->
  if header_length (selector byte0) - 1 <=? Py.len rest
  then fails_with (_read_jsonb (byte0 :: rest)) UnsupportedEncoding
  else fails_with (_read_jsonb (byte0 :: rest)) TruncatedHeader.
Proof.
  intros Ht. rewrite _read_jsonb_eq. unfold _read_jsonb_body.
  rewrite header_cons.
  assert (Hty : exists ty, JsonbType_ (tag byte0) = Return ty /\
                           (ty = TextJ \/ ty = Text5))
    by (destruct Ht as [-> | ->]; eexists; split; try reflexivity; auto).
  destruct Hty as (ty & -> & Hty). cbn [bind].
  destruct (N.leb_spec (header_length (selector byte0) - 1) (Py.len rest))
    as [Hc|Hc].
  - destruct (selector byte0 <=? 11); cbn [bind]; unfold payload;
      destruct Hty as [-> | ->]; eexists; split; reflexivity.
  - destruct (N.leb_spec (selector byte0) 11) as [H11|H11].
    + unfold header_length in Hc.
      replace (selector byte0 <=? 11) with true in Hc
        by (symmetry; now apply N.leb_le).
      lia.
    + cbn [bind]. destruct (selector byte0 =? 12); eexists; split; reflexivity.
Qed.

(** Tag 8 with the size in a prefix byte that is there ([c8 00]), and with
    the prefix byte missing ([c8]). *)
Lemma unsupported_tags_fail_witness :
  (tag xc8 = 8 \/ tag xc8 = 9) /\
  fails_with (_read_jsonb [xc8; x00]) UnsupportedEncoding /\
  fails_with (_read_jsonb [xc8]) TruncatedHeader.
Proof.
  split; [left; reflexivity|]. split.
  - exact (unsupported_tags_fail xc8 [x00] (or_introl eq_refl)).
  - exact (unsupported_tags_fail xc8 [] (or_introl eq_refl)).
Defined.

(** C5 as stated fails: the one-byte buffer [c8] has tag 8, and the reader
    raises IndexError for the missing size byte, not NotImplementedError. *)
Lemma unsupported_tag_truncated_header :
  tag xc8 = 8 /\
  _read_jsonb [xc8] = Raise IndexError /\
  ~ fails_with (_read_jsonb [xc8]) UnsupportedEncoding.
Proof.
  split; [reflexivity|]. split; [reflexivity|].
  intros (e & He & Hk). injection He as <-. discriminate Hk.
Qed.

(** ** Truncated payloads *)

Lemma slice_beyond {A} (i j : N) (b : list A) :
  Py.len b <= j -> Py.slice i j b = Py.from i b.
Proof.
  intros H. unfold Py.slice. apply upto_all. rewrite len_from. lia.
Qed.

(** C1, as the reader has it: a declared size larger than the bytes that
    remain after the header is not an error of its own, and no exception of
    the reader is a TruncatedPayload.  For the types parsed from the text of
    the payload the value is read from the bytes that remain, exactly as if
    the declared size were their number, and the count reported is still
    the header length plus the declared size. *)
Theorem truncated_payload_is_clipped (jsonb_data : bytes) (t : JsonbType)
    (size dso : N) :
  header jsonb_data = Return (t, size, dso) ->
  Py.len jsonb_data - dso < size ->
  parsed_from_text t = true ->
  _read_jsonb jsonb_data =
  (result <- payload _read_jsonb jsonb_data t (Py.len jsonb_data - dso) dso ;;
   Return (result, dso + size)) /\
  ~ fails_with (_read_jsonb jsonb_data) TruncatedPayload.
Proof.
  intros Hh Hlt Ht. split.
  - rewrite (_read_jsonb_header _ _ _ _ Hh). f_equal.
    assert (Hs : forall i, Py.slice i (dso + size) jsonb_data
                           = Py.slice i (dso + (Py.len jsonb_data - dso)) jsonb_data).
    { intros i. rewrite !slice_beyond by lia. reflexivity. }
    unfold payload. destruct t; try discriminate Ht; now rewrite !Hs.
  - intros (e & _ & Hk). destruct e as [[]| | |[]| | | |]; discriminate Hk.
Qed.

(** [a3 "12345"]: Int, declared size 10, five bytes present. *)
Lemma truncated_payload_is_clipped_witness :
  header [xa3; x31; x32; x33; x34; x35] = Return (Int, 10, 1) /\
  Py.len [xa3; x31; x32; x33; x34; x35] - 1 < 10 /\
  parsed_from_text Int = true /\
  _read_jsonb [xa3; x31; x32; x33; x34; x35] =
  (result <- payload _read_jsonb [xa3; x31; x32; x33; x34; x35] Int
               (Py.len [xa3; x31; x32; x33; x34; x35] - 1) 1 ;;
   Return (result, 1 + 10)) /\
  ~ fails_with (_read_jsonb [xa3; x31; x32; x33; x34; x35]) TruncatedPayload.
Proof.
  split; [reflexivity|]. split; [reflexivity|]. split; [reflexivity|].
  exact (truncated_payload_is_clipped [xa3; x31; x32; x33; x34; x35] Int 10 1
           eq_refl eq_refl eq_refl).
Defined.

(** C1 as stated fails: the header of [a3 "12345"] declares ten bytes, five
    follow, and the reader returns 12345 read from those five. *)
Lemma truncated_payload_returns_a_value :
  header [xa3; x31; x32; x33; x34; x35] = Return (Int, 10, 1) /\
  Py.len (Py.from 1 [xa3; x31; x32; x33; x34; x35]) = 5 /\
  _read_jsonb [xa3; x31; x32; x33; x34; x35] = Return (PyInt 12345, 11) /\
  ~ fails_with (_read_jsonb [xa3; x31; x32; x33; x34; x35]) TruncatedPayload.
Proof.
  repeat split. intros (e & He & _). discriminate He.
Qed.

(** ** Bytes beyond the consumed length *)

Lemma header_prefix (a t : bytes) (ty : JsonbType) (size dso : N) :
  header (a ++ t) = Return (ty, size, dso) -> dso <= Py.len a ->
  header a = Return (ty, size, dso).
Proof.
  intros H Hd.
  destruct (header_Return _ _ _ _ H) as (byte0 & rest & E & Ht & -> & -> & _).
  pose proof (header_length_pos (selector byte0)) as Hpos.
  destruct a as [|a0 a']; [unfold Py.len in Hd; simpl in Hd; lia|].
  simpl in E. injection E as <- <-.
  rewrite header_cons, Ht. cbn [bind].
  assert (Hl : Py.len (a0 :: a') = 1 + Py.len a')
    by (unfold Py.len; simpl length; lia).
  unfold resolved_size.
  destruct (N.leb_spec (selector a0) 11) as [H11|H11].
  - unfold header_length.
    replace (selector a0 <=? 11) with true by (symmetry; now apply N.leb_le).
    reflexivity.
  - replace (header_length (selector a0) - 1 <=? Py.len a') with true
      by (symmetry; apply N.leb_le; lia).
    rewrite upto_app by lia. reflexivity.
Qed.

(** The payload of a record that lies inside [b], when line 95 cannot look
    past it, is read from [b] alone. *)
Lemma payload_window rd (b t : bytes) (ty : JsonbType) (size dso : N) :
  dso + size <= Py.len b -> (ty = Int5 -> 2 <= size) ->
  payload rd (b ++ t) ty size dso = payload rd b ty size dso.
Proof.
  intros Hlen H5.
  assert (Hs : Py.slice dso (dso + size) (b ++ t) = Py.slice dso (dso + size) b)
    by now apply slice_app.
  destruct ty; unfold payload; rewrite ?Hs; try reflexivity.
  specialize (H5 eq_refl). now rewrite !slice_app by lia.
Qed.

(** An Int5 of fewer than two bytes: line 95 decides on the two bytes at
    [data_start_offset]; when they read [0x] nothing is left after the
    prefix and [int] fails, otherwise the payload is read in base 10. *)
Lemma payload_short_Int5 rd (b : bytes) (size dso : N) :
  size < 2 ->
  payload rd b Int5 size dso
  = if list_eq_dec Byte.byte_eq_dec (Py.slice dso (dso + 2) b) [x30; x78]
    then Raise (ValueError Invalid_literal_for_int)
    else s <- Py.decode_ascii (Py.slice dso (dso + size) b) ;;
         z <- Py.int_ s 10 ;; Return (PyInt z).
Proof.
  intros Hsz. unfold payload.
  destruct (list_eq_dec _ _ _) as [_|_]; [|reflexivity].
  replace (Py.slice (dso + 2) (dso + size) b) with (@nil byte); [reflexivity|].
  unfold Py.slice. replace (dso + size - (dso + 2)) with 0 by lia.
  now rewrite upto_firstn.
Qed.

(** C3. Bytes beyond the consumed length are ignored, but for one slip.
    When [_read_jsonb] returns on a buffer that holds the [c] bytes it
    reports, then whatever bytes are put after those [c] bytes the same
    value is returned, unless line 95 looks past the record: for an Int5 of
    fewer than two bytes whose two bytes at [data_start_offset] then read
    [0x], the read fails with [ValueError]. *)
Theorem trailing_bytes_are_ignored (jsonb_data : bytes) (v : pyvalue) (c : N) :
  _read_jsonb jsonb_data = Return (v, c) ->
  c <= Py.len jsonb_data ->
  forall trailing : bytes,
    if looks_past_the_record (Py.upto c jsonb_data) trailing
    then read_jsonb (Py.upto c jsonb_data ++ trailing)
         = Raise (ValueError Invalid_literal_for_int)
    else _read_jsonb (Py.upto c jsonb_data ++ trailing) = Return (v, c) /\
         read_jsonb (Py.upto c jsonb_data ++ trailing) = read_jsonb jsonb_data.
Proof.
  intros H Hc trailing.
  destruct (_read_jsonb_Return _ _ _ H) as (ty & size & dso & Hh & Hp & ->).
  assert (Hsplit : jsonb_data = Py.upto (dso + size) jsonb_data
                                ++ Py.from (dso + size) jsonb_data)
    by (rewrite upto_firstn, from_skipn; symmetry; apply firstn_skipn).
  assert (Hl : Py.len (Py.upto (dso + size) jsonb_data) = dso + size)
    by (rewrite len_upto; lia).
  set (a := Py.upto (dso + size) jsonb_data) in *.
  set (r := Py.from (dso + size) jsonb_data) in *.
  assert (Hha : header a = Return (ty, size, dso)).
  { rewrite Hsplit in Hh. apply header_prefix in Hh; [exact Hh|lia]. }
  assert (Hsl : forall t, Py.slice dso (dso + size) (a ++ t)
                          = Py.slice dso (dso + size) a)
    by (intros t; apply slice_app; lia).
  assert (Hsame : _read_jsonb (a ++ trailing) = Return (v, dso + size) ->
                  _read_jsonb (a ++ trailing) = Return (v, dso + size) /\
                  read_jsonb (a ++ trailing) = read_jsonb jsonb_data).
  { intros E. split; [exact E|]. unfold read_jsonb. now rewrite E, H. }
  rewrite Hsplit in Hp.
  assert (Hrd : _read_jsonb (a ++ trailing)
                = (result <- payload _read_jsonb (a ++ trailing) ty size dso ;;
                   Return (result, dso + size)))
    by exact (_read_jsonb_header _ _ _ _ (header_app a trailing _ Hha)).
  destruct (N.lt_ge_cases size 2) as [Hlt|Hge].
  - assert (Hty : ty = Int5 \/ ty <> Int5)
      by (destruct ty; auto; right; discriminate).
    destruct Hty as [->|Hty].
    + unfold looks_past_the_record. rewrite Hha.
      replace (size <? 2) with true by (symmetry; now apply N.ltb_lt).
      cbn [andb]. rewrite payload_short_Int5, Hsl in Hp by exact Hlt.
      destruct (list_eq_dec _ (Py.slice dso (dso + 2) (a ++ r)) _);
        [discriminate Hp|].
      rewrite payload_short_Int5, Hsl in Hrd by exact Hlt.
      destruct (list_eq_dec _ (Py.slice dso (dso + 2) (a ++ trailing)) _).
      * unfold read_jsonb. now rewrite Hrd.
      * apply Hsame. now rewrite Hrd, Hp.
    + replace (looks_past_the_record a trailing) with false
        by (unfold looks_past_the_record; rewrite Hha; destruct ty; congruence).
      apply Hsame. rewrite Hrd.
      rewrite payload_window in Hp by (auto; lia || contradiction).
      rewrite payload_window by (auto; lia || contradiction).
      now rewrite Hp.
  - replace (looks_past_the_record a trailing) with false.
    2:{ unfold looks_past_the_record. rewrite Hha.
        replace (size <? 2) with false by (symmetry; now apply N.ltb_ge).
        now destruct ty. }
    apply Hsame. rewrite Hrd.
    rewrite payload_window in Hp by (auto; lia).
    rewrite payload_window by (auto; lia).
    now rewrite Hp.
Qed.

(** The Int5 record [14 "0"], read as 0 with two bytes reported, fails once
    an [x] follows it; any other byte after it, an [x] after [14 "5"], and
    the bytes after the Text [17 "a"] are ignored. *)
Lemma trailing_bytes_are_ignored_witness :
  _read_jsonb [x14; x30] = Return (PyInt 0, 2) /\
  read_jsonb ([x14; x30] ++ [x78])
  = Raise (ValueError Invalid_literal_for_int) /\
  read_jsonb ([x14; x30] ++ [x79]) = read_jsonb [x14; x30] /\
  read_jsonb ([x14; x35] ++ [x78]) = read_jsonb [x14; x35] /\
  read_jsonb ([x17; x61] ++ [x62; xff]) = read_jsonb [x17; x61].
Proof.
  assert (Hle : 2 <= Py.len [x14; x30]) by discriminate.
  split; [reflexivity|]. split; [|split; [|split]].
  - exact (trailing_bytes_are_ignored [x14; x30] (PyInt 0) 2 eq_refl Hle [x78]).
  - exact (proj2 (trailing_bytes_are_ignored [x14; x30] (PyInt 0) 2
                    eq_refl Hle [x79])).
  - exact (proj2 (trailing_bytes_are_ignored [x14; x35] (PyInt 5) 2
                    eq_refl Hle [x78])).
  - exact (proj2 (trailing_bytes_are_ignored [x17; x61] (PyStr [97]) 2
                    eq_refl Hle [x62; xff])).
Defined.

(** Line 95 compares two bytes whatever the size: the one-byte Int5 [0]
    followed by an [x] is no longer read as 0. *)
Example short_Int5_looks_past_its_payload :
  _read_jsonb [x14; x30] = Return (PyInt 0, 2) /\
  read_jsonb ([x14; x30] ++ [x78]) = Raise (ValueError Invalid_literal_for_int).
Proof. split; reflexivity. Qed.

(** ** Sequences of records *)

(** A record that reads does not start with the byte [78]: its tag would
    be 8 (TextJ). *)
Lemma Return_no_x_head (b t : bytes) (v : pyvalue) (n : N) :
  _read_jsonb b = Return (v, n) -> hd_error (b ++ t) <> Some x78.
Proof.
  intros H. destruct (_read_jsonb_Return _ _ _ H) as (ty & size & dso & Hh & Hp & _).
  destruct (header_Return _ _ _ _ Hh) as (byte0 & rest & -> & Ht & _).
  simpl. intros [= ->]. vm_compute in Ht. injection Ht as <-.
  discriminate Hp.
Qed.

Lemma encodes_len (chunk : bytes) (v : pyvalue) :
  encodes chunk v -> 1 <= Py.len chunk.
Proof. intros H. now destruct (_read_jsonb_productive _ _ _ H). Qed.

Lemma encodes_app (chunk t : bytes) (v : pyvalue) :
  encodes chunk v -> hd_error t <> Some x78 ->
  _read_jsonb (chunk ++ t) = Return (v, Py.len chunk).
Proof.
  intros H Ht. apply _read_jsonb_app; auto. lia.
Qed.

Lemma chunks_no_x_head (chunks : list bytes) (vals : list pyvalue) (post : bytes) :
  Forall2 encodes chunks vals -> hd_error post <> Some x78 ->
  hd_error (concat chunks ++ post) <> Some x78.
Proof.
  intros [|ch v chs vs Hch _] Hpost; [exact Hpost|].
  simpl. rewrite <- app_assoc. eapply Return_no_x_head, Hch.
Qed.

(** The Array loop over a run of complete records: each is read in turn
    and the cursor ends after the last. *)
Lemma array_items_chunks (chunks : list bytes) (vals : list pyvalue) :
  Forall2 encodes chunks vals ->
  forall (inner_data pre post : bytes) (size : N) (acc : list pyvalue),
    inner_data = pre ++ concat chunks ++ post ->
    hd_error post <> Some x78 ->
    Py.len pre + Py.len (concat chunks) <= size ->
    array_items inner_data size (Py.len pre) acc =
    array_items inner_data size (Py.len pre + Py.len (concat chunks)) (acc ++ vals).
Proof.
  induction 1 as [|ch v chs vs Hch Hall IH]; intros inner pre post size acc E Hpost Hsz.
  - simpl. now rewrite N.add_0_r, app_nil_r.
  - simpl concat in *. rewrite len_app in *.
    pose proof (encodes_len _ _ Hch) as Hlen.
    rewrite array_items_eq.
    replace (Py.len pre <? size) with true by (symmetry; apply N.ltb_lt; lia).
    rewrite E at 1. rewrite from_app_len, <- app_assoc.
    rewrite (encodes_app _ _ _ Hch (chunks_no_x_head _ _ _ Hall Hpost)).
    cbn [bind].
    rewrite <- len_app.
    rewrite (IH inner (pre ++ ch) post size (acc ++ [v])); auto.
    + rewrite len_app, <- !app_assoc, N.add_assoc. reflexivity.
    + now rewrite E, <- !app_assoc.
    + rewrite len_app. lia.
Qed.

Lemma len_nil {A} : Py.len (@nil A) = 0.
Proof. reflexivity. Qed.

Lemma len_cons {A} (x : A) (l : list A) : Py.len (x :: l) = 1 + Py.len l.
Proof. unfold Py.len. simpl length. lia. Qed.

(** An Array whose payload is a run of complete records. *)
Lemma read_Array (S : N) (chunks : list bytes) (vals : list pyvalue) (rest : bytes) :
  Forall2 encodes chunks vals ->
  representable S (Py.len (concat chunks)) ->
  _read_jsonb (header_bytes S 11 (Py.len (concat chunks)) ++ concat chunks ++ rest)
  = Return (PyList vals, header_length S + Py.len (concat chunks)).
Proof.
  intros Hall Hr. rewrite (read_header_bytes S 11 _ Array _ Hr eq_refl).
  unfold payload. rewrite slice_from_upto, from_0, upto_app_len.
  fold (array_items (concat chunks) (Py.len (concat chunks)) 0 []).
  rewrite <- (len_nil (A := byte)).
  rewrite (array_items_chunks _ _ Hall (concat chunks) [] [] _ []);
    [|now rewrite app_nil_r|discriminate|rewrite len_nil; lia].
  rewrite len_nil, N.add_0_l, array_items_eq, N.ltb_irrefl. reflexivity.
Qed.

(** The Object loop over a run of complete key and value records. *)
Lemma object_items_chunks (pairs : list (bytes * bytes))
    (items : list (pyvalue * pyvalue)) :
  Forall2 encodes_item pairs items ->
  forall (inner_data pre post : bytes) (size : N) (acc : Py.dict),
    inner_data = pre ++ concat (map item_bytes pairs) ++ post ->
    hd_error post <> Some x78 ->
    Py.len pre + Py.len (concat (map item_bytes pairs)) <= size ->
    object_items inner_data size (Py.len pre) acc =
    d <- insert_items acc items ;;
    object_items inner_data size
                 (Py.len pre + Py.len (concat (map item_bytes pairs))) d.
Proof.
  induction 1 as [|[kc vc] [key value] prs its [Hk Hv] Hall IH];
    intros inner pre post size acc E Hpost Hsz.
  - simpl. now rewrite N.add_0_r.
  - cbn [fst snd] in Hk, Hv. cbn [map concat] in *.
    change (item_bytes (kc, vc)) with (kc ++ vc) in *.
    rewrite !len_app in *.
    pose proof (encodes_len _ _ Hk) as Hlk.
    pose proof (encodes_len _ _ Hv) as Hlv.
    assert (Hrest : hd_error (concat (map item_bytes prs) ++ post) <> Some x78).
    { destruct Hall as [|[kc' vc'] [k' v'] ? ? [Hk' _] _]; [exact Hpost|].
      simpl. unfold item_bytes at 1. simpl fst. rewrite <- !app_assoc.
      eapply Return_no_x_head, Hk'. }
    rewrite object_items_eq.
    replace (Py.len pre <? size) with true by (symmetry; apply N.ltb_lt; lia).
    assert (E1 : Py.from (Py.len pre) inner
                 = kc ++ vc ++ concat (map item_bytes prs) ++ post)
      by (now rewrite E, from_app_len, <- !app_assoc).
    assert (E2 : Py.from (Py.len pre + Py.len kc) inner
                 = vc ++ concat (map item_bytes prs) ++ post)
      by (now rewrite E, <- len_app, <- !app_assoc, (app_assoc pre kc),
            from_app_len).
    rewrite E1, (encodes_app kc _ _ Hk) by (eapply Return_no_x_head, Hv).
    cbn [bind].
    replace (size <=? Py.len pre + Py.len kc) with false
      by (symmetry; apply N.leb_gt; lia).
    rewrite E2, (encodes_app vc _ _ Hv Hrest). cbn [bind insert_items].
    destruct (Py.contains acc key) as [[|]| |]; cbn [bind]; try reflexivity.
    destruct (Py.setitem acc key value) as [d'| |]; cbn [bind]; try reflexivity.
    replace (Py.len pre + Py.len kc + Py.len vc)
      with (Py.len ((pre ++ kc) ++ vc)) by now rewrite !len_app.
    rewrite (IH inner ((pre ++ kc) ++ vc) post size d'); auto.
    + rewrite !len_app, !N.add_assoc. reflexivity.
    + now rewrite E, <- !app_assoc.
    + rewrite !len_app. lia.
Qed.

(** An Object whose payload is a run of complete key and value records. *)
Lemma read_Object (S : N) (pairs : list (bytes * bytes))
    (items : list (pyvalue * pyvalue)) (rest : bytes) :
  Forall2 encodes_item pairs items ->
  let inner_data := concat (map item_bytes pairs) in
  representable S (Py.len inner_data) ->
  _read_jsonb (header_bytes S 12 (Py.len inner_data) ++ inner_data ++ rest)
  = (d <- insert_items [] items ;;
     Return (PyDict d, header_length S + Py.len inner_data)).
Proof.
  intros Hall inner Hr. rewrite (read_header_bytes S 12 _ Object _ Hr eq_refl).
  unfold payload. rewrite slice_from_upto, from_0, upto_app_len.
  fold (object_items inner (Py.len inner) 0 []).
  rewrite <- (len_nil (A := byte)).
  rewrite (object_items_chunks _ _ Hall inner [] [] _ []);
    [|now rewrite app_nil_r|discriminate|rewrite len_nil; subst inner; lia].
  destruct (insert_items [] items) as [d| |]; cbn [bind]; try reflexivity.
  rewrite len_nil, N.add_0_l, object_items_eq, N.ltb_irrefl. reflexivity.
Qed.

(** ** Keys *)

Lemma str_eqb_refl (s : str) : Py.str_eqb s s = true.
Proof. induction s as [|c s IH]; simpl; [reflexivity|]. now rewrite N.eqb_refl. Qed.

Lemma distinct_keys_app_cons (l1 l2 : list pyvalue) (k : pyvalue) :
  distinct_keys (l1 ++ k :: l2) -> Forall (fun a => Py.eq a k = false) l1.
Proof.
  induction l1 as [|a l1 IH]; simpl; intros H; [constructor|].
  inversion H as [|? ? Ha Hd]; subst. constructor; [|now apply IH].
  rewrite Forall_forall in Ha. apply Ha, in_elt.
Qed.

Lemma distinct_keys_snoc (l : list pyvalue) (k : pyvalue) :
  distinct_keys l -> Forall (fun a => Py.eq a k = false) l ->
  distinct_keys (l ++ [k]).
Proof.
  induction 1 as [|a l Ha Hd IH]; simpl; intros Hk.
  - repeat constructor.
  - inversion Hk; subst. constructor; [|now apply IH].
    apply Forall_app. split; [exact Ha|]. now constructor.
Qed.

Lemma distinct_keys_twice (l1 l2 l3 : list pyvalue) (a b : pyvalue) :
  distinct_keys (l1 ++ a :: l2 ++ b :: l3) -> Py.eq a b = false.
Proof.
  induction l1 as [|x l1 IH]; simpl; intros H; inversion H as [|? ? Ha Hd]; subst.
  - rewrite Forall_forall in Ha. apply Ha, in_elt.
  - now apply IH.
Qed.

Lemma existsb_keys (d : Py.dict) (key : pyvalue) :
  existsb (fun item => Py.eq (fst item) key) d = false <->
  Forall (fun a => Py.eq a key = false) (map fst d).
Proof.
  induction d as [|[k v] d IH]; simpl.
  - split; [constructor|reflexivity].
  - rewrite orb_false_iff, IH. split.
    + intros [? ?]. now constructor.
    + intros H. inversion H; subst. now split.
Qed.

Lemma store_fresh (d : Py.dict) (key value : pyvalue) :
  existsb (fun item => Py.eq (fst item) key) d = false ->
  Py.store d key value = d ++ [(key, value)].
Proof.
  induction d as [|[k v] d IH]; simpl; [reflexivity|].
  rewrite orb_false_iff. intros [-> H]. now rewrite IH.
Qed.

(** Keys none of which equals a later one are all stored, in order, unless
    one cannot be hashed. *)
Lemma insert_items_distinct (items : list (pyvalue * pyvalue)) (d : Py.dict) :
  distinct_keys (map fst d ++ map fst items) ->
  insert_items d items =
  if forallb Py.hashable (map fst items) then Return (d ++ items)
  else Raise TypeError_unhashable.
Proof.
  revert d; induction items as [|[k v] items IH]; intros d H; simpl.
  - now rewrite app_nil_r.
  - unfold Py.contains, Py.setitem.
    destruct (Py.hashable k); [|reflexivity]. cbn [bind andb].
    cbn [map fst] in H.
    pose proof (distinct_keys_app_cons _ _ _ H) as Hk.
    apply existsb_keys in Hk. rewrite Hk. cbn [bind].
    rewrite (store_fresh _ _ _ Hk), IH.
    + now rewrite <- app_assoc.
    + now rewrite map_app, <- app_assoc.
Qed.

(** Hashable keys one of which equals an earlier one: line 136 is reached
    for one of them. *)
Lemma insert_items_duplicate (items : list (pyvalue * pyvalue)) (d : Py.dict) :
  Forall (fun item => Py.hashable (fst item) = true) items ->
  distinct_keys (map fst d) ->
  ~ distinct_keys (map fst d ++ map fst items) ->
  exists key, In key (map fst items) /\
              insert_items d items = Raise (Key_already_in_object key).
Proof.
  revert d; induction items as [|[k v] items IH]; intros d Hh Hd Hn; simpl.
  - simpl in Hn. rewrite app_nil_r in Hn. contradiction.
  - inversion Hh as [|? ? Hk Hh']; subst. simpl in Hk.
    unfold Py.contains, Py.setitem. rewrite Hk. cbn [bind].
    destruct (existsb _ d) eqn:E; [exists k; split; [now left|reflexivity]|].
    cbn [bind]. rewrite (store_fresh _ _ _ E).
    destruct (IH (d ++ [(k, v)]) Hh') as (key & Hin & Hkey).
    + rewrite map_app. apply distinct_keys_snoc; auto. now apply existsb_keys.
    + now rewrite map_app, <- app_assoc.
    + exists key. split; [now right|exact Hkey].
Qed.

Lemma insert_items_app (items1 items2 : list (pyvalue * pyvalue)) (d : Py.dict) :
  insert_items d (items1 ++ items2) =
  d' <- insert_items d items1 ;; insert_items d' items2.
Proof.
  revert d; induction items1 as [|[k v] items1 IH]; intros d; simpl;
    [reflexivity|].
  destruct (Py.contains d k) as [[|]| |]; cbn [bind]; try reflexivity.
  destruct (Py.setitem d k v); cbn [bind]; auto.
Qed.

(** C7. An Object payload that is a run of complete key and value records
    with Text keys, in which the same key comes twice, whatever the values:
    [_read_jsonb] fails with DuplicateKey ([KeyError]), and so does
    [read_jsonb]; no mapping is returned. *)
Theorem duplicate_key_is_rejected (S : N) (pairs : list (bytes * bytes))
    (items pre mid post : list (pyvalue * pyvalue)) (s : str)
    (v1 v2 : pyvalue) (rest : bytes) :
  Forall2 encodes_item pairs items ->
  Forall (fun item => is_text (fst item) = true) items ->
  items = pre ++ (PyStr s, v1) :: mid ++ (PyStr s, v2) :: post ->
  let inner_data := concat (map item_bytes pairs) in
  representable S (Py.len inner_data) ->
  fails_with
    (_read_jsonb (header_bytes S 12 (Py.len inner_data) ++ inner_data ++ rest))
    DuplicateKey /\
  fails_with
    (read_jsonb (header_bytes S 12 (Py.len inner_data) ++ inner_data ++ rest))
    DuplicateKey.
Proof.
  intros Hall Ht E inner Hr. subst inner. unfold read_jsonb.
  rewrite (read_Object S pairs items rest Hall Hr).
  destruct (insert_items_duplicate items []) as (key & Hin & Hkey).
  - eapply Forall_impl; [|exact Ht]. intros [k v]. simpl.
    now destruct k.
  - constructor.
  - simpl. rewrite E, map_app. simpl map. rewrite map_app. simpl map.
    intros Hd. apply distinct_keys_twice in Hd. simpl in Hd.
    now rewrite str_eqb_refl in Hd.
  - rewrite Hkey.
    assert (Hk : Key_already_in_object key = KeyError key).
    { apply in_map_iff in Hin. destruct Hin as ([k v] & <- & Hin).
      rewrite Forall_forall in Ht. specialize (Ht _ Hin). simpl in *.
      now destruct k. }
    rewrite Hk. split; exists (KeyError key); split; reflexivity.
Qed.

(** The object [6c 17 "a" 00 17 "a" 01]: the key "a" with the value null and
    again with the value true. *)
Lemma duplicate_key_is_rejected_witness :
  header_bytes 6 12 6 ++ [x17; x61; x00; x17; x61; x01]
  = [x6c; x17; x61; x00; x17; x61; x01] /\
  fails_with
    (_read_jsonb (header_bytes 6 12 6 ++ [x17; x61; x00; x17; x61; x01] ++ []))
    DuplicateKey /\
  fails_with
    (read_jsonb (header_bytes 6 12 6 ++ [x17; x61; x00; x17; x61; x01] ++ []))
    DuplicateKey.
Proof.
  split; [reflexivity|].
  refine (duplicate_key_is_rejected 6
            [([x17; x61], [x00]); ([x17; x61], [x01])]
            [(PyStr [97], PyNone); (PyStr [97], PyBool true)]
            [] [] [] [97] PyNone (PyBool true) [] _ _ eq_refl _).
  - repeat constructor.
  - repeat constructor.
  - left. split; [discriminate|reflexivity].
Defined.

(** C4, as the reader has it: the keys of an Object are not checked for
    being Text.  For a payload that is a run of complete key and value
    records none of whose keys equals a later one, the mapping of the
    decoded items is returned as soon as every key can be hashed, so keys
    that decode to Null, Bool, Int or Float are entered in it; a key that
    decodes to an Array or an Object cannot be hashed and makes the lookup
    of line 135 raise [TypeError]. *)
Theorem keys_are_not_checked_for_text (S : N) (pairs : list (bytes * bytes))
    (items : list (pyvalue * pyvalue)) (rest : bytes) :
  Forall2 encodes_item pairs items ->
  distinct_keys (map fst items) ->
  let inner_data := concat (map item_bytes pairs) in
  representable S (Py.len inner_data) ->
  _read_jsonb (header_bytes S 12 (Py.len inner_data) ++ inner_data ++ rest) =
  if forallb Py.hashable (map fst items)
  then Return (PyDict items, header_length S + Py.len inner_data)
  else Raise TypeError_unhashable.
Proof.
  intros Hall Hd inner Hr. subst inner.
  rewrite (read_Object S pairs items rest Hall Hr).
  rewrite (insert_items_distinct items [] Hd).
  now destruct (forallb Py.hashable (map fst items)).
Qed.

(** [6c 00 01 13 "1" 17 "a"]: the key null with the value true, and the key
    1 (an Int) with the value "a"; and [2c 0b 00], whose key is an empty
    array. *)
Lemma keys_are_not_checked_for_text_witness :
  _read_jsonb [x6c; x00; x01; x13; x31; x17; x61]
  = Return (PyDict [(PyNone, PyBool true); (PyInt 1, PyStr [97])], 7) /\
  _read_jsonb [x2c; x0b; x00] = Raise TypeError_unhashable.
Proof.
  split.
  - refine (keys_are_not_checked_for_text 6
              [([x00], [x01]); ([x13; x31], [x17; x61])]
              [(PyNone, PyBool true); (PyInt 1, PyStr [97])] [] _ _ _).
    + repeat constructor.
    + repeat constructor.
    + left. split; [discriminate|reflexivity].
  - refine (keys_are_not_checked_for_text 2 [([x0b], [x00])]
              [(PyList [], PyNone)] [] _ _ _).
    + repeat constructor.
    + repeat constructor.
    + left. split; [discriminate|reflexivity].
Defined.

(** C4 as stated fails: in [2c 00 00] the key decodes to null, which is not
    Text, and the object is returned with that key. *)
Lemma non_text_key_is_accepted :
  _read_jsonb [x00] = Return (PyNone, 1) /\
  is_text PyNone = false /\
  _read_jsonb [x2c; x00; x00] = Return (PyDict [(PyNone, PyNone)], 3) /\
  ~ fails_with (_read_jsonb [x2c; x00; x00]) NonTextKey.
Proof.
  repeat split. intros (e & He & _). discriminate He.
Qed.

(** ** The cursor past the payload *)

(** C2, as the reader has it: the loops test [bytes_consumed < size] only
    before reading a record, and nothing compares the count a record
    reports with what is left.  When the last record of an Array payload,
    or the last value of an Object payload, reports more bytes than the
    payload still holds, the cursor passes [size], the loop ends, and the
    composite is returned with that record in it and with the header
    length plus the declared size as its count. *)
Theorem overrun_is_accepted (S : N) (last rest : bytes) (element : pyvalue)
    (element_size : N) :
  _read_jsonb last = Return (element, element_size) ->
  Py.len last < element_size ->
  (forall (chunks : list bytes) (vals : list pyvalue),
      Forall2 encodes chunks vals ->
      let inner_data := concat chunks ++ last in
      representable S (Py.len inner_data) ->
      _read_jsonb (header_bytes S 11 (Py.len inner_data) ++ inner_data ++ rest)
      = Return (PyList (vals ++ [element]),
                header_length S + Py.len inner_data)) /\
  (forall (pairs : list (bytes * bytes)) (items : list (pyvalue * pyvalue))
          (kc : bytes) (key : pyvalue),
      Forall2 encodes_item pairs items ->
      encodes kc key ->
      let inner_data := concat (map item_bytes pairs) ++ kc ++ last in
      representable S (Py.len inner_data) ->
      _read_jsonb (header_bytes S 12 (Py.len inner_data) ++ inner_data ++ rest)
      = (d <- insert_items [] (items ++ [(key, element)]) ;;
         Return (PyDict d, header_length S + Py.len inner_data))).
Proof.
  intros Hlast Hover.
  destruct (_read_jsonb_productive _ _ _ Hlast) as [_ Hne].
  assert (Hl : 1 <= Py.len last)
    by (destruct last; [congruence|unfold Py.len; simpl; lia]).
  assert (Hx : hd_error last <> Some x78)
    by (rewrite <- (app_nil_r last); eapply Return_no_x_head, Hlast).
  split.
  - intros chunks vals Hall inner Hr.
    rewrite (read_header_bytes S 11 _ Array _ Hr eq_refl).
    unfold payload. rewrite slice_from_upto, from_0, upto_app_len.
    fold (array_items inner (Py.len inner) 0 []).
    rewrite <- (len_nil (A := byte)).
    rewrite (array_items_chunks _ _ Hall inner [] last _ []);
      [|reflexivity|exact Hx|subst inner; rewrite len_nil, len_app; lia].
    rewrite len_nil, N.add_0_l, array_items_eq. cbn [app].
    replace (Py.len (concat chunks) <? Py.len inner) with true
      by (symmetry; apply N.ltb_lt; subst inner; rewrite len_app; lia).
    unfold inner at 1. rewrite from_app_len, Hlast. cbn [bind].
    rewrite array_items_eq.
    replace (Py.len (concat chunks) + element_size <? Py.len inner) with false
      by (symmetry; apply N.ltb_ge; subst inner; rewrite len_app; lia).
    reflexivity.
  - intros pairs items kc key Hall Hk inner Hr.
    pose proof (encodes_len _ _ Hk) as Hlk.
    rewrite (read_header_bytes S 12 _ Object _ Hr eq_refl).
    unfold payload. rewrite slice_from_upto, from_0, upto_app_len.
    fold (object_items inner (Py.len inner) 0 []).
    rewrite <- (len_nil (A := byte)).
    rewrite (object_items_chunks _ _ Hall inner [] (kc ++ last) _ []);
      [|reflexivity|eapply Return_no_x_head, Hk
       |subst inner; rewrite len_nil, len_app; lia].
    rewrite insert_items_app.
    destruct (insert_items [] items) as [d| |]; cbn [bind]; try reflexivity.
    rewrite len_nil, N.add_0_l, object_items_eq.
    set (c := Py.len (concat (map item_bytes pairs))).
    assert (Hin : Py.len inner = c + Py.len kc + Py.len last)
      by (subst inner c; rewrite !len_app; lia).
    replace (c <? Py.len inner) with true by (symmetry; apply N.ltb_lt; lia).
    assert (E1 : Py.from c inner = kc ++ last)
      by (subst inner c; now rewrite from_app_len).
    assert (E2 : Py.from (c + Py.len kc) inner = last).
    { subst inner c. rewrite <- len_app, app_assoc. apply from_app_len. }
    rewrite E1, (encodes_app kc last _ Hk Hx). cbn [bind].
    replace (Py.len inner <=? c + Py.len kc) with false
      by (symmetry; apply N.leb_gt; lia).
    rewrite E2, Hlast. cbn [bind insert_items].
    destruct (Py.contains d key) as [[|]| |]; cbn [bind]; try reflexivity.
    destruct (Py.setitem d key element) as [d'| |]; cbn [bind]; try reflexivity.
    rewrite object_items_eq.
    replace (c + Py.len kc + element_size <? Py.len inner) with false
      by (symmetry; apply N.ltb_ge; lia).
    reflexivity.
Qed.

(** The record [37] is a Text of declared size 3 with nothing after its
    header: alone it reads as the empty string and reports 4 bytes.  As the
    only element of the array [1b 37], and as the value of the key "a" in
    the object [3c 17 "a" 37], it takes the cursor past the payload. *)
Lemma overrun_is_accepted_witness :
  _read_jsonb [x37] = Return (PyStr [], 4) /\
  Py.len [x37] < 4 /\
  _read_jsonb [x1b; x37] = Return (PyList [PyStr []], 2) /\
  _read_jsonb [x3c; x17; x61; x37] = Return (PyDict [(PyStr [97], PyStr [])], 4).
Proof.
  split; [reflexivity|]. split; [reflexivity|].
  destruct (overrun_is_accepted 1 [x37] [] (PyStr []) 4 eq_refl eq_refl)
    as [HA _].
  destruct (overrun_is_accepted 3 [x37] [] (PyStr []) 4 eq_refl eq_refl)
    as [_ HO].
  split.
  - refine (HA [] [] _ _); [constructor|].
    left. split; [discriminate|reflexivity].
  - refine (HO [] [] [x17; x61] (PyStr [97]) _ _ _);
      [constructor|reflexivity|].
    left. split; [discriminate|reflexivity].
Defined.

(** C2 as stated fails: in the array [1b 37] the declared payload size is
    1, the only child reports 4 bytes consumed, and the array is returned. *)
Lemma overrun_is_not_an_error :
  header [x1b; x37] = Return (Array, 1, 1) /\
  _read_jsonb (Py.from 0 (Py.slice 1 (1 + 1) [x1b; x37])) = Return (PyStr [], 4) /\
  1 < 0 + 4 /\
  _read_jsonb [x1b; x37] = Return (PyList [PyStr []], 2) /\
  ~ fails_with (_read_jsonb [x1b; x37]) MalformedComposite.
Proof.
  repeat split. intros (e & He & _). discriminate He.
Qed.

(** ** Integer literals *)

Ltac chars :=
  unfold blank, digit, Py.Py_ISSPACE, Py.is_digit, Py._PyLong_DigitValue,
    Py.within in *;
  repeat match goal with
         | |- context [?a <=? ?b] => destruct (N.leb_spec a b)
         | |- context [?a <? ?b] => destruct (N.ltb_spec a b)
         | |- context [?a =? ?b] => destruct (N.eqb_spec a b)
         end;
  simpl in *; try reflexivity; try discriminate; try lia.

Lemma Py_ISSPACE_blank (c : N) : Py.Py_ISSPACE c = true <-> blank c.
Proof. split; intros H; revert H; chars; intros; try discriminate; lia. Qed.

Lemma digit_value (d : N) :
  digit d -> (d =? 95) = false /\ (Py._PyLong_DigitValue d <? 10) = true /\
             Py._PyLong_DigitValue d = d - 48.
Proof. intros H. repeat split; revert H; chars; intros; lia. Qed.

Lemma not_digit_value (c : N) :
  ~ digit c -> (Py._PyLong_DigitValue c <? 10) = false.
Proof. intros H. revert H. chars; intros; exfalso; lia. Qed.

Lemma digit_dec (c : N) : digit c \/ ~ digit c.
Proof. unfold digit. lia. Qed.

Lemma skip_space_blanks (ws s : str) :
  Forall blank ws -> Py.skip_space (ws ++ s) = Py.skip_space s.
Proof.
  induction 1 as [|c ws Hc _ IH]; simpl; [reflexivity|].
  apply Py_ISSPACE_blank in Hc. now rewrite Hc.
Qed.

Lemma skip_space_split (s : str) :
  exists ws, s = ws ++ Py.skip_space s /\ Forall blank ws.
Proof.
  induction s as [|c s (ws & E & Hws)]; simpl.
  - exists []. split; [reflexivity|constructor].
  - destruct (Py.Py_ISSPACE c) eqn:Hc.
    + exists (c :: ws). split; [simpl; now rewrite <- E|].
      constructor; [now apply Py_ISSPACE_blank|exact Hws].
    + exists []. split; [reflexivity|constructor].
Qed.

Lemma skip_space_nil (s : str) : Py.skip_space s = [] <-> Forall blank s.
Proof.
  split.
  - intros H. destruct (skip_space_split s) as (ws & E & Hws).
    rewrite H, app_nil_r in E. now subst.
  - intros H. rewrite <- (app_nil_r s). now rewrite skip_space_blanks.
Qed.

Lemma skip_space_stop (c : N) (s : str) :
  ~ blank c -> Py.skip_space (c :: s) = c :: s.
Proof.
  intros H. simpl. destruct (Py.Py_ISSPACE c) eqn:E; [|reflexivity].
  apply Py_ISSPACE_blank in E. contradiction.
Qed.

Lemma strip_prefix_10 (s : str) : Py.strip_prefix 10 s = s.
Proof.
  destruct s as [|c0 [|c1 s]]; try reflexivity.
  unfold Py.strip_prefix. simpl. now rewrite andb_false_r.
Qed.

Lemma digit_groups_head (body : str) (ds : list N) :
  digit_groups body ds ->
  exists d body' ds', body = d :: body' /\ ds = d - 48 :: ds' /\ digit d.
Proof.
  intros [d Hd|d b ds' Hd _|d b ds' Hd _]; do 3 eexists;
    (split; [reflexivity|split; [reflexivity|assumption]]).
Qed.

(** The scan reads a run of digit groups to its end. *)
Lemma scan_digits_complete (body : str) (ds : list N) :
  digit_groups body ds ->
  forall (prev : bool) (acc k : N) (rest : str),
    (rest = [] \/ exists c r, rest = c :: r /\ ~ digit c /\ c <> 95) ->
    Py.scan_digits 10 prev acc k (body ++ rest)
    = Some (fold_left (fun a d => a * 10 + d) ds acc, k + Py.len ds, rest).
Proof.
  induction 1 as [d Hd|d body ds Hd _ IH|d body ds Hd _ IH];
    intros prev acc k rest Hrest;
    destruct (digit_value d Hd) as (E1 & E2 & E3); simpl;
    rewrite E1, E2, E3.
  - destruct Hrest as [->|(c & r & -> & Hc & Hu)]; simpl.
    + f_equal.
    + apply N.eqb_neq in Hu. rewrite Hu, (not_digit_value c Hc). reflexivity.
  - rewrite IH by exact Hrest. rewrite len_cons, N.add_assoc. reflexivity.
  - rewrite IH by exact Hrest. rewrite len_cons, N.add_assoc. reflexivity.
Qed.

(** What the scan has read, when it started on a digit, is a run of digit
    groups. *)
Lemma scan_digits_sound (n : nat) :
  forall (s : str) (d : N) (prev : bool) (acc k v k' : N) (rest : str),
    (length s <= n)%nat -> digit d ->
    Py.scan_digits 10 prev acc k (d :: s) = Some (v, k', rest) ->
    exists body ds,
      d :: s = body ++ rest /\ digit_groups body ds /\
      v = fold_left (fun a x => a * 10 + x) ds acc /\ k' = k + Py.len ds.
Proof.
  induction n as [|n IH]; intros s d prev acc k v k' rest Hn Hd H;
    destruct (digit_value d Hd) as (E1 & E2 & E3);
    simpl in H; rewrite E1, E2, E3 in H.
  - destruct s; [|simpl in Hn; lia]. simpl in H. injection H as <- <- <-.
    exists [d], [d - 48]. repeat split. now constructor.
  - destruct s as [|c s].
    { simpl in H. injection H as <- <- <-.
      exists [d], [d - 48]. repeat split. now constructor. }
    simpl in Hn. destruct (N.eqb_spec c 95) as [->|Hu].
    + (* an underscore: a digit must follow *)
      simpl in H. destruct s as [|c2 s]; [discriminate H|].
      destruct (digit_dec c2) as [Hc2|Hc2].
      * simpl in Hn.
        destruct (IH s c2 true _ _ _ _ _ ltac:(lia) Hc2 H)
          as (body & ds & E & Hg & -> & ->).
        exists (d :: 95 :: body), (d - 48 :: ds).
        repeat split; [simpl; now rewrite <- E|now constructor|].
        rewrite len_cons. lia.
      * simpl in H. rewrite (not_digit_value c2 Hc2) in H.
        destruct (c2 =? 95); discriminate H.
    + destruct (digit_dec c) as [Hc|Hc].
      * destruct (IH s c false _ _ _ _ _ ltac:(lia) Hc H)
          as (body & ds & E & Hg & -> & ->).
        exists (d :: body), (d - 48 :: ds).
        repeat split; [simpl; now rewrite <- E|now constructor|].
        rewrite len_cons. lia.
      * simpl in H. apply N.eqb_neq in Hu.
        rewrite Hu, (not_digit_value c Hc) in H. injection H as <- <- <-.
        exists [d], [d - 48]. repeat split. now constructor.
Qed.

Lemma strip_sign_spec (s : str) :
  exists sg, s = sg ++ snd (Py.strip_sign s) /\ sign_of sg (fst (Py.strip_sign s)).
Proof.
  destruct s as [|c s]; simpl.
  - exists []. split; [reflexivity|constructor].
  - destruct (N.eqb_spec c 43) as [->|H43].
    { exists [43]. split; [reflexivity|constructor]. }
    destruct (N.eqb_spec c 45) as [->|H45].
    { exists [45]. split; [reflexivity|constructor]. }
    exists []. split; [reflexivity|constructor].
Qed.

Lemma strip_sign_digit (d : N) (s : str) :
  digit d -> Py.strip_sign (d :: s) = (false, d :: s).
Proof. intros H. unfold Py.strip_sign. revert H. chars. Qed.

Lemma blank_not_digit (c : N) : blank c -> ~ digit c /\ c <> 95.
Proof. unfold blank, digit. lia. Qed.

Lemma digit_not_blank (d : N) : digit d -> ~ blank d.
Proof. unfold blank, digit. lia. Qed.

(** [int(s)] returns [z] exactly when [s] is a literal of [z]. *)
Lemma int_10_literal (s : str) (z : Z) :
  Py.int_ s 10 = Return z <-> int_literal s z.
Proof.
  unfold Py.int_. split.
  - destruct (skip_space_split s) as (ws1 & Es & Hws1).
    destruct (strip_sign_spec (Py.skip_space s)) as (sg & Esg & Hsg).
    destruct (Py.strip_sign (Py.skip_space s)) as [neg s1]. simpl in Esg, Hsg.
    rewrite strip_prefix_10.
    destruct (Py.leading_underscore s1) eqn:Hlu; [discriminate|].
    destruct (Py.scan_digits 10 false 0 0 s1) as [[[v digits] rest]|] eqn:Hscan;
      [|discriminate].
    change (negb (N.land 10 (10 - 1) =? 0)) with true. cbn [andb].
    destruct (N.eqb_spec digits 0) as [|Hd0]; [discriminate|].
    destruct (N.ltb_spec Py.int_max_str_digits digits) as [|Hmax];
      [discriminate|].
    destruct (Py.is_nil (Py.skip_space rest)) eqn:Hnil; [|discriminate].
    cbn [orb negb]. intros [= <-].
    assert (Hrest : Forall blank rest).
    { apply skip_space_nil. now destruct (Py.skip_space rest). }
    assert (Hbody : exists body ds,
               s1 = body ++ rest /\ digit_groups body ds /\
               v = number ds /\ digits = Py.len ds).
    { destruct s1 as [|c s1].
      - simpl in Hscan. injection Hscan as <- <- <-. congruence.
      - simpl in Hlu. destruct (digit_dec c) as [Hc|Hc].
        + destruct (scan_digits_sound (length s1) s1 c false 0 0 v digits rest
                      (le_n _) Hc Hscan) as (body & ds & E & Hg & Hv & Hk).
          exists body, ds. repeat split; auto.
        + simpl in Hscan. rewrite Hlu, (not_digit_value c Hc) in Hscan.
          injection Hscan as <- <- <-. congruence. }
    destruct Hbody as (body & ds & -> & Hg & -> & ->).
    exists ws1, sg, neg, body, ds, rest.
    repeat split; auto. now rewrite <- Esg.
  - intros (ws1 & sg & neg & body & ds & ws2 & -> & H1 & H2 & Hsg & Hg & Hmax & ->).
    destruct (digit_groups_head body ds Hg) as (d & body' & ds' & -> & -> & Hd).
    rewrite skip_space_blanks by exact H1.
    assert (Hs : Py.strip_sign (Py.skip_space (sg ++ (d :: body') ++ ws2))
                 = (neg, (d :: body') ++ ws2)).
    { destruct Hsg; simpl app.
      - rewrite skip_space_stop by now apply digit_not_blank.
        now apply strip_sign_digit.
      - reflexivity.
      - reflexivity. }
    rewrite Hs, strip_prefix_10. simpl Py.leading_underscore.
    destruct (digit_value d Hd) as (-> & _ & _).
    rewrite (scan_digits_complete _ _ Hg).
    + change (negb (N.land 10 (10 - 1) =? 0)) with true. cbn [andb].
      rewrite N.add_0_l.
      replace (Py.len (d - 48 :: ds') =? 0) with false
        by (symmetry; apply N.eqb_neq; rewrite len_cons; lia).
      replace (Py.int_max_str_digits <? Py.len (d - 48 :: ds')) with false
        by (symmetry; now apply N.ltb_ge).
      apply skip_space_nil in H2. rewrite H2. reflexivity.
    + destruct H2 as [|c ws2 Hc _]; [now left|right].
      exists c, ws2. split; [reflexivity|]. now apply blank_not_digit.
Qed.

Lemma int_Return_or_Raise (s : str) (base : N) :
  (exists z, Py.int_ s base = Return z) \/
  Py.int_ s base = Raise (ValueError Invalid_literal_for_int).
Proof.
  unfold Py.int_. destruct (Py.strip_sign _) as [neg s1].
  destruct (Py.leading_underscore _); [now right|].
  destruct (Py.scan_digits _ _ _ _ _) as [[[v d] r]|]; [|now right].
  destruct (_ || _); [now right|left; eauto].
Qed.

Lemma int_literal_ascii (b : bytes) (z : Z) :
  int_literal (map Byte.to_N b) z ->
  Py.decode_ascii b = Return (map Byte.to_N b).
Proof.
  intros (ws1 & sg & neg & body & ds & ws2 & E & H1 & H2 & Hsg & Hg & _).
  unfold Py.decode_ascii.
  assert (Hall : Forall (fun c => c < 128) (map Byte.to_N b)).
  { rewrite E. repeat (apply Forall_app; split).
    - eapply Forall_impl; [|exact H1]. unfold blank. intros; lia.
    - destruct Hsg; repeat constructor.
    - clear -Hg. induction Hg; repeat constructor; auto;
        match goal with H : digit _ |- _ => unfold digit in H; lia end.
    - eapply Forall_impl; [|exact H2]. unfold blank. intros; lia. }
  replace (forallb (fun x => Byte.to_N x <? 128) b) with true; [reflexivity|].
  symmetry. apply forallb_forall. intros x Hx. apply N.ltb_lt.
  rewrite Forall_forall in Hall. apply Hall. now apply in_map.
Qed.

(** C6, as the reader has it: an Int record is read as [int(payload)]: it
    returns [z] exactly when the payload is, in ASCII, a base-10 literal of
    [z] as Python's [int] takes it (blanks around, an optional sign, digits
    with single underscores between them, at most 4300 digits), and on any
    other payload it fails with NumericParseError. *)
Theorem Int_payload_is_an_int_literal (jsonb_data : bytes) (size dso : N) :
  header jsonb_data = Return (Int, size, dso) ->
  let text := map Byte.to_N (Py.slice dso (dso + size) jsonb_data) in
  (forall z, _read_jsonb jsonb_data = Return (PyInt z, dso + size)
             <-> int_literal text z) /\
  ((exists z, int_literal text z) \/
   fails_with (_read_jsonb jsonb_data) NumericParseError).
Proof.
  intros Hh text. rewrite (_read_jsonb_header _ _ _ _ Hh). unfold payload.
  set (p := Py.slice dso (dso + size) jsonb_data) in *.
  assert (Hlit : forall z, int_literal text z ->
                   (s <- Py.decode_ascii p ;; z <- Py.int_ s 10 ;; Return (PyInt z))
                   = Return (PyInt z)).
  { intros z Hz. rewrite (int_literal_ascii p z Hz). cbn [bind].
    apply int_10_literal in Hz. fold text. now rewrite Hz. }
  split.
  - intros z. split; [|intros Hz; now rewrite (Hlit z Hz)].
    unfold Py.decode_ascii.
    destruct (forallb _ p); [|discriminate]. cbn [bind]. fold text.
    destruct (Py.int_ text 10) as [z'| |] eqn:E; try discriminate.
    cbn [bind]. intros [= <-]. now apply int_10_literal.
  - unfold Py.decode_ascii.
    destruct (forallb _ p).
    + cbn [bind]. fold text.
      destruct (int_Return_or_Raise text 10) as [[z Hz]| ->].
      * left. exists z. now apply int_10_literal.
      * right. eexists. split; reflexivity.
    + right. eexists. split; reflexivity.
Qed.

(** [63 " -1_0\n"]: blanks, a sign and an underscore. *)
Lemma Int_payload_is_an_int_literal_witness :
  header [x63; x20; x2d; x31; x5f; x30; x0a] = Return (Int, 6, 1) /\
  _read_jsonb [x63; x20; x2d; x31; x5f; x30; x0a] = Return (PyInt (-10), 7) /\
  int_literal [32; 45; 49; 95; 48; 10] (-10).
Proof.
  split; [reflexivity|]. split; [reflexivity|].
  destruct (Int_payload_is_an_int_literal [x63; x20; x2d; x31; x5f; x30; x0a]
              6 1 eq_refl) as [H _].
  exact (proj1 (H (-10)%Z) eq_refl).
Defined.

(** C6 as stated fails: the payloads [" 1"] and ["1_0"] are not an optional
    sign followed by digits, and they are read as 1 and as 10. *)
Lemma Int_payload_with_blank_or_underscore :
  signed_digits [x20; x31] = false /\
  _read_jsonb [x23; x20; x31] = Return (PyInt 1, 3) /\
  signed_digits [x31; x5f; x30] = false /\
  _read_jsonb [x33; x31; x5f; x30] = Return (PyInt 10, 4) /\
  ~ fails_with (_read_jsonb [x23; x20; x31]) NumericParseError.
Proof.
  repeat split. intros (e & He & _). discriminate He.
Qed.

(** * More of the reader

    Properties of the lines of [_read_jsonb] and of [read_jsonb] that the
    claims above do not reach. *)

(** ** Null, true and false; reserved tags *)

(** X1. Lines 80-91: a record of tag 0, 1 or 2 is None, True or False when
    its size is zero, whichever selector writes the zero, and it reports
    the header alone whatever bytes follow; with any other size it raises
    [ValueError], also when the bytes of that size are there. *)
Theorem constants_need_size_zero (S t size : N) (c : pyvalue) (body : bytes) :
  constant_of t = Some c ->
  representable S size ->
  _read_jsonb (header_bytes S t size ++ body) =
  if size =? 0 then Return (c, header_length S)
  else Raise (ValueError (if t =? 0 then Null_with_non_zero_size
                          else Bool_with_non_zero_size)).
Proof.
  intros Hc Hr.
  assert (Ht : t = 0 \/ t = 1 \/ t = 2).
  { destruct t as [|[[]|[]|]]; try discriminate Hc; auto. }
  destruct Ht as [->|[->| ->]]; injection Hc as <-;
    (erewrite read_header_bytes; [|exact Hr|reflexivity]);
    unfold payload; destruct (size =? 0) eqn:E; cbn [negb bind];
    try reflexivity;
    apply N.eqb_eq in E; subst size; now rewrite N.add_0_r.
Qed.

(** True written as [01] and as [c1 00], and [11 "x"]. *)
Lemma constants_need_size_zero_witness :
  _read_jsonb [x01; xff] = Return (PyBool true, 1) /\
  _read_jsonb [xc1; x00; xff] = Return (PyBool true, 2) /\
  _read_jsonb [x11; x78] = Raise (ValueError Bool_with_non_zero_size).
Proof.
  split; [|split].
  - refine (constants_need_size_zero 0 1 0 (PyBool true) [xff] eq_refl _).
    left. split; [discriminate|reflexivity].
  - refine (constants_need_size_zero 12 1 0 (PyBool true) [xff] eq_refl _).
    right. split; [split; discriminate|reflexivity].
  - refine (constants_need_size_zero 1 1 1 (PyBool true) [x78] eq_refl _).
    left. split; [discriminate|reflexivity].
Defined.

(** X2. Lines 140-141: a record with a reserved tag (13, 14, 15) never
    returns.  When the buffer holds the header it raises [AttributeError],
    not the [ValueError] written on line 141, because the message reads
    [JsonbType.name] first; when the size prefix is cut short the error is
    the one of the header. *)
Theorem reserved_tags_raise_AttributeError (byte0 : byte) (rest : bytes) :
  13 <= tag byte0 ->
  _read_jsonb (byte0 :: rest) =
  Raise (if header_length (selector byte0) - 1 <=? Py.len rest
         then AttributeError
         else if selector byte0 =? 12 then IndexError else struct_error).
Proof.
  intros Ht. rewrite _read_jsonb_eq. unfold _read_jsonb_body.
  rewrite header_cons.
  assert (Hty : exists ty, JsonbType_ (tag byte0) = Return ty /\
                  (ty = RESERVED_13 \/ ty = RESERVED_14 \/ ty = RESERVED_15)).
  { pose proof (tag_le_15 byte0) as H15.
    assert (E : tag byte0 = 13 \/ tag byte0 = 14 \/ tag byte0 = 15) by lia.
    destruct E as [->|[->| ->]]; eexists; split; try reflexivity; auto. }
  destruct Hty as (ty & -> & Hty). cbn [bind].
  destruct (N.leb_spec (header_length (selector byte0) - 1) (Py.len rest))
    as [Hc|Hc].
  - destruct (selector byte0 <=? 11); cbn [bind]; unfold payload;
      destruct Hty as [->|[->| ->]]; reflexivity.
  - destruct (N.leb_spec (selector byte0) 11) as [H11|H11].
    + unfold header_length in Hc.
      replace (selector byte0 <=? 11) with true in Hc
        by (symmetry; now apply N.leb_le).
      lia.
    + reflexivity.
Qed.

(** [0d], and [cf] with its size byte missing. *)
Lemma reserved_tags_raise_AttributeError_witness :
  13 <= tag x0d /\ _read_jsonb [x0d] = Raise AttributeError /\
  13 <= tag xcf /\ _read_jsonb [xcf] = Raise IndexError.
Proof.
  assert (H1 : 13 <= tag x0d) by discriminate.
  assert (H2 : 13 <= tag xcf) by discriminate.
  split; [exact H1|]. split.
  - exact (reserved_tags_raise_AttributeError x0d [] H1).
  - split; [exact H2|]. exact (reserved_tags_raise_AttributeError xcf [] H2).
Defined.

(** ** Arrays and objects of complete records *)

(** X3. Lines 116-123 and 143: an Array whose payload is a run of complete
    records returns their values in order and reports the header length
    plus the payload size, whichever selector writes the size and whatever
    bytes follow the payload; so the bytes of such an Array are themselves a
    complete record, which can stand in another Array. *)
Theorem Array_reads_its_records (S : N) (chunks : list bytes)
    (vals : list pyvalue) (rest : bytes) :
  Forall2 encodes chunks vals ->
  representable S (Py.len (concat chunks)) ->
  _read_jsonb (header_bytes S 11 (Py.len (concat chunks)) ++ concat chunks ++ rest)
  = Return (PyList vals, header_length S + Py.len (concat chunks)) /\
  encodes (header_bytes S 11 (Py.len (concat chunks)) ++ concat chunks)
          (PyList vals).
Proof.
  intros Hall Hr. split; [now apply read_Array|].
  unfold encodes. rewrite len_app, len_header_bytes.
  rewrite <- (app_nil_r (concat chunks)) at 2. now apply read_Array.
Qed.

(** [4b 00 13 "7" 0b]: null, 7 and an empty array. *)
Lemma Array_reads_its_records_witness :
  _read_jsonb ([x4b; x00; x13; x37; x0b] ++ [xff])
  = Return (PyList [PyNone; PyInt 7; PyList []], 5) /\
  encodes [x4b; x00; x13; x37; x0b] (PyList [PyNone; PyInt 7; PyList []]).
Proof.
  refine (Array_reads_its_records 4 [[x00]; [x13; x37]; [x0b]]
            [PyNone; PyInt 7; PyList []] [xff] _ _).
  - repeat constructor.
  - left. split; [discriminate|reflexivity].
Defined.

(** X4. Lines 58-59 in the loops: when an Array or an Object declares more
    bytes than the buffer holds and the bytes that are there are a run of
    complete records, the loop reads them all, finds the cursor still below
    [size], and calls [_read_jsonb] on the empty slice: the failure is the
    [ValueError] of the empty input, raised from inside (for an Object,
    unless one of the keys was refused first). *)
Theorem short_payload_is_an_empty_input (S size : N) :
  representable S size ->
  (forall (chunks : list bytes) (vals : list pyvalue),
      Forall2 encodes chunks vals ->
      Py.len (concat chunks) < size ->
      _read_jsonb (header_bytes S 11 size ++ concat chunks)
      = Raise (ValueError Input_buffer_is_empty)) /\
  (forall (pairs : list (bytes * bytes)) (items : list (pyvalue * pyvalue)),
      Forall2 encodes_item pairs items ->
      Py.len (concat (map item_bytes pairs)) < size ->
      _read_jsonb (header_bytes S 12 size ++ concat (map item_bytes pairs))
      = (_ <- insert_items [] items ;;
         Raise (ValueError Input_buffer_is_empty))).
Proof.
  intros Hr. split.
  - intros chunks vals Hall Hlt.
    rewrite (read_header_bytes S 11 _ Array _ Hr eq_refl).
    unfold payload. rewrite slice_from_upto, from_0, upto_all by lia.
    fold (array_items (concat chunks) size 0 []).
    rewrite <- (len_nil (A := byte)).
    rewrite (array_items_chunks _ _ Hall (concat chunks) [] [] _ []);
      [|now rewrite app_nil_r|discriminate|rewrite len_nil; lia].
    rewrite len_nil, N.add_0_l, array_items_eq.
    replace (Py.len (concat chunks) <? size) with true
      by (symmetry; now apply N.ltb_lt).
    rewrite from_all by lia. reflexivity.
  - intros pairs items Hall Hlt.
    rewrite (read_header_bytes S 12 _ Object _ Hr eq_refl).
    unfold payload. rewrite slice_from_upto, from_0, upto_all by lia.
    set (inner := concat (map item_bytes pairs)) in *.
    fold (object_items inner size 0 []).
    rewrite <- (len_nil (A := byte)).
    rewrite (object_items_chunks _ _ Hall inner [] [] _ []);
      [|now rewrite app_nil_r|discriminate|rewrite len_nil; subst inner; lia].
    destruct (insert_items [] items) as [d| |]; cbn [bind]; try reflexivity.
    rewrite len_nil, N.add_0_l, object_items_eq.
    fold inner.
    replace (Py.len inner <? size) with true by (symmetry; now apply N.ltb_lt).
    rewrite from_all by lia. reflexivity.
Qed.

(** The array [3b 00 01] declares three bytes and has two. *)
Lemma short_payload_is_an_empty_input_witness :
  representable 3 3 /\
  _read_jsonb [x3b; x00; x01] = Raise (ValueError Input_buffer_is_empty).
Proof.
  assert (Hr : representable 3 3) by (left; split; [discriminate|reflexivity]).
  split; [exact Hr|].
  destruct (short_payload_is_an_empty_input 3 3 Hr) as [HA _].
  refine (HA [[x00]; [x01]] [PyNone; PyBool true] _ _).
  - repeat constructor.
  - reflexivity.
Defined.

(** X5. Lines 129-132: an Object payload that ends with a key, after a run
    of complete key and value records, has no room for the value: once the
    items before it are stored the reader raises the [ValueError] of line
    132, whatever the key is. *)
Theorem key_without_value_is_rejected (S : N) (pairs : list (bytes * bytes))
    (items : list (pyvalue * pyvalue)) (kc rest : bytes) (key : pyvalue) :
  Forall2 encodes_item pairs items ->
  encodes kc key ->
  let inner_data := concat (map item_bytes pairs) ++ kc in
  representable S (Py.len inner_data) ->
  _read_jsonb (header_bytes S 12 (Py.len inner_data) ++ inner_data ++ rest)
  = (_ <- insert_items [] items ;; Raise (ValueError Ran_out_of_data)).
Proof.
  intros Hall Hk inner Hr.
  pose proof (encodes_len _ _ Hk) as Hlk.
  rewrite (read_header_bytes S 12 _ Object _ Hr eq_refl).
  unfold payload. rewrite slice_from_upto, from_0, upto_app_len.
  fold (object_items inner (Py.len inner) 0 []).
  rewrite <- (len_nil (A := byte)).
  rewrite (object_items_chunks _ _ Hall inner [] kc _ []);
    [|reflexivity
     |rewrite <- (app_nil_r kc); eapply Return_no_x_head, Hk
     |subst inner; rewrite len_nil, len_app; lia].
  destruct (insert_items [] items) as [d| |]; cbn [bind]; try reflexivity.
  rewrite len_nil, N.add_0_l, object_items_eq.
  set (c := Py.len (concat (map item_bytes pairs))).
  assert (Hin : Py.len inner = c + Py.len kc)
    by (subst inner c; now rewrite len_app).
  replace (c <? Py.len inner) with true by (symmetry; apply N.ltb_lt; lia).
  assert (E1 : Py.from c inner = kc)
    by (subst inner c; now rewrite from_app_len).
  rewrite E1, Hk. cbn [bind].
  replace (Py.len inner <=? c + Py.len kc) with true
    by (symmetry; apply N.leb_le; lia).
  reflexivity.
Qed.

(** [5c 17 "a" 00 17 "b"]: the key "b" has no value. *)
Lemma key_without_value_is_rejected_witness :
  _read_jsonb ([x5c; x17; x61; x00; x17; x62] ++ [])
  = Raise (ValueError Ran_out_of_data).
Proof.
  refine (key_without_value_is_rejected 5 [([x17; x61], [x00])]
            [(PyStr [97], PyNone)] [x17; x62] [] (PyStr [98]) _ _ _).
  - repeat constructor.
  - reflexivity.
  - left. split; [discriminate|reflexivity].
Defined.

(** X6. Lines 135-136: keys are duplicates when Python's [==] says so, not
    when their records are the same bytes.  An Object payload that is a run
    of complete records with hashable keys, one of which equals an earlier
    one (as True equals 1), reaches line 136 for one of its keys. *)
Theorem equal_keys_are_duplicates (S : N) (pairs : list (bytes * bytes))
    (items : list (pyvalue * pyvalue)) (rest : bytes) :
  Forall2 encodes_item pairs items ->
  Forall (fun item => Py.hashable (fst item) = true) items ->
  ~ distinct_keys (map fst items) ->
  let inner_data := concat (map item_bytes pairs) in
  representable S (Py.len inner_data) ->
  exists key,
    In key (map fst items) /\
    _read_jsonb (header_bytes S 12 (Py.len inner_data) ++ inner_data ++ rest)
    = Raise (Key_already_in_object key).
Proof.
  intros Hall Hh Hn inner Hr. subst inner.
  rewrite (read_Object S pairs items rest Hall Hr).
  destruct (insert_items_duplicate items [] Hh) as (key & Hin & Hkey).
  - constructor.
  - exact Hn.
  - exists key. split; [exact Hin|]. now rewrite Hkey.
Qed.

(** [5c 13 "1" 00 01 00]: the keys 1 and True. *)
Lemma equal_keys_are_duplicates_witness :
  _read_jsonb [x13; x31] = Return (PyInt 1, 2) /\
  _read_jsonb [x01] = Return (PyBool true, 1) /\
  exists key,
    In key [PyInt 1; PyBool true] /\
    _read_jsonb ([x5c; x13; x31; x00; x01; x00] ++ [])
    = Raise (Key_already_in_object key).
Proof.
  split; [reflexivity|]. split; [reflexivity|].
  refine (equal_keys_are_duplicates 5 [([x13; x31], [x00]); ([x01], [x00])]
            [(PyInt 1, PyNone); (PyBool true, PyNone)] [] _ _ _ _).
  - repeat constructor.
  - repeat constructor.
  - intros H. inversion H as [|a l Ha _]; subst.
    inversion Ha as [|? ? E _]; subst. discriminate E.
  - left. split; [discriminate|reflexivity].
Defined.

(** ** Text *)

Ltac compare_all :=
  repeat match goal with
         | |- context [?a <=? ?b] => destruct (N.leb_spec a b)
         | |- context [?a <? ?b] => destruct (N.ltb_spec a b)
         | |- context [?a =? ?b] => destruct (N.eqb_spec a b)
         end.

Ltac dlia := zify; Z.to_euclidean_division_equations; lia.

Lemma utf8_cons (b0 : N) (r0 : list N) :
  Py.utf8 (b0 :: r0) =
  if b0 <? 128 then option_map (cons b0) (Py.utf8 r0)
  else if Py.within 194 223 b0 then
    match r0 with
    | b1 :: r1 =>
      if Py.cont b1
      then option_map (cons ((b0 - 192) * 64 + (b1 - 128))) (Py.utf8 r1)
      else None
    | _ => None
    end
  else if Py.within 224 239 b0 then
    match r0 with
    | b1 :: b2 :: r2 =>
      if Py.within (if b0 =? 224 then 160 else 128)
                   (if b0 =? 237 then 159 else 191) b1 && Py.cont b2
      then option_map
             (cons ((b0 - 224) * 4096 + (b1 - 128) * 64 + (b2 - 128)))
             (Py.utf8 r2)
      else None
    | _ => None
    end
  else if Py.within 240 244 b0 then
    match r0 with
    | b1 :: b2 :: b3 :: r3 =>
      if Py.within (if b0 =? 240 then 144 else 128)
                   (if b0 =? 244 then 143 else 191) b1
         && Py.cont b2 && Py.cont b3
      then option_map
             (cons ((b0 - 240) * 262144 + (b1 - 128) * 4096
                    + (b2 - 128) * 64 + (b3 - 128)))
             (Py.utf8 r3)
      else None
    | _ => None
    end
  else None.
Proof. reflexivity. Qed.

Ltac decide_comparisons :=
  unfold Py.within, Py.cont;
  repeat match goal with
         | |- context [?a <=? ?b] =>
           first [ replace (a <=? b) with true by (symmetry; apply N.leb_le; dlia)
                 | replace (a <=? b) with false by (symmetry; apply N.leb_gt; dlia) ]
         | |- context [?a <? ?b] =>
           first [ replace (a <? b) with true by (symmetry; apply N.ltb_lt; dlia)
                 | replace (a <? b) with false by (symmetry; apply N.ltb_ge; dlia) ]
         | |- context [?a =? ?b] =>
           first [ replace (a =? b) with true by (symmetry; apply N.eqb_eq; dlia)
                 | replace (a =? b) with false by (symmetry; apply N.eqb_neq; dlia)
                 | destruct (N.eqb_spec a b) ]
         end;
  cbn [andb orb negb].

Lemma utf8_utf8_bytes (c : N) (r : list N) :
  scalar c -> Py.utf8 (utf8_bytes c ++ r) = option_map (cons c) (Py.utf8 r).
Proof.
  unfold scalar, utf8_bytes. intros Hc.
  destruct (N.ltb_spec c 128) as [H1|H1];
    [|destruct (N.ltb_spec c 2048) as [H2|H2];
      [|destruct (N.ltb_spec c 65536) as [H3|H3]]];
    cbn [app]; rewrite utf8_cons; cbv beta iota;
    decide_comparisons; try reflexivity; do 2 f_equal; dlia.
Qed.

(** Decoding the UTF-8 bytes of a string of scalar values gives it back. *)
Lemma utf8_flat_map_utf8_bytes (s : str) :
  Forall scalar s -> Py.utf8 (flat_map utf8_bytes s) = Some s.
Proof.
  induction 1 as [|c s Hc _ IH]; simpl; [reflexivity|].
  now rewrite utf8_utf8_bytes, IH.
Qed.

Lemma utf8_bytes_2 (b0 b1 : N) :
  194 <= b0 <= 223 -> 128 <= b1 <= 191 ->
  utf8_bytes ((b0 - 192) * 64 + (b1 - 128)) = [b0; b1] /\
  scalar ((b0 - 192) * 64 + (b1 - 128)).
Proof.
  intros H0 H1. unfold utf8_bytes, scalar. split; [|dlia].
  decide_comparisons. repeat f_equal; dlia.
Qed.

Lemma utf8_bytes_3 (b0 b1 b2 : N) :
  224 <= b0 <= 239 ->
  (if b0 =? 224 then 160 else 128) <= b1 <= (if b0 =? 237 then 159 else 191) ->
  128 <= b2 <= 191 ->
  utf8_bytes ((b0 - 224) * 4096 + (b1 - 128) * 64 + (b2 - 128)) = [b0; b1; b2] /\
  scalar ((b0 - 224) * 4096 + (b1 - 128) * 64 + (b2 - 128)).
Proof.
  intros H0 H1 H2. unfold utf8_bytes, scalar.
  destruct (N.eqb_spec b0 224); destruct (N.eqb_spec b0 237);
    (split; [|dlia]); decide_comparisons; repeat f_equal; dlia.
Qed.

Lemma utf8_bytes_4 (b0 b1 b2 b3 : N) :
  240 <= b0 <= 244 ->
  (if b0 =? 240 then 144 else 128) <= b1 <= (if b0 =? 244 then 143 else 191) ->
  128 <= b2 <= 191 -> 128 <= b3 <= 191 ->
  utf8_bytes ((b0 - 240) * 262144 + (b1 - 128) * 4096 + (b2 - 128) * 64
              + (b3 - 128)) = [b0; b1; b2; b3] /\
  scalar ((b0 - 240) * 262144 + (b1 - 128) * 4096 + (b2 - 128) * 64
          + (b3 - 128)).
Proof.
  intros H0 H1 H2 H3. unfold utf8_bytes, scalar.
  destruct (N.eqb_spec b0 240); destruct (N.eqb_spec b0 244);
    (split; [|dlia]); decide_comparisons; repeat f_equal; dlia.
Qed.

Lemma within_iff (lo hi x : N) : Py.within lo hi x = true <-> lo <= x <= hi.
Proof.
  unfold Py.within. rewrite andb_true_iff, !N.leb_le. reflexivity.
Qed.

Lemma cont_iff (x : N) : Py.cont x = true <-> 128 <= x <= 191.
Proof. unfold Py.cont. rewrite andb_true_iff, !N.leb_le. reflexivity. Qed.

(** What decodes is the UTF-8 form of the result, and the result holds
    scalar values only: no byte sequence but the shortest is accepted. *)
Lemma utf8_sound (n : nat) :
  forall (b : list N) (s : str),
    (length b <= n)%nat -> Py.utf8 b = Some s ->
    flat_map utf8_bytes s = b /\ Forall scalar s.
Proof.
  induction n as [|n IH]; intros b s Hn H.
  { destruct b; [|simpl in Hn; lia]. injection H as <-. split; constructor. }
  destruct b as [|b0 r0]; [injection H as <-; split; constructor|].
  rewrite utf8_cons in H. simpl in Hn.
  assert (Hstep : forall (c : N) (enc r : list N),
             utf8_bytes c = enc -> scalar c -> (length r <= n)%nat ->
             option_map (cons c) (Py.utf8 r) = Some s ->
             flat_map utf8_bytes s = enc ++ r /\ Forall scalar s).
  { intros c enc r Henc Hc Hr Hs.
    destruct (Py.utf8 r) as [s'|] eqn:E; [|discriminate].
    injection Hs as <-. destruct (IH r s' Hr E) as [E' Hs'].
    simpl. rewrite Henc, E'. split; [reflexivity|now constructor]. }
  destruct (N.ltb_spec b0 128) as [H0|H0].
  { apply (Hstep b0 [b0] r0); auto; [|left; lia|lia].
    unfold utf8_bytes. now replace (b0 <? 128) with true
      by (symmetry; apply N.ltb_lt; lia). }
  destruct (Py.within 194 223 b0) eqn:W2.
  { apply within_iff in W2. destruct r0 as [|b1 r1]; [discriminate|].
    destruct (Py.cont b1) eqn:C1; [|discriminate]. apply cont_iff in C1.
    destruct (utf8_bytes_2 b0 b1 W2 C1) as [Henc Hc].
    apply (Hstep _ [b0; b1] r1 Henc Hc); [simpl in Hn; lia|exact H]. }
  destruct (Py.within 224 239 b0) eqn:W3.
  { apply within_iff in W3. destruct r0 as [|b1 [|b2 r2]]; try discriminate.
    destruct (Py.within _ _ b1) eqn:W1; [|discriminate].
    destruct (Py.cont b2) eqn:C2; [|discriminate]. cbn [andb] in H.
    apply within_iff in W1. apply cont_iff in C2.
    destruct (utf8_bytes_3 b0 b1 b2 W3 W1 C2) as [Henc Hc].
    apply (Hstep _ [b0; b1; b2] r2 Henc Hc); [simpl in Hn; lia|exact H]. }
  destruct (Py.within 240 244 b0) eqn:W4; [|discriminate].
  apply within_iff in W4. destruct r0 as [|b1 [|b2 [|b3 r3]]]; try discriminate.
  destruct (Py.within _ _ b1) eqn:W1; [|discriminate].
  destruct (Py.cont b2) eqn:C2; [|discriminate].
  destruct (Py.cont b3) eqn:C3; [|discriminate]. cbn [andb] in H.
  apply within_iff in W1. apply cont_iff in C2. apply cont_iff in C3.
  destruct (utf8_bytes_4 b0 b1 b2 b3 W4 W1 C2 C3) as [Henc Hc].
  apply (Hstep _ [b0; b1; b2; b3] r3 Henc Hc); [simpl in Hn; lia|exact H].
Qed.

Lemma map_to_N_byte_of_N (l : list N) :
  Forall (fun x => x < 256) l -> map Byte.to_N (map byte_of_N l) = l.
Proof.
  induction 1 as [|x l Hx _ IH]; simpl; [reflexivity|].
  now rewrite to_N_byte_of_N, IH.
Qed.

Lemma map_byte_of_N_to_N (b : bytes) : map byte_of_N (map Byte.to_N b) = b.
Proof.
  induction b as [|x b IH]; simpl; [reflexivity|].
  unfold byte_of_N at 1. now rewrite Byte.of_to_N, IH.
Qed.

Lemma utf8_bytes_lt_256 (c : N) :
  scalar c -> Forall (fun x => x < 256) (utf8_bytes c).
Proof.
  unfold scalar, utf8_bytes. intros Hc.
  destruct (c <? 128) eqn:E1; [apply N.ltb_lt in E1|apply N.ltb_ge in E1;
    destruct (c <? 2048) eqn:E2; [apply N.ltb_lt in E2|apply N.ltb_ge in E2;
      destruct (c <? 65536) eqn:E3;
        [apply N.ltb_lt in E3|apply N.ltb_ge in E3]]];
    repeat constructor; dlia.
Qed.

Lemma decode_utf8_encode_utf8 (s : str) :
  Forall scalar s -> Py.decode_utf8 (encode_utf8 s) = Return s.
Proof.
  intros Hs. unfold Py.decode_utf8, encode_utf8.
  rewrite map_to_N_byte_of_N, utf8_flat_map_utf8_bytes; auto.
  clear -Hs. induction Hs as [|c s Hc _ IH]; simpl; [constructor|].
  apply Forall_app. split; [now apply utf8_bytes_lt_256|exact IH].
Qed.

(** X7. Lines 101-102: every string of Unicode scalar values is read back
    from its UTF-8 bytes under a Text or TextRaw header, whichever selector
    writes the size and whatever bytes follow, with the header length plus
    the number of bytes as the count. *)
Theorem Text_reads_back (S t : N) (s : str) (rest : bytes) :
  t = 7 \/ t = 10 ->
  Forall scalar s ->
  representable S (Py.len (encode_utf8 s)) ->
  _read_jsonb (header_bytes S t (Py.len (encode_utf8 s)) ++ encode_utf8 s ++ rest)
  = Return (PyStr s, header_length S + Py.len (encode_utf8 s)).
Proof.
  intros Ht Hs Hr.
  assert (E : exists ty, JsonbType_ t = Return ty /\ (ty = Text \/ ty = TextRaw))
    by (destruct Ht as [-> | ->]; eexists; split; try reflexivity; auto).
  destruct E as (ty & Hty & Hcase).
  rewrite (read_header_bytes S t _ ty _ Hr Hty).
  assert (Hp : payload _read_jsonb (encode_utf8 s ++ rest) ty
                 (Py.len (encode_utf8 s)) 0
               = (x <- Py.decode_utf8 (encode_utf8 s) ;; Return (PyStr x))).
  { unfold payload.
    rewrite slice_from_upto, from_0, upto_app_len.
    destruct Hcase as [-> | ->]; reflexivity. }
  now rewrite Hp, decode_utf8_encode_utf8.
Qed.

(** The string of U+0041, U+00E9, U+20AC and U+1F600 under a Text header. *)
Lemma Text_reads_back_witness :
  encode_utf8 [65; 233; 8364; 128512]
  = [x41; xc3; xa9; xe2; x82; xac; xf0; x9f; x98; x80] /\
  _read_jsonb ([xa7; x41; xc3; xa9; xe2; x82; xac; xf0; x9f; x98; x80] ++ [xff])
  = Return (PyStr [65; 233; 8364; 128512], 11).
Proof.
  split; [reflexivity|].
  refine (Text_reads_back 10 7 [65; 233; 8364; 128512] [xff] _ _ _).
  - now left.
  - repeat constructor; unfold scalar; lia.
  - left. split; [discriminate|reflexivity].
Defined.

(** X8. Lines 101-102: when a Text or TextRaw record is read, the value is
    a string of Unicode scalar values (never a surrogate, never above
    U+10FFFF) and the payload is exactly its UTF-8 form: overlong forms are
    refused, so two records with the same text have the same payload. *)
Theorem Text_payload_is_the_UTF8_of_the_value (jsonb_data : bytes)
    (t : JsonbType) (size dso : N) (v : pyvalue) (n : N) :
  header jsonb_data = Return (t, size, dso) ->
  t = Text \/ t = TextRaw ->
  _read_jsonb jsonb_data = Return (v, n) ->
  exists s, v = PyStr s /\ Forall scalar s /\
            Py.slice dso (dso + size) jsonb_data = encode_utf8 s.
Proof.
  intros Hh Ht H. rewrite (_read_jsonb_header _ _ _ _ Hh) in H.
  assert (Hp : payload _read_jsonb jsonb_data t size dso
               = (x <- Py.decode_utf8 (Py.slice dso (dso + size) jsonb_data) ;;
                  Return (PyStr x)))
    by (destruct Ht as [-> | ->]; reflexivity).
  rewrite Hp in H. clear Hp. unfold Py.decode_utf8 in H.
  set (p := Py.slice dso (dso + size) jsonb_data) in *.
  destruct (Py.utf8 (map Byte.to_N p)) as [s|] eqn:E; [|discriminate].
  cbn [bind] in H. injection H as <- _.
  destruct (utf8_sound (length (map Byte.to_N p)) _ _ (le_n _) E) as [Hb Hs].
  exists s. repeat split; auto.
  unfold encode_utf8. now rewrite Hb, map_byte_of_N_to_N.
Qed.

(** [27 c3 a9]: the string of U+00E9. *)
Lemma Text_payload_is_the_UTF8_of_the_value_witness :
  header [x27; xc3; xa9] = Return (Text, 2, 1) /\
  _read_jsonb [x27; xc3; xa9] = Return (PyStr [233], 3) /\
  exists s, PyStr [233] = PyStr s /\ Forall scalar s /\
            Py.slice 1 (1 + 2) [x27; xc3; xa9] = encode_utf8 s.
Proof.
  split; [reflexivity|]. split; [reflexivity|].
  exact (Text_payload_is_the_UTF8_of_the_value [x27; xc3; xa9] Text 2 1
           (PyStr [233]) 3 eq_refl (or_introl eq_refl) eq_refl).
Defined.

(** ** Integers *)

Lemma number_app (ds : list N) (d : N) : number (ds ++ [d]) = number ds * 10 + d.
Proof. unfold number. now rewrite fold_left_app. Qed.

Lemma decimal_digits_fuel_S (fuel : nat) (n : N) :
  decimal_digits_fuel (S fuel) n
  = if n <? 10 then [n]
    else decimal_digits_fuel fuel (n / 10) ++ [n mod 10].
Proof. reflexivity. Qed.

Lemma number_single (n : N) : number [n] = n.
Proof. unfold number. cbn [fold_left]. lia. Qed.

Lemma decimal_digits_fuel_spec (fuel : nat) :
  forall n, n < 2 ^ N.of_nat fuel ->
    number (decimal_digits_fuel (S fuel) n) = n /\
    Forall (fun d => d < 10) (decimal_digits_fuel (S fuel) n) /\
    decimal_digits_fuel (S fuel) n <> [].
Proof.
  induction fuel as [|fuel IH]; intros n Hn;
    rewrite decimal_digits_fuel_S;
    destruct (N.ltb_spec n 10) as [H10|H10];
    try (split; [apply number_single|];
         split; [repeat constructor; exact H10|discriminate]).
  - simpl in Hn. lia.
  - rewrite Nat2N.inj_succ, N.pow_succ_r' in Hn.
    assert (Hq : n / 10 < 2 ^ N.of_nat fuel) by dlia.
    destruct (IH _ Hq) as (Hv & Hd & Hne). split; [|split].
    + rewrite number_app, Hv. dlia.
    + apply Forall_app. split; [exact Hd|]. repeat constructor. dlia.
    + intros E. apply app_eq_nil in E. destruct E as [_ E]. discriminate E.
Qed.

Lemma decimal_digits_spec (n : N) :
  number (decimal_digits n) = n /\
  Forall (fun d => d < 10) (decimal_digits n) /\
  decimal_digits n <> [].
Proof.
  apply decimal_digits_fuel_spec. rewrite N2Nat.id. apply N.size_gt.
Qed.

Lemma decimal_digits_fuel_length (fuel : nat) :
  forall (n : N) (k : nat),
    n < 10 ^ N.of_nat (S k) ->
    (length (decimal_digits_fuel fuel n) <= S k)%nat.
Proof.
  induction fuel as [|fuel IH]; intros n k Hn; simpl; [lia|].
  destruct (N.ltb_spec n 10) as [H10|H10]; [simpl; lia|].
  rewrite length_app. simpl. destruct k as [|k].
  - simpl in Hn. lia.
  - rewrite Nat2N.inj_succ, N.pow_succ_r' in Hn.
    assert (Hq : n / 10 < 10 ^ N.of_nat (S k)) by dlia.
    specialize (IH _ _ Hq). lia.
Qed.

Lemma digit_groups_of_digits (ds : list N) :
  Forall (fun d => d < 10) ds -> ds <> [] ->
  digit_groups (map (fun d => d + 48) ds) ds.
Proof.
  induction 1 as [|d ds Hd Hds IH]; intros Hne; [congruence|].
  assert (Hdigit : digit (d + 48)) by (unfold digit; lia).
  destruct ds as [|d' ds].
  - simpl. replace d with (d + 48 - 48) at 2 by lia. now constructor.
  - cbn [map]. replace d with (d + 48 - 48) at 2 by lia.
    apply dg_digit; [exact Hdigit|]. apply IH. discriminate.
Qed.

(** The text of an integer of at most 4300 digits is a literal of it. *)
Lemma int_literal_int_text (z : Z) :
  (Z.abs z < 10 ^ 4300)%Z -> int_literal (int_text z) z.
Proof.
  intros Hz. destruct (decimal_digits_spec (Z.abs_N z)) as (Hv & Hd & Hne).
  exists [], (if (z <? 0)%Z then [45] else []), (z <? 0)%Z,
    (map (fun d => d + 48) (decimal_digits (Z.abs_N z))),
    (decimal_digits (Z.abs_N z)), [].
  repeat split.
  - unfold int_text. now rewrite app_nil_r.
  - constructor.
  - constructor.
  - destruct (z <? 0)%Z; constructor.
  - now apply digit_groups_of_digits.
  - unfold Py.len, Py.int_max_str_digits.
    pose proof (decimal_digits_fuel_length
                  (S (N.to_nat (N.size (Z.abs_N z)))) (Z.abs_N z) 4299) as Hl.
    fold (decimal_digits (Z.abs_N z)) in Hl.
    assert (Hb : Z.abs_N z < 10 ^ N.of_nat 4300).
    { change (N.of_nat 4300) with 4300. apply N2Z.inj_lt.
      rewrite N2Z.inj_abs_N, N2Z.inj_pow. exact Hz. }
    specialize (Hl Hb). lia.
  - rewrite Hv. destruct (Z.ltb_spec z 0); rewrite N2Z.inj_abs_N; lia.
Qed.

(** X9. Lines 92-93: every integer of at most 4300 decimal digits is read
    back from its decimal text (a minus sign when negative, then the
    digits) under an Int header, whichever selector writes the size and
    whatever bytes follow. *)
Theorem Int_reads_back (S : N) (z : Z) (rest : bytes) :
  (Z.abs z < 10 ^ 4300)%Z ->
  let text := map byte_of_N (int_text z) in
  representable S (Py.len text) ->
  _read_jsonb (header_bytes S 3 (Py.len text) ++ text ++ rest)
  = Return (PyInt z, header_length S + Py.len text).
Proof.
  intros Hz text Hr.
  rewrite (read_header_bytes S 3 _ Int _ Hr eq_refl).
  unfold payload. rewrite slice_from_upto, from_0, upto_app_len.
  pose proof (int_literal_int_text z Hz) as Hlit.
  assert (E : map Byte.to_N text = int_text z).
  { apply map_to_N_byte_of_N. unfold int_text.
    destruct (decimal_digits_spec (Z.abs_N z)) as (_ & Hd & _).
    apply Forall_app. split; [destruct (z <? 0)%Z; repeat constructor|].
    apply Forall_map. eapply Forall_impl; [|exact Hd].
    intros d Hlt. cbv beta in *. lia. }
  rewrite <- E in Hlit.
  rewrite (int_literal_ascii text z Hlit). cbn [bind].
  apply int_10_literal in Hlit. now rewrite Hlit.
Qed.

(** The integers -1203 and 0. *)
Lemma Int_reads_back_witness :
  map byte_of_N (int_text (-1203)) = [x2d; x31; x32; x30; x33] /\
  _read_jsonb ([x53; x2d; x31; x32; x30; x33] ++ [xff]) = Return (PyInt (-1203), 6) /\
  _read_jsonb ([x13; x30] ++ []) = Return (PyInt 0, 2).
Proof.
  split; [reflexivity|]. split.
  - refine (Int_reads_back 5 (-1203) [xff] _ _).
    + reflexivity.
    + left. split; [discriminate|reflexivity].
  - refine (Int_reads_back 1 0 [] _ _).
    + reflexivity.
    + left. split; [discriminate|reflexivity].
Defined.

(** A run of digits of the base, with no underscore, is scanned to its end. *)
Lemma scan_digits_run (base : N) (s : str) :
  Forall (fun c => c <> 95 /\ Py._PyLong_DigitValue c < base) s ->
  forall acc k,
    Py.scan_digits base false acc k s
    = Some (fold_left (fun a c => a * base + Py._PyLong_DigitValue c) s acc,
            k + Py.len s, []).
Proof.
  induction 1 as [|c s [Hus Hc] Hs IH]; intros acc k.
  - simpl. now rewrite len_nil, N.add_0_r.
  - cbn [Py.scan_digits fold_left].
    destruct (N.eqb_spec c 95) as [E|_]; [contradiction|].
    destruct (N.ltb_spec (Py._PyLong_DigitValue c) base) as [_|Hge]; [|lia].
    rewrite IH, len_cons. f_equal. f_equal. f_equal. lia.
Qed.

Lemma hex_digit_value (c : N) :
  hex_digit c -> c <> 95 /\ Py._PyLong_DigitValue c < 16.
Proof.
  unfold hex_digit, Py._PyLong_DigitValue, Py.within. intros H. split; [lia|].
  repeat match goal with
  | |- context [?a <=? ?b] => destruct (N.leb_spec a b)
  end; cbn [andb]; lia.
Qed.

Lemma decimal_digit_value (c : N) :
  digit c -> c <> 95 /\ Py._PyLong_DigitValue c < 10.
Proof.
  unfold digit, Py._PyLong_DigitValue, Py.within. intros H. split; [lia|].
  repeat match goal with
  | |- context [?a <=? ?b] => destruct (N.leb_spec a b)
  end; cbn [andb]; lia.
Qed.

Lemma digit_value_hex (c : N) :
  Py._PyLong_DigitValue c < 16 -> hex_digit c.
Proof.
  unfold hex_digit, Py._PyLong_DigitValue, Py.within.
  repeat match goal with
  | |- context [?a <=? ?b] => destruct (N.leb_spec a b)
  end; cbn [andb]; lia.
Qed.

(** In base 10 or 16, a run of digits of the base has neither blanks, sign,
    prefix nor underscore to strip: [int] gives its value, unless the base
    is 10 and the run is longer than the limit. *)
Lemma int_of_digit_run (base : N) (s : str) :
  base = 10 \/ base = 16 ->
  s <> [] ->
  Forall (fun c => c <> 95 /\ Py._PyLong_DigitValue c < base) s ->
  Py.int_ s base
  = if (base =? 10) && (Py.int_max_str_digits <? Py.len s)
    then Raise (ValueError Invalid_literal_for_int)
    else Return (Z.of_N (fold_left
                           (fun a c => a * base + Py._PyLong_DigitValue c)
                           s 0)).
Proof.
  intros Hbase Hne Hall. pose proof (scan_digits_run base s Hall 0 0) as Hscan.
  destruct s as [|c0 s]; [congruence|].
  assert (Hhex : forall c, Py._PyLong_DigitValue c < base -> hex_digit c).
  { intros c Hc. apply digit_value_hex. lia. }
  pose proof (Forall_inv Hall) as [_ H0]. apply Hhex in H0.
  unfold hex_digit in H0.
  assert (Hsp : Py.skip_space (c0 :: s) = c0 :: s).
  { cbn [Py.skip_space]. unfold Py.Py_ISSPACE, Py.within.
    repeat match goal with
    | |- context [?a <=? ?b] => destruct (N.leb_spec a b)
    | |- context [?a =? ?b] => destruct (N.eqb_spec a b)
    end; cbn [andb orb]; try reflexivity; lia. }
  assert (Hsg : Py.strip_sign (c0 :: s) = (false, c0 :: s)).
  { cbn [Py.strip_sign].
    destruct (N.eqb_spec c0 43); [lia|]. destruct (N.eqb_spec c0 45); [lia|].
    reflexivity. }
  assert (Hpre : Py.strip_prefix base (c0 :: s) = c0 :: s).
  { destruct s as [|c1 s]; [reflexivity|].
    pose proof (Forall_inv (Forall_inv_tail Hall)) as [_ H1]. apply Hhex in H1.
    unfold hex_digit in H1. cbn [Py.strip_prefix].
    destruct (N.eqb_spec c1 120), (N.eqb_spec c1 88), (N.eqb_spec base 8),
      (N.eqb_spec base 2); try lia.
    cbn [andb orb]. now rewrite !andb_false_r. }
  assert (Hus : Py.leading_underscore (c0 :: s) = false).
  { cbn [Py.leading_underscore]. destruct (N.eqb_spec c0 95); [lia|reflexivity]. }
  unfold Py.int_. rewrite Hsp, Hsg, Hpre, Hus, Hscan.
  replace (0 + Py.len (c0 :: s) =? 0) with false
    by (rewrite len_cons; symmetry; apply N.eqb_neq; lia).
  cbn [Py.skip_space Py.is_nil negb orb]. rewrite orb_false_r, N.add_0_l.
  destruct Hbase; subst base; reflexivity.
Qed.

(** X10. Lines 94-96: under an Int5 header, [0x] followed by hexadecimal
    digits in either case is read as the number they write in base 16,
    however many digits there are. *)
Theorem Int5_reads_hexadecimal (S : N) (hs : str) (rest : bytes) :
  hs <> [] ->
  Forall hex_digit hs ->
  let text := [x30; x78] ++ map byte_of_N hs in
  representable S (Py.len text) ->
  _read_jsonb (header_bytes S 4 (Py.len text) ++ text ++ rest)
  = Return (PyInt (Z.of_N (hex_number hs)), header_length S + Py.len text).
Proof.
  intros Hne Hhex text Hr.
  rewrite (read_header_bytes S 4 _ Int5 _ Hr eq_refl).
  assert (Hb : map Byte.to_N (map byte_of_N hs) = hs).
  { apply map_to_N_byte_of_N. eapply Forall_impl; [|exact Hhex].
    unfold hex_digit. intros c Hc. lia. }
  assert (Hlen : Py.len text = 2 + Py.len (map byte_of_N hs)).
  { unfold text. now rewrite len_app. }
  unfold payload.
  replace (Py.slice 0 (0 + 2) (text ++ rest)) with [x30; x78].
  2:{ unfold text. rewrite <- app_assoc.
      change (0 + 2) with (0 + Py.len [x30; x78]).
      now rewrite slice_from_upto, from_0, upto_app_len. }
  destruct (list_eq_dec _ _ _) as [_|Hn]; [|congruence].
  replace (Py.slice (0 + 2) (0 + Py.len text) (text ++ rest))
    with (map byte_of_N hs).
  2:{ rewrite N.add_0_l, N.add_0_l, Hlen, slice_from_upto.
      unfold text. rewrite <- app_assoc.
      pose proof (from_app_len [x30; x78] (map byte_of_N hs ++ rest)) as Hf.
      change (Py.len [x30; x78]) with 2 in Hf.
      now rewrite Hf, upto_app_len. }
  unfold Py.decode_ascii. rewrite Hb.
  replace (forallb _ (map byte_of_N hs)) with true.
  2:{ symmetry. apply forallb_forall. intros x Hx.
      apply (in_map Byte.to_N) in Hx. rewrite Hb in Hx.
      apply N.ltb_lt. rewrite Forall_forall in Hhex.
      specialize (Hhex _ Hx). unfold hex_digit in Hhex. lia. }
  cbn [bind].
  rewrite (int_of_digit_run 16 hs (or_intror eq_refl) Hne).
  - reflexivity.
  - eapply Forall_impl; [|exact Hhex]. exact hex_digit_value.
Qed.

(** [0x1fE] is 510: the record [34 "0x1fE"] *)
Lemma Int5_reads_hexadecimal_witness :
  _read_jsonb ([x54; x30; x78; x31; x66; x45] ++ [x00])
  = Return (PyInt 510, 6).
Proof.
  refine (Int5_reads_hexadecimal 5 [49; 102; 69] [x00] _ _ _).
  - discriminate.
  - unfold hex_digit. repeat constructor; lia.
  - left. split; [discriminate|reflexivity].
Defined.

(** X11. Line 93: an Int payload of more than 4300 digits is refused with
    ValueError, although it writes an integer. *)
Theorem Int_of_more_than_4300_digits_is_refused (S : N) (ds : str)
    (rest : bytes) :
  Forall digit ds ->
  4300 < Py.len ds ->
  representable S (Py.len ds) ->
  exists why,
    _read_jsonb (header_bytes S 3 (Py.len ds) ++ map byte_of_N ds ++ rest)
    = Raise (ValueError why).
Proof.
  intros Hd Hlen Hr. exists Invalid_literal_for_int.
  assert (Hb : map Byte.to_N (map byte_of_N ds) = ds).
  { apply map_to_N_byte_of_N. eapply Forall_impl; [|exact Hd].
    unfold digit. intros c Hc. lia. }
  assert (Hl : Py.len (map byte_of_N ds) = Py.len ds).
  { unfold Py.len. now rewrite length_map. }
  rewrite (read_header_bytes S 3 _ Int _ Hr eq_refl).
  unfold payload. rewrite <- Hl, slice_from_upto, from_0, upto_app_len.
  unfold Py.decode_ascii. rewrite Hb.
  replace (forallb _ (map byte_of_N ds)) with true.
  2:{ symmetry. apply forallb_forall. intros x Hx.
      apply (in_map Byte.to_N) in Hx. rewrite Hb in Hx.
      apply N.ltb_lt. rewrite Forall_forall in Hd.
      specialize (Hd _ Hx). unfold digit in Hd. lia. }
  cbn [bind].
  rewrite (int_of_digit_run 10 ds (or_introl eq_refl)).
  - replace (Py.int_max_str_digits <? Py.len ds) with true; [reflexivity|].
    symmetry. apply N.ltb_lt. exact Hlen.
  - intros E. subst ds. rewrite len_nil in Hlen. lia.
  - eapply Forall_impl; [|exact Hd]. exact decimal_digit_value.
Qed.

(** 4301 times the digit 1, under a header with a two-byte size. *)
Lemma Int_of_more_than_4300_digits_is_refused_witness :
  exists why,
    _read_jsonb (header_bytes 13 3 (Py.len (repeat 49 4301))
                 ++ map byte_of_N (repeat 49 4301) ++ [])
    = Raise (ValueError why).
Proof.
  refine (Int_of_more_than_4300_digits_is_refused 13 (repeat 49 4301) [] _ _ _).
  - apply Forall_forall. intros c Hc. apply repeat_spec in Hc. subst c.
    unfold digit. lia.
  - unfold Py.len. rewrite repeat_length. reflexivity.
  - right. unfold Py.len. rewrite repeat_length. split; [lia|reflexivity].
Defined.

(** ** The value is no larger than its record *)

Lemma weight_pos (v : pyvalue) : 1 <= weight v.
Proof. destruct v; cbn [weight]; lia. Qed.

Lemma weights_app (l : list pyvalue) (e : pyvalue) :
  weights (l ++ [e]) = weights l + weight e.
Proof.
  unfold weights. induction l as [|x l IH]; cbn [app fold_right]; [lia|].
  rewrite IH. lia.
Qed.

Lemma item_weights_app (d : Py.dict) (k x : pyvalue) :
  item_weights (d ++ [(k, x)]) = item_weights d + weight k + weight x.
Proof.
  unfold item_weights. induction d as [|[k' x'] d IH]; cbn [app fold_right];
    [lia|].
  rewrite IH. lia.
Qed.

Lemma decode_utf8_len (b : bytes) (s : str) :
  Py.decode_utf8 b = Return s -> Py.len s <= Py.len b.
Proof.
  unfold Py.decode_utf8. destruct (Py.utf8 (map Byte.to_N b)) as [s'|] eqn:E;
    [|discriminate].
  intros [= <-]. destruct (utf8_sound _ _ _ (le_n _) E) as [Hb _].
  assert (Hlen : forall s : str,
            (length s <= length (flat_map utf8_bytes s))%nat).
  { induction s as [|c s IH]; [simpl; lia|].
    cbn [flat_map]. rewrite length_app. cbn [length].
    assert (1 <= length (utf8_bytes c))%nat; [|lia].
    unfold utf8_bytes.
    repeat match goal with |- context [if ?c then _ else _] => destruct c end;
      simpl; lia. }
  specialize (Hlen s'). rewrite Hb, length_map in Hlen. unfold Py.len. lia.
Qed.

Section Weights.

Variable rd : bytes -> outcome (pyvalue * N).
Variable inner_data : bytes.
Variable size : N.

Hypothesis rd_weight :
  forall c e k, rd (Py.from c inner_data) = Return (e, k) ->
    weight e <= k /\ weight e <= Py.len (Py.from c inner_data).

Lemma rd_weight_step (c : N) (e : pyvalue) (k total : N) :
  rd (Py.from c inner_data) = Return (e, k) ->
  total <= c -> total <= Py.len inner_data ->
  total + weight e <= c + k /\ total + weight e <= Py.len inner_data.
Proof.
  intros E Hc Hl. destruct (rd_weight _ _ _ E) as [Hk Hw].
  rewrite len_from in Hw. pose proof (weight_pos e). lia.
Qed.

Lemma array_loop_weight (n : nat) :
  forall c acc final,
    array_loop rd n inner_data size c acc = Return final ->
    weights acc <= c -> weights acc <= Py.len inner_data ->
    weights final <= Py.len inner_data.
Proof.
  induction n as [|n IH]; intros c acc final H Hc Hl.
  - simpl in H. destruct (c <? size); [discriminate|].
    now injection H as <-.
  - rewrite array_loop_S in H. destruct (c <? size).
    2:{ now injection H as <-. }
    destruct (rd (Py.from c inner_data)) as [[e k]| |] eqn:E;
      try discriminate H.
    cbn [bind] in H.
    destruct (rd_weight_step _ _ _ _ E Hc Hl) as [Hc' Hl'].
    apply (IH _ _ _ H); now rewrite weights_app.
Qed.

Lemma object_loop_weight (n : nat) :
  forall c acc final,
    object_loop rd n inner_data size c acc = Return final ->
    item_weights acc <= c -> item_weights acc <= Py.len inner_data ->
    item_weights final <= Py.len inner_data.
Proof.
  induction n as [|n IH]; intros c acc final H Hc Hl.
  - simpl in H. destruct (c <? size); [discriminate|].
    now injection H as <-.
  - rewrite object_loop_S in H. destruct (c <? size).
    2:{ now injection H as <-. }
    destruct (rd (Py.from c inner_data)) as [[key ks]| |] eqn:E;
      try discriminate H.
    cbn [bind] in H. destruct (size <=? c + ks); [discriminate H|].
    destruct (rd (Py.from (c + ks) inner_data)) as [[v vs]| |] eqn:E';
      try discriminate H.
    cbn [bind] in H. unfold Py.contains, Py.setitem in H.
    destruct (Py.hashable key); [|discriminate H]. cbn [bind] in H.
    destruct (existsb _ acc) eqn:Hfresh; [discriminate H|].
    cbn [bind] in H. rewrite (store_fresh _ _ _ Hfresh) in H.
    destruct (rd_weight_step _ _ _ _ E Hc Hl) as [Hc1 Hl1].
    destruct (rd_weight_step _ _ _ _ E' Hc1 Hl1) as [Hc2 Hl2].
    apply (IH _ _ _ H); rewrite item_weights_app; lia.
Qed.

End Weights.

Lemma weight_bound (m : nat) :
  forall jsonb_data v n,
    (length jsonb_data <= m)%nat ->
    _read_jsonb jsonb_data = Return (v, n) ->
    weight v <= n /\ weight v <= Py.len jsonb_data.
Proof.
  induction m as [|m IH]; intros jsonb_data v n Hm H.
  { destruct (_read_jsonb_productive _ _ _ H) as [_ Hne].
    destruct jsonb_data; [congruence|simpl in Hm; lia]. }
  destruct (_read_jsonb_Return _ _ _ H) as (t & size & dso & Hh & Hp & ->).
  destruct (header_Return _ _ _ _ Hh) as (byte0 & rest & -> & _ & Hdso & _ & Hin).
  pose proof (header_length_pos (selector byte0)) as Hpos. rewrite <- Hdso in Hpos.
  set (data := byte0 :: rest) in *.
  assert (Hinner : forall c,
            (length (Py.from c (Py.slice dso (dso + size) data)) <= m)%nat).
  { intros c. pose proof (length_from_le c (Py.slice dso (dso + size) data)).
    pose proof (length_slice_le dso (dso + size) data).
    subst data. simpl length in *. lia. }
  assert (Hsl : Py.len (Py.slice dso (dso + size) data) <= size /\
                dso + Py.len (Py.slice dso (dso + size) data) <= Py.len data).
  { rewrite len_slice. lia. }
  assert (Hrd : forall c e k,
            _read_jsonb (Py.from c (Py.slice dso (dso + size) data))
            = Return (e, k) ->
            weight e <= k /\
            weight e <= Py.len (Py.from c (Py.slice dso (dso + size) data))).
  { intros c e k E. exact (IH _ _ _ (Hinner c) E). }
  assert (Hone : 1 <= dso + size /\ 1 <= Py.len data) by lia.
  destruct t; unfold payload in Hp;
    try discriminate Hp;
    repeat match type of Hp with
    | (if ?c then _ else _) = _ => destruct c
    | bind ?x _ = _ =>
      let E := fresh "E" in destruct x eqn:E; cbn [bind] in Hp
    end;
    try discriminate Hp; injection Hp as <-; cbn [weight];
    try exact Hone.
  - apply decode_utf8_len in E. lia.
  - apply decode_utf8_len in E. lia.
  - apply (array_loop_weight _ _ _ Hrd) in E;
      [fold (weights a); lia|simpl; lia|simpl; lia].
  - apply (object_loop_weight _ _ _ Hrd) in E;
      [fold (item_weights a); lia|simpl; lia|simpl; lia].
Qed.

(** X12. Lines 57-143: a returned value is no larger than its record.  Its
    weight (one for each value in it, containers included, and one for
    each character of a string) is at most the number of bytes that
    [_read_jsonb] reports as consumed, and at most the length of the
    buffer. *)
Theorem value_is_no_larger_than_its_record (jsonb_data : bytes)
    (v : pyvalue) (n : N) :
  _read_jsonb jsonb_data = Return (v, n) ->
  weight v <= n /\ weight v <= Py.len jsonb_data.
Proof. apply (weight_bound (length jsonb_data)). apply le_n. Qed.

(** [5b 37 c3 a9 41 0b]: the array of the string of U+00E9 and U+0041 and of
    an empty array, of weight 5 in 6 bytes. *)
Lemma value_is_no_larger_than_its_record_witness :
  _read_jsonb [x5b; x37; xc3; xa9; x41; x0b]
  = Return (PyList [PyStr [233; 65]; PyList []], 6) /\
  weight (PyList [PyStr [233; 65]; PyList []]) = 5 /\
  (5 <= 6 /\ 5 <= 6).
Proof.
  split; [reflexivity|]. split; [reflexivity|].
  exact (value_is_no_larger_than_its_record
           [x5b; x37; xc3; xa9; x41; x0b]
           (PyList [PyStr [233; 65]; PyList []]) 6 eq_refl).
Defined.

(** ** The exceptions that leave the reader *)

Lemma decode_ascii_Raise (b : bytes) (e : exception) :
  Py.decode_ascii b = Raise e -> e = UnicodeDecodeError ascii.
Proof.
  unfold Py.decode_ascii. destruct (forallb _ b); [discriminate|].
  now intros [= <-].
Qed.

Lemma decode_utf8_Raise (b : bytes) (e : exception) :
  Py.decode_utf8 b = Raise e -> e = UnicodeDecodeError utf_8.
Proof.
  unfold Py.decode_utf8. destruct (Py.utf8 _); [discriminate|].
  now intros [= <-].
Qed.

Lemma int_Raise (s : str) (base : N) (e : exception) :
  Py.int_ s base = Raise e -> e = ValueError Invalid_literal_for_int.
Proof.
  destruct (int_Return_or_Raise s base) as [[z ->]| ->]; [discriminate|].
  now intros [= <-].
Qed.

Lemma float_Raise (s : str) (e : exception) :
  Py.float_ s = Raise e -> e = ValueError Could_not_convert_to_float.
Proof.
  unfold Py.float_. destruct (Py.strip_underscores _ _); [|now intros [= <-]].
  destruct (match Py._Py_dg_strtod _ with Some r => Some r | None => _ end)
    as [[x r]|]; [|now intros [= <-]].
  destruct (Py.is_nil _); [discriminate|now intros [= <-]].
Qed.

Lemma header_Raise (jsonb_data : bytes) (e : exception) :
  header jsonb_data = Raise e ->
  e = ValueError Input_buffer_is_empty \/ e = IndexError \/ e = struct_error.
Proof.
  destruct jsonb_data as [|byte0 rest]; [intros [= <-]; now left|].
  rewrite header_cons. destruct (JsonbType_tag byte0) as [t ->]. cbn [bind].
  destruct (selector byte0 <=? 11); [discriminate|].
  destruct (_ <=? Py.len rest); [discriminate|].
  destruct (selector byte0 =? 12); intros [= <-]; auto.
Qed.

Lemma Key_already_in_object_raised (key : pyvalue) :
  Py.hashable key = true -> raised_by_the_reader (Key_already_in_object key).
Proof.
  intros H. unfold Key_already_in_object.
  destruct key; try exact H. destruct (_ <=? _)%Z; [exact I|exact H].
Qed.

Section Raised.

Variable rd : bytes -> outcome (pyvalue * N).
Variable inner_data : bytes.
Variable size : N.

Hypothesis rd_raised :
  forall c e, rd (Py.from c inner_data) = Raise e -> raised_by_the_reader e.

Lemma array_loop_raised (n : nat) :
  forall c acc e,
    array_loop rd n inner_data size c acc = Raise e -> raised_by_the_reader e.
Proof.
  induction n as [|n IH]; intros c acc e H.
  - simpl in H. destruct (c <? size); discriminate.
  - rewrite array_loop_S in H. destruct (c <? size); [|discriminate].
    destruct (rd (Py.from c inner_data)) as [[el k]|e'|] eqn:E;
      cbn [bind] in H.
    + exact (IH _ _ _ H).
    + injection H as <-. exact (rd_raised _ _ E).
    + discriminate.
Qed.

Lemma object_loop_raised (n : nat) :
  forall c acc e,
    object_loop rd n inner_data size c acc = Raise e -> raised_by_the_reader e.
Proof.
  induction n as [|n IH]; intros c acc e H.
  - simpl in H. destruct (c <? size); discriminate.
  - rewrite object_loop_S in H. destruct (c <? size); [|discriminate].
    destruct (rd (Py.from c inner_data)) as [[key ks]|e'|] eqn:E;
      cbn [bind] in H;
      [|injection H as <-; exact (rd_raised _ _ E)|discriminate].
    destruct (size <=? c + ks); [injection H as <-; exact I|].
    destruct (rd (Py.from (c + ks) inner_data)) as [[v vs]|e'|] eqn:E';
      cbn [bind] in H;
      [|injection H as <-; exact (rd_raised _ _ E')|discriminate].
    unfold Py.contains, Py.setitem in H.
    destruct (Py.hashable key) eqn:Hk; cbn [bind] in H;
      [|injection H as <-; exact I].
    destruct (existsb _ acc); cbn [bind] in H.
    + injection H as <-. now apply Key_already_in_object_raised.
    + exact (IH _ _ _ H).
Qed.

End Raised.

Lemma raised_bound (m : nat) :
  forall jsonb_data e,
    (length jsonb_data <= m)%nat ->
    _read_jsonb jsonb_data = Raise e -> raised_by_the_reader e.
Proof.
  induction m as [|m IH]; intros jsonb_data e Hm H;
    rewrite _read_jsonb_eq in H; unfold _read_jsonb_body in H;
    destruct (header jsonb_data) as [[[t size] dso]|e'|] eqn:Hh;
    cbn [bind] in H; try discriminate H;
    try (injection H as <-;
         destruct (header_Raise _ _ Hh) as [->|[->| ->]]; exact I).
  { destruct jsonb_data; [discriminate Hh|simpl in Hm; lia]. }
  destruct (header_Return _ _ _ _ Hh) as (byte0 & rest & -> & _ & Hdso & _ & Hin).
  pose proof (header_length_pos (selector byte0)) as Hpos. rewrite <- Hdso in Hpos.
  set (data := byte0 :: rest) in *.
  assert (Hrd : forall c e,
            _read_jsonb (Py.from c (Py.slice dso (dso + size) data)) = Raise e ->
            raised_by_the_reader e).
  { intros c e0. apply IH.
    pose proof (length_from_le c (Py.slice dso (dso + size) data)).
    pose proof (length_slice_le dso (dso + size) data).
    subst data. simpl length in *. lia. }
  destruct (payload _read_jsonb data t size dso) as [v|e'|] eqn:Hp;
    cbn [bind] in H; try discriminate H. injection H as <-.
  destruct t; unfold payload in Hp;
    repeat match type of Hp with
    | (if ?c then _ else _) = _ => destruct c
    | bind ?x _ = _ =>
      let E := fresh "E" in destruct x eqn:E; cbn [bind] in Hp
    end;
    try discriminate Hp; injection Hp as <-;
    try exact I; try (left; reflexivity); try (right; reflexivity);
    try (apply decode_ascii_Raise in E; subst; exact I);
    try (apply decode_utf8_Raise in E; subst; exact I);
    try (apply int_Raise in E0; subst; exact I);
    try (apply float_Raise in E0; subst; exact I).
  - exact (array_loop_raised _ _ _ Hrd _ _ _ _ E).
  - exact (object_loop_raised _ _ _ Hrd _ _ _ _ E).
Qed.

(** X13. Lines 57-143: the exceptions that leave the reader.  Whatever
    the buffer, an exception raised by [_read_jsonb] is never the
    [ValueError] of line 78 nor that of the enum call of line 61; a
    [NotImplementedError] comes from a TextJ or Text5 record, and the key
    shown by a [KeyError] is one that can be hashed. *)
Theorem only_these_exceptions_leave (jsonb_data : bytes) (e : exception) :
  _read_jsonb jsonb_data = Raise e -> raised_by_the_reader e.
Proof. apply (raised_bound (length jsonb_data)). apply le_n. Qed.

(** [6c 17 "a" 00 17 "a" 01], the key "a" twice, inside the array
    [7b 6c ...]. *)
Lemma only_these_exceptions_leave_witness :
  _read_jsonb [x7b; x6c; x17; x61; x00; x17; x61; x01]
  = Raise (KeyError (PyStr [97])) /\
  raised_by_the_reader (KeyError (PyStr [97])).
Proof.
  split; [reflexivity|].
  exact (only_these_exceptions_leave
           [x7b; x6c; x17; x61; x00; x17; x61; x01]
           (KeyError (PyStr [97])) eq_refl).
Defined.

(** ** A buffer cut inside the size prefix *)

(** X14. Lines 62-76: whatever the tag, a buffer that ends inside the size
    prefix announced by its first byte raises [IndexError] when the prefix
    is the single byte of selector 12 and [struct.error] when it has two,
    four or eight bytes; neither is a [ValueError]. *)
Theorem cut_size_prefix_is_not_a_ValueError (byte0 : byte) (rest : bytes) :
  Py.len rest < header_length (selector byte0) - 1 ->
  _read_jsonb (byte0 :: rest)
  = Raise (if selector byte0 =? 12 then IndexError else struct_error).
Proof.
  intros Hc. rewrite _read_jsonb_eq. unfold _read_jsonb_body.
  rewrite header_cons. destruct (JsonbType_tag byte0) as [t ->]. cbn [bind].
  destruct (N.leb_spec (selector byte0) 11) as [H11|H11].
  - unfold header_length in Hc.
    replace (selector byte0 <=? 11) with true in Hc
      by (symmetry; now apply N.leb_le).
    lia.
  - destruct (N.leb_spec (header_length (selector byte0) - 1) (Py.len rest));
      [lia|reflexivity].
Qed.

(** An Array with a four-byte size prefix of which three bytes are there,
    and a Text with the one prefix byte missing. *)
Lemma cut_size_prefix_is_not_a_ValueError_witness :
  _read_jsonb [xeb; x00; x00; x00] = Raise struct_error /\
  _read_jsonb [xc7] = Raise IndexError.
Proof.
  split.
  - refine (cut_size_prefix_is_not_a_ValueError xeb [x00; x00; x00] _).
    reflexivity.
  - refine (cut_size_prefix_is_not_a_ValueError xc7 [] _). reflexivity.
Defined.

(** ** Other spellings of a hexadecimal Int5 *)

(** X15. Lines 95-98: only a lower-case [0x] at the very start of the
    payload selects base 16.  An Int5 payload that starts with [0X], or
    with a sign before [0x] or [0X], goes to [int] in base 10, which stops
    at the letter: the record raises [ValueError]. *)
Theorem Int5_other_hexadecimal_spellings_are_refused (S : N) (pre hs : str)
    (rest : bytes) :
  In pre [[48; 88]; [45; 48; 120]; [43; 48; 120]; [45; 48; 88]; [43; 48; 88]] ->
  Forall (fun c => c < 128) hs ->
  let text := map byte_of_N (pre ++ hs) in
  representable S (Py.len text) ->
  _read_jsonb (header_bytes S 4 (Py.len text) ++ text ++ rest)
  = Raise (ValueError Invalid_literal_for_int).
Proof.
  intros Hpre Hhs text Hr.
  rewrite (read_header_bytes S 4 _ Int5 _ Hr eq_refl).
  assert (Hascii : Forall (fun c => c < 128) (pre ++ hs)).
  { apply Forall_app. split; [|exact Hhs].
    simpl in Hpre.
    repeat (destruct Hpre as [<-|Hpre]; [repeat constructor|]).
    contradiction. }
  assert (Hb : map Byte.to_N text = pre ++ hs).
  { apply map_to_N_byte_of_N. eapply Forall_impl; [|exact Hascii].
    intros c Hc. cbv beta in *. lia. }
  assert (Hdec : Py.decode_ascii text = Return (pre ++ hs)).
  { unfold Py.decode_ascii. rewrite Hb.
    replace (forallb _ text) with true; [reflexivity|].
    symmetry. apply forallb_forall. intros x Hx.
    apply (in_map Byte.to_N) in Hx. rewrite Hb in Hx.
    apply N.ltb_lt. rewrite Forall_forall in Hascii. exact (Hascii _ Hx). }
  assert (Hint : Py.int_ (pre ++ hs) 10
                 = Raise (ValueError Invalid_literal_for_int)).
  { simpl in Hpre.
    repeat (destruct Hpre as [<-|Hpre]; [reflexivity|]). contradiction. }
  assert (Hnot : Py.slice 0 (0 + 2) (text ++ rest) <> [x30; x78]).
  { rewrite slice_from_upto, from_0, upto_firstn. unfold text.
    simpl in Hpre.
    repeat (destruct Hpre as [<-|Hpre]; [discriminate|]). contradiction. }
  unfold payload.
  destruct (list_eq_dec _ _ _) as [Heq|_]; [contradiction|].
  rewrite slice_from_upto, from_0, upto_app_len, Hdec. cbn [bind].
  now rewrite Hint.
Qed.

(** [0X1F] and [-0x1f] *)
Lemma Int5_other_hexadecimal_spellings_are_refused_witness :
  _read_jsonb ([x44; x30; x58; x31; x46] ++ [])
  = Raise (ValueError Invalid_literal_for_int) /\
  _read_jsonb ([x54; x2d; x30; x78; x31; x66] ++ [])
  = Raise (ValueError Invalid_literal_for_int).
Proof.
  split.
  - refine (Int5_other_hexadecimal_spellings_are_refused
              4 [48; 88] [49; 70] [] _ _ _).
    + simpl. auto.
    + repeat constructor.
    + left. split; [discriminate|reflexivity].
  - refine (Int5_other_hexadecimal_spellings_are_refused
              5 [45; 48; 120] [49; 102] [] _ _ _).
    + simpl. auto.
    + repeat constructor.
    + left. split; [discriminate|reflexivity].
Defined.

(** ** The reader gives back what a writer wrote *)

Lemma json_induction (P : json -> Prop) :
  P JNull -> (forall b, P (JBool b)) -> (forall z, P (JInt z)) ->
  (forall s, P (JStr s)) ->
  (forall l, Forall P l -> P (JArr l)) ->
  (forall m, Forall (fun member => P (snd member)) m -> P (JObj m)) ->
  forall j, P j.
Proof.
  intros H0 H1 H2 H3 H4 H5. fix IH 1. intros [|b|z|s|l|m].
  - exact H0.
  - apply H1.
  - apply H2.
  - apply H3.
  - apply H4. induction l as [|e l IHl]; constructor; [apply IH|exact IHl].
  - apply H5. induction m as [|[k x] m IHm]; constructor; [apply IH|exact IHm].
Qed.

Lemma len_record (t : N) (body : bytes) :
  Py.len (record t body)
  = header_length (minimal_selector (Py.len body)) + Py.len body.
Proof. unfold record. now rewrite len_app, len_header_bytes. Qed.

Lemma len_write_pos (j : json) : 1 <= Py.len (write j).
Proof.
  destruct j; cbn [write]; rewrite len_record;
    match goal with
    | |- 1 <= header_length ?S + _ => pose proof (header_length_pos S)
    end; lia.
Qed.

Lemma depth_pos (j : json) : (1 <= depth j)%nat.
Proof. destruct j; cbn [depth]; lia. Qed.

(** One activation of the reader on a written record, whatever reads the
    records nested in it. *)
Lemma body_record rd (t : N) (ty : JsonbType) (body rest : bytes) :
  Py.len body < 256 ^ 8 -> JsonbType_ t = Return ty ->
  _read_jsonb_body rd (record t body ++ rest)
  = result <- payload rd (body ++ rest) ty (Py.len body) 0 ;;
    Return (result, Py.len (record t body)).
Proof.
  intros Hlen Ht. rewrite len_record. unfold record, _read_jsonb_body.
  rewrite <- app_assoc.
  rewrite (header_header_bytes _ t _ ty _
             (representable_minimal_selector _ Hlen) Ht).
  cbn [bind].
  rewrite <- (len_header_bytes (minimal_selector (Py.len body)) t
                               (Py.len body)) at 1.
  now rewrite payload_after_header.
Qed.

Lemma payload_int_text rd (z : Z) (rest : bytes) :
  (Z.abs z < 10 ^ 4300)%Z ->
  payload rd (map byte_of_N (int_text z) ++ rest) Int
          (Py.len (map byte_of_N (int_text z))) 0
  = Return (PyInt z).
Proof.
  intros Hz. unfold payload. rewrite slice_from_upto, from_0, upto_app_len.
  pose proof (int_literal_int_text z Hz) as Hlit.
  assert (E : map Byte.to_N (map byte_of_N (int_text z)) = int_text z).
  { apply map_to_N_byte_of_N. unfold int_text.
    destruct (decimal_digits_spec (Z.abs_N z)) as (_ & Hd & _).
    apply Forall_app. split; [destruct (z <? 0)%Z; repeat constructor|].
    apply Forall_map. eapply Forall_impl; [|exact Hd].
    intros d Hlt. cbv beta in *. lia. }
  rewrite <- E in Hlit.
  rewrite (int_literal_ascii _ z Hlit). cbn [bind].
  apply int_10_literal in Hlit. now rewrite Hlit.
Qed.

Lemma payload_utf8 rd (s : str) (rest : bytes) :
  Forall scalar s ->
  payload rd (encode_utf8 s ++ rest) Text (Py.len (encode_utf8 s)) 0
  = Return (PyStr s).
Proof.
  intros Hs. unfold payload. rewrite slice_from_upto, from_0, upto_app_len.
  now rewrite (decode_utf8_encode_utf8 s Hs).
Qed.

(** A written string takes one activation. *)
Lemma read_written_string (frames : nat) (s : str) (rest : bytes) :
  Forall scalar s -> Py.len (encode_utf8 s) < 256 ^ 8 ->
  _read_jsonb_fuel frames (record 7 (encode_utf8 s) ++ rest)
  = if (1 <=? frames)%nat
    then Return (PyStr s, Py.len (record 7 (encode_utf8 s)))
    else OutOfFuel.
Proof.
  intros Hs Hlen. destruct frames as [|f]; [reflexivity|].
  cbn [_read_jsonb_fuel Nat.leb].
  rewrite (body_record _ 7 Text (encode_utf8 s) rest Hlen eq_refl).
  now rewrite (payload_utf8 _ s rest Hs).
Qed.

Lemma len_concat_In {A} (x : list A) (l : list (list A)) :
  In x l -> Py.len x <= Py.len (concat l).
Proof.
  induction l as [|y l IH]; [contradiction|].
  cbn [concat]. rewrite len_app. intros [->|H]; [lia|].
  specialize (IH H). lia.
Qed.

Lemma str_eqb_eq (s t : str) : Py.str_eqb s t = true -> s = t.
Proof.
  revert t; induction s as [|c s IH]; intros [|d t]; simpl; try discriminate;
    [reflexivity|].
  rewrite andb_true_iff. intros [Hc Hs]. apply N.eqb_eq in Hc.
  now rewrite Hc, (IH _ Hs).
Qed.

Lemma elements_well_formed (l : list json) :
  fold_right (fun e P => well_formed e /\ P) True l -> Forall well_formed l.
Proof.
  induction l as [|e l IH]; cbn [fold_right]; [constructor|].
  intros [He Hl]. constructor; [exact He|now apply IH].
Qed.

Lemma members_well_formed (m : list (str * json)) :
  fold_right (fun '(k, x) P => Forall scalar k /\ well_formed x /\ P) True m ->
  Forall (fun member => Forall scalar (fst member) /\ well_formed (snd member)) m.
Proof.
  induction m as [|[k x] m IH]; cbn [fold_right]; [constructor|].
  intros (Hk & Hx & Hm). constructor; [now split|now apply IH].
Qed.

Lemma max_leb (a b f : nat) :
  (Nat.max a b <=? f)%nat = ((a <=? f)%nat && (b <=? f)%nat).
Proof.
  destruct (Nat.leb_spec a f), (Nat.leb_spec b f); cbn [andb];
    [apply Nat.leb_le|apply Nat.leb_gt..]; lia.
Qed.

Lemma depth_elements (f : nat) (l : list json) :
  (fold_right (fun e d => Nat.max (depth e) d) 0 l <=? f)%nat
  = forallb (fun e => (depth e <=? f)%nat) l.
Proof.
  induction l as [|e l IH]; cbn [fold_right forallb]; [reflexivity|].
  now rewrite max_leb, IH.
Qed.

Lemma depth_members (f : nat) (m : list (str * json)) :
  (fold_right (fun '(k, x) d => Nat.max (depth x) d) 0 m <=? f)%nat
  = forallb (fun member => (depth (snd member) <=? f)%nat) m.
Proof.
  induction m as [|[k x] m IH]; cbn [fold_right forallb snd]; [reflexivity|].
  now rewrite max_leb, IH.
Qed.

Lemma fresh_key (k : str) (done : list (str * json)) :
  ~ In k (map fst done) ->
  existsb (fun item => Py.eq (fst item) (PyStr k))
          (map (fun '(k, x) => (PyStr k, value_of x)) done)
  = false.
Proof.
  induction done as [|[k' x] done IH]; cbn [map existsb fst]; [reflexivity|].
  intros Hn. rewrite IH by (intros F; apply Hn; now right).
  cbn [Py.eq]. destruct (Py.str_eqb k' k) eqn:E; [|reflexivity].
  apply str_eqb_eq in E. destruct Hn. now left.
Qed.

Section Written.

(** The records nested in the one being read are read by the reader with
    [f] activations left. *)
Variable f : nat.

Definition read_with (j : json) : Prop :=
  forall rest,
    _read_jsonb_fuel f (write j ++ rest)
    = if (depth j <=? f)%nat
      then Return (value_of j, Py.len (write j))
      else OutOfFuel.

Lemma array_loop_written (l : list json) :
  Forall read_with l ->
  forall n pre acc,
    (length (concat (map write l)) < n)%nat ->
    array_loop (_read_jsonb_fuel f) n (pre ++ concat (map write l))
               (Py.len pre + Py.len (concat (map write l))) (Py.len pre) acc
    = if forallb (fun e => (depth e <=? f)%nat) l
      then Return (acc ++ map value_of l)
      else OutOfFuel.
Proof.
  induction 1 as [|e l He _ IH]; intros n pre acc Hn;
    (destruct n as [|n]; [simpl in Hn; lia|]); rewrite array_loop_S;
    cbn [map concat forallb].
  - rewrite len_nil, N.add_0_r, N.ltb_irrefl. now rewrite app_nil_r.
  - pose proof (len_write_pos e) as Hpos. rewrite len_app.
    replace (Py.len pre <? _) with true by (symmetry; apply N.ltb_lt; lia).
    rewrite from_app_len, He.
    destruct (depth e <=? f)%nat; cbn [bind andb]; [|reflexivity].
    replace (pre ++ write e ++ concat (map write l))
      with ((pre ++ write e) ++ concat (map write l))
      by now rewrite <- app_assoc.
    replace (Py.len pre + (Py.len (write e) + Py.len (concat (map write l))))
      with (Py.len (pre ++ write e) + Py.len (concat (map write l)))
      by (rewrite len_app; lia).
    rewrite <- (len_app pre (write e)), IH.
    + now rewrite <- app_assoc.
    + cbn [map concat] in Hn. rewrite length_app in Hn.
      unfold Py.len in Hpos. lia.
Qed.

Lemma object_loop_written (m : list (str * json)) :
  Forall (fun member =>
            Forall scalar (fst member) /\
            Py.len (encode_utf8 (fst member)) < 256 ^ 8 /\
            read_with (snd member)) m ->
  forall n pre done,
    NoDup (map fst done ++ map fst m) ->
    (length (concat (map (fun '(k, x) =>
                            record 7 (encode_utf8 k) ++ write x) m)) < n)%nat ->
    object_loop (_read_jsonb_fuel f) n
      (pre ++ concat (map (fun '(k, x) =>
                             record 7 (encode_utf8 k) ++ write x) m))
      (Py.len pre
       + Py.len (concat (map (fun '(k, x) =>
                                record 7 (encode_utf8 k) ++ write x) m)))
      (Py.len pre)
      (map (fun '(k, x) => (PyStr k, value_of x)) done)
    = if forallb (fun member => (depth (snd member) <=? f)%nat) m
      then Return (map (fun '(k, x) => (PyStr k, value_of x)) (done ++ m))
      else OutOfFuel.
Proof.
  induction 1 as [|[k x] m (Hk & Hkl & Hx) _ IH]; intros n pre done Hnd Hn;
    (destruct n as [|n]; [simpl in Hn; lia|]); rewrite object_loop_S;
    cbn [map concat forallb fst snd] in *.
  - rewrite len_nil, N.add_0_r, N.ltb_irrefl. now rewrite app_nil_r.
  - pose proof (len_write_pos x) as Hpos. pose proof (depth_pos x) as Hdp.
    set (key := record 7 (encode_utf8 k)) in *.
    set (tail := concat (map (fun '(k0, x0) =>
                                record 7 (encode_utf8 k0) ++ write x0) m)) in *.
    rewrite !len_app.
    replace (Py.len pre <? _) with true by (symmetry; apply N.ltb_lt; lia).
    rewrite <- !app_assoc, from_app_len.
    unfold key at 1. rewrite (read_written_string f k _ Hk Hkl). fold key.
    destruct (Nat.leb_spec 1 f) as [Hf|Hf]; cbn [bind].
    2:{ replace (depth x <=? f)%nat with false
          by (symmetry; apply Nat.leb_gt; lia).
        reflexivity. }
    replace (_ <=? Py.len pre + Py.len key) with false
      by (symmetry; apply N.leb_gt; lia).
    replace (Py.from (Py.len pre + Py.len key) (pre ++ key ++ write x ++ tail))
      with (write x ++ tail).
    2:{ rewrite <- len_app, (app_assoc pre key). now rewrite from_app_len. }
    rewrite Hx. destruct (depth x <=? f)%nat; cbn [bind andb]; [|reflexivity].
    assert (Hfresh : ~ In k (map fst done)).
    { apply NoDup_remove_2 in Hnd. intros F. apply Hnd, in_or_app. now left. }
    unfold Py.contains, Py.setitem. cbn [Py.hashable bind].
    rewrite (fresh_key k done Hfresh). cbn [bind].
    rewrite (store_fresh _ _ _ (fresh_key k done Hfresh)).
    replace (map (fun '(k0, x0) => (PyStr k0, value_of x0)) done
             ++ [(PyStr k, value_of x)])
      with (map (fun '(k0, x0) => (PyStr k0, value_of x0)) (done ++ [(k, x)]))
      by now rewrite map_app.
    replace (pre ++ key ++ write x ++ tail)
      with ((pre ++ key ++ write x) ++ tail)
      by now rewrite <- !app_assoc.
    replace (Py.len pre + (Py.len key + Py.len (write x) + Py.len tail))
      with (Py.len (pre ++ key ++ write x) + Py.len tail)
      by (rewrite !len_app; lia).
    replace (Py.len pre + Py.len key + Py.len (write x))
      with (Py.len (pre ++ key ++ write x))
      by (rewrite !len_app; lia).
    rewrite IH.
    + now rewrite <- app_assoc.
    + rewrite map_app, <- app_assoc. exact Hnd.
    + rewrite !length_app in Hn. unfold Py.len in Hpos. lia.
Qed.

End Written.

Lemma written_document_read_with (j : json) :
  forall frames, well_formed j -> Py.len (write j) < 256 ^ 8 ->
                 read_with frames j.
Proof.
  induction j as [|b|z|s|l IH|m IH] using json_induction;
    intros frames Hwf Hlen rest; cbn [write value_of well_formed depth] in *;
    (destruct frames as [|f]; [reflexivity|]);
    cbn [_read_jsonb_fuel Nat.leb]; rewrite len_record in Hlen.
  - now rewrite (body_record _ 0 Null [] rest).
  - destruct b.
    + now rewrite (body_record _ 1 Bool_True [] rest).
    + now rewrite (body_record _ 2 Bool_False [] rest).
  - rewrite (body_record _ 3 Int (map byte_of_N (int_text z)) rest);
      [|lia|reflexivity].
    now rewrite (payload_int_text _ z rest Hwf).
  - rewrite (body_record _ 7 Text (encode_utf8 s) rest); [|lia|reflexivity].
    now rewrite (payload_utf8 _ s rest Hwf).
  - apply elements_well_formed in Hwf.
    set (body := concat (map write l)) in *.
    assert (Hall : Forall (read_with f) l).
    { apply Forall_forall. intros e He.
      rewrite Forall_forall in IH, Hwf. apply IH; auto.
      pose proof (len_concat_In (write e) (map write l) (in_map write l e He)).
      fold body in H. lia. }
    rewrite (body_record _ 11 Array body rest); [|lia|reflexivity].
    unfold payload. rewrite slice_from_upto, from_0, upto_app_len.
    pose proof (array_loop_written f l Hall (S (length body)) [] []
                  (Nat.lt_succ_diag_r _)) as Hloop.
    cbn [app] in Hloop. rewrite len_nil, N.add_0_l in Hloop.
    fold body in Hloop. rewrite Hloop, depth_elements.
    now destruct (forallb _ l).
  - destruct Hwf as [Hnd Hwf]. apply members_well_formed in Hwf.
    set (body := concat (map (fun '(k, x) =>
                                record 7 (encode_utf8 k) ++ write x) m)) in *.
    assert (Hall : Forall (fun member =>
                             Forall scalar (fst member) /\
                             Py.len (encode_utf8 (fst member)) < 256 ^ 8 /\
                             read_with f (snd member)) m).
    { apply Forall_forall. intros [k x] He.
      rewrite Forall_forall in IH, Hwf.
      destruct (Hwf _ He) as [Hk Hx]. cbn [fst snd] in *.
      pose proof (len_concat_In _ _
                    (in_map (fun '(k, x) =>
                               record 7 (encode_utf8 k) ++ write x) m _ He))
        as Hle.
      fold body in Hle. rewrite len_app, len_record in Hle.
      split; [exact Hk|]. split; [lia|].
      apply (IH (k, x) He f); cbn [snd]; [exact Hx|lia]. }
    rewrite (body_record _ 12 Object body rest); [|lia|reflexivity].
    unfold payload. rewrite slice_from_upto, from_0, upto_app_len.
    pose proof (object_loop_written f m Hall (S (length body)) [] []
                  Hnd (Nat.lt_succ_diag_r _)) as Hloop.
    cbn [app map] in Hloop. rewrite len_nil, N.add_0_l in Hloop.
    fold body in Hloop. rewrite Hloop, depth_members.
    now destruct (forallb _ m).
Qed.

(** X16. Lines 57-143: the reader gives back what a writer wrote, as deep
    as the interpreter lets it recurse.  [_read_jsonb_fuel frames] is the
    reader when the interpreter allows [frames] nested activations of
    [_read_jsonb]; the activation that would exceed them raises Python's
    [RecursionError], the [OutOfFuel] of the model, which the source does
    not catch.  Every JSON document without floating-point numbers
    (integers of at most 4300 digits, strings of Unicode scalar values, no
    key twice in an object), written with each value under the shortest
    header for its payload in less than [2^64] bytes, is read back with
    the length of what was written, whatever bytes follow, when it is
    nested no deeper than [frames]; a document nested deeper is not read:
    the recursion limit is hit. *)
Theorem written_document_is_read_back_within_its_depth (j : json)
    (rest : bytes) (frames : nat) :
  well_formed j ->
  Py.len (write j) < 256 ^ 8 ->
  _read_jsonb_fuel frames (write j ++ rest)
  = if (depth j <=? frames)%nat
    then Return (value_of j, Py.len (write j))
    else OutOfFuel.
Proof.
  intros Hwf Hlen. exact (written_document_read_with j frames Hwf Hlen rest).
Qed.

(** The document [{"a": [1, null], "b": {"c": true}}], of depth 3, with
    three activations allowed and with two. *)
Lemma written_document_is_read_back_within_its_depth_witness :
  write (JObj [([97], JArr [JInt 1; JNull]);
               ([98], JObj [([99], JBool true)])])
  = [xcc; x0c; x17; x61; x3b; x13; x31; x00; x17; x62; x3c; x17; x63; x01] /\
  _read_jsonb_fuel 3
    ([xcc; x0c; x17; x61; x3b; x13; x31; x00; x17; x62; x3c; x17; x63; x01]
     ++ [xff])
  = Return (PyDict [(PyStr [97], PyList [PyInt 1; PyNone]);
                    (PyStr [98], PyDict [(PyStr [99], PyBool true)])], 14) /\
  _read_jsonb_fuel 2
    ([xcc; x0c; x17; x61; x3b; x13; x31; x00; x17; x62; x3c; x17; x63; x01]
     ++ [xff])
  = OutOfFuel.
Proof.
  assert (Hwf : well_formed (JObj [([97], JArr [JInt 1; JNull]);
                                   ([98], JObj [([99], JBool true)])])).
  { cbn [well_formed fold_right map fst].
    repeat split; repeat constructor; simpl; intuition discriminate. }
  split; [reflexivity|]. split.
  - exact (written_document_is_read_back_within_its_depth
             (JObj [([97], JArr [JInt 1; JNull]);
                    ([98], JObj [([99], JBool true)])]) [xff] 3 Hwf eq_refl).
  - exact (written_document_is_read_back_within_its_depth
             (JObj [([97], JArr [JInt 1; JNull]);
                    ([98], JObj [([99], JBool true)])]) [xff] 2 Hwf eq_refl).
Defined.

(** ** Payloads that cannot be decoded *)

Lemma decode_utf8_Return (p : bytes) (s : str) :
  Py.decode_utf8 p = Return s -> Forall scalar s /\ p = encode_utf8 s.
Proof.
  unfold Py.decode_utf8.
  destruct (Py.utf8 (map Byte.to_N p)) as [s'|] eqn:E; [|discriminate].
  intros [= <-]. destruct (utf8_sound _ _ _ (le_n _) E) as [Hb Hs].
  split; [exact Hs|]. unfold encode_utf8. now rewrite Hb, map_byte_of_N_to_N.
Qed.

(** X17. Lines 101-102: a Text or TextRaw payload that is not the UTF-8 of
    a string of Unicode scalar values (an overlong form, an encoded
    surrogate, a sequence cut short) raises [UnicodeDecodeError]. *)
Theorem Text_that_is_not_UTF8_is_refused (S t : N) (p rest : bytes) :
  t = 7 \/ t = 10 ->
  (forall s, Forall scalar s -> p <> encode_utf8 s) ->
  representable S (Py.len p) ->
  _read_jsonb (header_bytes S t (Py.len p) ++ p ++ rest)
  = Raise (UnicodeDecodeError utf_8).
Proof.
  intros Ht Hp Hr.
  assert (Hpl : forall ty, ty = Text \/ ty = TextRaw ->
            payload _read_jsonb (p ++ rest) ty (Py.len p) 0
            = Raise (UnicodeDecodeError utf_8)).
  { intros ty Hty.
    assert (E : payload _read_jsonb (p ++ rest) ty (Py.len p) 0
                = (x <- Py.decode_utf8 p ;; Return (PyStr x))).
    { destruct Hty as [-> | ->]; unfold payload;
        now rewrite slice_from_upto, from_0, upto_app_len. }
    rewrite E. destruct (Py.decode_utf8 p) as [s|e|] eqn:D; cbn [bind].
    - destruct (decode_utf8_Return _ _ D) as [Hs Hb].
      now destruct (Hp s Hs).
    - now rewrite (decode_utf8_Raise _ _ D).
    - now destruct (decode_utf8_not_OutOfFuel p). }
  destruct Ht as [-> | ->].
  - rewrite (read_header_bytes S 7 _ Text _ Hr eq_refl).
    now rewrite (Hpl Text (or_introl eq_refl)).
  - rewrite (read_header_bytes S 10 _ TextRaw _ Hr eq_refl).
    now rewrite (Hpl TextRaw (or_intror eq_refl)).
Qed.

(** [27 c0 80], an overlong form of U+0000, and [37 ed a0 80], the
    surrogate U+D800. *)
Lemma Text_that_is_not_UTF8_is_refused_witness :
  _read_jsonb ([x27] ++ [xc0; x80] ++ []) = Raise (UnicodeDecodeError utf_8) /\
  _read_jsonb ([x37] ++ [xed; xa0; x80] ++ [])
  = Raise (UnicodeDecodeError utf_8).
Proof.
  split.
  - refine (Text_that_is_not_UTF8_is_refused 2 7 [xc0; x80] [] _ _ _).
    + now left.
    + intros s Hs E. pose proof (decode_utf8_encode_utf8 s Hs) as D.
      rewrite <- E in D. discriminate D.
    + left. split; [discriminate|reflexivity].
  - refine (Text_that_is_not_UTF8_is_refused 3 7 [xed; xa0; x80] [] _ _ _).
    + now left.
    + intros s Hs E. pose proof (decode_utf8_encode_utf8 s Hs) as D.
      rewrite <- E in D. discriminate D.
    + left. split; [discriminate|reflexivity].
Defined.

Lemma decode_ascii_Exists (p : bytes) :
  Exists (fun b => 128 <= Byte.to_N b) p ->
  Py.decode_ascii p = Raise (UnicodeDecodeError ascii).
Proof.
  intros H. unfold Py.decode_ascii.
  replace (forallb _ p) with false; [reflexivity|].
  symmetry. apply not_true_is_false. intros F.
  rewrite forallb_forall in F. apply Exists_exists in H.
  destruct H as (b & Hin & Hb). specialize (F b Hin).
  apply N.ltb_lt in F. lia.
Qed.

(** X18. Lines 92-100: the payload of an Int, Int5, Float or Float5 is
    decoded as ASCII before it is parsed, so a payload with a byte of 128
    or more raises [UnicodeDecodeError], whatever the other bytes are. *)
Theorem numbers_must_be_ASCII (S t : N) (p rest : bytes) :
  3 <= t <= 6 ->
  Exists (fun b => 128 <= Byte.to_N b) p ->
  representable S (Py.len p) ->
  _read_jsonb (header_bytes S t (Py.len p) ++ p ++ rest)
  = Raise (UnicodeDecodeError ascii).
Proof.
  intros Ht Hp Hr. pose proof (decode_ascii_Exists p Hp) as Hd.
  assert (Hsl : Py.slice 0 (0 + Py.len p) (p ++ rest) = p)
    by now rewrite slice_from_upto, from_0, upto_app_len.
  assert (E : t = 3 \/ t = 4 \/ t = 5 \/ t = 6) by lia.
  destruct E as [->|[->|[->| ->]]].
  - rewrite (read_header_bytes S 3 _ Int _ Hr eq_refl).
    unfold payload. now rewrite Hsl, Hd.
  - rewrite (read_header_bytes S 4 _ Int5 _ Hr eq_refl).
    unfold payload. rewrite Hsl, Hd.
    destruct (list_eq_dec _ _ _) as [Heq|_]; [|reflexivity].
    rewrite slice_from_upto, from_0, upto_firstn in Heq.
    change (N.to_nat 2) with 2%nat in Heq.
    destruct p as [|b0 [|b1 p']].
    + inversion Hp.
    + inversion Hp as [? ? Hb|? ? Hb]; subst; [|inversion Hb].
      destruct rest; simpl in Heq; [discriminate Heq|].
      injection Heq as -> _. simpl in Hb. lia.
    + simpl in Heq. injection Heq as -> ->.
      assert (Hp' : Exists (fun b => 128 <= Byte.to_N b) p').
      { inversion Hp as [? ? Hb|? ? Hb]; subst; [simpl in Hb; lia|].
        inversion Hb as [? ? Hb'|? ? Hb']; subst; [simpl in Hb'; lia|].
        exact Hb'. }
      replace (Py.slice (0 + 2) (0 + Py.len (x30 :: x78 :: p'))
                        ((x30 :: x78 :: p') ++ rest)) with p'.
      * now rewrite (decode_ascii_Exists p' Hp').
      * rewrite !len_cons.
        replace (0 + (1 + (1 + Py.len p'))) with (0 + 2 + Py.len p') by lia.
        rewrite slice_from_upto.
        pose proof (from_app_len [x30; x78] (p' ++ rest)) as Hf.
        change (Py.len [x30; x78]) with 2 in Hf.
        change ((x30 :: x78 :: p') ++ rest) with ([x30; x78] ++ p' ++ rest).
        change (0 + 2) with 2. now rewrite Hf, upto_app_len.
  - rewrite (read_header_bytes S 5 _ Float _ Hr eq_refl).
    unfold payload. now rewrite Hsl, Hd.
  - rewrite (read_header_bytes S 6 _ Float5 _ Hr eq_refl).
    unfold payload. now rewrite Hsl, Hd.
Qed.

(** The Int [23 31 d9] and the Int5 [44 "0x1" a0]. *)
Lemma numbers_must_be_ASCII_witness :
  _read_jsonb ([x23] ++ [x31; xd9] ++ []) = Raise (UnicodeDecodeError ascii) /\
  _read_jsonb ([x44] ++ [x30; x78; x31; xa0] ++ [])
  = Raise (UnicodeDecodeError ascii).
Proof.
  split.
  - refine (numbers_must_be_ASCII 2 3 [x31; xd9] [] _ _ _).
    + lia.
    + right. left. simpl. lia.
    + left. split; [discriminate|reflexivity].
  - refine (numbers_must_be_ASCII 4 4 [x30; x78; x31; xa0] [] _ _ _).
    + lia.
    + do 3 right. left. simpl. lia.
    + left. split; [discriminate|reflexivity].
Defined.
